(** * Benchmark harness of the dbt/Snowflake sample project

    A shallow embedding of the four modules of [snowflake/benchmark] that
    carry the harness' logic:

    - [report.py]: percentage change, regression flags, cost estimate,
      build-versus-query tradeoff;
    - [verify_output.py]: fingerprints, per-model verification, summaries;
    - [baseline.py]: the baseline store (save / load);
    - [metrics_collector.py]: the look-back window of the query-history
      lookup.

    Conventions of the embedding.

    - Python [int] is [Z].  Python [float] is IEEE 754 binary64
      ([Binary64.float]): every operation rounds to nearest, ties to even,
      and [round(x, n)] rounds the exact value of [x] to [n] decimals, ties
      to even, and reads the decimal back as a float.  [Report64] holds the
      functions of [report.py] on these floats.
    - [Report] holds the same functions on exact rationals ([Q]), that is,
      without rounding error, NaN or infinities.  It carries the properties
      of order and structure (which comparison is built, which warning,
      which recommendation); the digits of a rounded result can differ
      from the float's at a tie.
    - Strings are byte strings; [lower] and [upper] change the ASCII letters
      only.
    - A Python value of type [Any] is a [pyval]; a [Dict[str, Any]] is an
      association list in insertion order.
    - Exceptions are explicit: a function that can raise returns an
      [outcome].
    - The warehouse is an oracle answering SQL text; every statement sent to
      it is recorded in a log, so that "no query was issued" is a statement
      about the log. *)

From Stdlib Require Import ZArith QArith Qround Qabs Qminmax Lia Lqa String Ascii List Bool.
From Stdlib Require Import SpecFloat.
From stdpp Require Import base option gmap strings pretty.
Import ListNotations.

Local Open Scope Z_scope.
Local Open Scope string_scope.
Local Open Scope list_scope.

(** ** Numbers *)

Module Num.

(** [x < y] and [x > y] on floats, as booleans. *)
Definition Qltb (x y : Q) : bool :=
  match Qcompare x y with Lt => true | _ => false end.

Definition Qgtb (x y : Q) : bool := Qltb y x.

(** Python's [max(a, b)]: [b] when [b > a], otherwise [a]. *)
Definition py_max (a b : Q) : Q := if Qgtb b a then b else a.

(** Nearest integer of a rational, ties to even. *)
Definition round_half_even (x : Q) : Z :=
  let f := Qfloor x in
  match Qcompare (x - inject_Z f)%Q (1 # 2)%Q with
  | Lt => f
  | Gt => f + 1
  | Eq => if Z.even f then f else f + 1
  end.

(** [10 ** n] as a positive number. *)
Definition pow10 (n : nat) : positive := Pos.pow 10 (Pos.of_nat n).

Definition scale (n : nat) : positive :=
  match n with O => 1%positive | S _ => pow10 n end.

(** Python's [round(x, ndigits)] on a float. *)
Definition py_round (x : Q) (ndigits : nat) : Q :=
  Qmake (round_half_even (x * inject_Z (Zpos (scale ndigits)))%Q) (scale ndigits).

(** Python's [int(x)] on a float: truncation towards zero. *)
Definition py_int (x : Q) : Z := Z.quot (Qnum x) (Zpos (Qden x)).

End Num.

(** ** Python values, strings and exceptions *)

Module Py.

(** A value of type [Any].  [PyFloat q] is the finite float written as
    the decimal [q].  [PyObj s] stands for an object of any other class (a
    [datetime], a [Path], a [Decimal]); all the harness ever does with such
    an object is to take its [str()], which is [s]. *)
#[local] Set Warnings "-register-all".
Inductive pyval : Type :=
| PyNone
| PyBool (b : bool)
| PyInt (z : Z)
| PyFloat (q : Q)
| PyStr (s : string)
| PyList (l : list pyval)
| PyTuple (l : list pyval)
| PyDict (d : list (string * pyval))
| PyObj (str : string).

(** A [Dict[str, Any]] in insertion order. *)
Definition pydict : Type := list (string * pyval).

(** [d.get(key)]. *)
Fixpoint get {A : Type} (d : list (string * A)) (key : string) : option A :=
  match d with
  | [] => None
  | (k, v) :: d' => if String.eqb k key then Some v else get d' key
  end.

(** [d.get(key, default)]. *)
Definition get_default {A : Type} (d : list (string * A)) (key : string) (default : A) : A :=
  match get d key with Some v => v | None => default end.

(** [key in d] for a dictionary. *)
Definition has_key {A : Type} (d : list (string * A)) (key : string) : bool :=
  match get d key with Some _ => true | None => false end.

(** The truth value of an object ([bool(v)], [if v], [not v]). *)
Definition truthy (v : pyval) : bool :=
  match v with
  | PyNone => false
  | PyBool b => b
  | PyInt z => negb (Z.eqb z 0)
  | PyFloat q => negb (Qeq_bool q 0)
  | PyStr s => negb (String.eqb s "")
  | PyList l | PyTuple l => match l with [] => false | _ => true end
  | PyDict d => match d with [] => false | _ => true end
  | PyObj _ => true
  end.

(** The number a value denotes in arithmetic, if it is one
    ([bool] is a subclass of [int]). *)
Definition as_number (v : pyval) : option Q :=
  match v with
  | PyBool b => Some (if b then 1%Q else 0%Q)
  | PyInt z => Some (inject_Z z)
  | PyFloat q => Some q
  | _ => None
  end.

Definition is_dict (v : pyval) : bool :=
  match v with PyDict _ => true | _ => false end.

(** The exceptions the harness raises or catches. *)
Inductive exn : Type :=
| ValueError (msg : string)
| JSONDecodeError
| TypeError
| AttributeError
| OSError
| ZeroDivisionError
| OverflowError.

Inductive outcome (A : Type) : Type :=
| Return (a : A)
| Raise (e : exn).
Arguments Return {A} a.
Arguments Raise {A} e.

Definition bind {A B : Type} (m : outcome A) (k : A -> outcome B) : outcome B :=
  match m with Return a => k a | Raise e => Raise e end.

(** *** Strings *)

(** [sub in s] on strings. *)
Fixpoint contains (sub s : string) : bool :=
  String.prefix sub s ||
  match s with
  | EmptyString => false
  | String _ s' => contains sub s'
  end.

Definition lower_ascii (c : ascii) : ascii :=
  let n := nat_of_ascii c in
  if (Nat.leb 65 n && Nat.leb n 90)%bool then ascii_of_nat (n + 32) else c.

(** [s.lower()], on ASCII letters. *)
Fixpoint lower (s : string) : string :=
  match s with
  | EmptyString => EmptyString
  | String c s' => String (lower_ascii c) (lower s')
  end.

(** [s.replace(a, b)] for single characters. *)
Fixpoint replace_char (a b : ascii) (s : string) : string :=
  match s with
  | EmptyString => EmptyString
  | String c s' => String (if Ascii.eqb c a then b else c) (replace_char a b s')
  end.

(** [s.split(sep)[-1]]: what follows the last [sep], the whole string when
    there is none. *)
Fixpoint last_segment_from (sep : ascii) (s acc : string) : string :=
  match s with
  | EmptyString => acc
  | String c s' =>
      if Ascii.eqb c sep then last_segment_from sep s' s'
      else last_segment_from sep s' acc
  end.

Definition last_segment (sep : ascii) (s : string) : string :=
  last_segment_from sep s s.

(** [sep.join(l)]. *)
Fixpoint join (sep : string) (l : list string) : string :=
  match l with
  | [] => ""
  | [x] => x
  | x :: l' => x +:+ sep +:+ join sep l'
  end.

(** [str(n)] for an [int]. *)
Definition str_int (n : Z) : string := pretty n.

(** [str(v)] for an optional [int]. *)
Definition str_opt_int (v : option Z) : string :=
  match v with Some n => str_int n | None => "None" end.

(** [key in data] for a value that came out of [json.load]: key membership
    for a dictionary, element membership for a list, substring for a
    string; any other value is not a container. *)
Definition py_in (key : string) (data : pyval) : outcome bool :=
  match data with
  | PyDict d => Return (has_key d key)
  | PyList l | PyTuple l =>
      Return (existsb (fun v => match v with PyStr s => String.eqb s key | _ => false end) l)
  | PyStr s => Return (contains key s)
  | _ => Raise TypeError
  end.

(** What [json.load] reads back after [json.dump(v, f, default=str)]:
    tuples are written as arrays, an object the encoder does not know is
    replaced by its [str()]; everything else is written as it is. *)
Fixpoint jsonify (v : pyval) : pyval :=
  match v with
  | PyList l => PyList (map jsonify l)
  | PyTuple l => PyList (map jsonify l)
  | PyDict d => PyDict (map (fun kv => (fst kv, jsonify (snd kv))) d)
  | PyObj s => PyStr s
  | _ => v
  end.

(** The values JSON has a notation for. *)
Fixpoint json_native (v : pyval) : bool :=
  match v with
  | PyList l => forallb json_native l
  | PyDict d => forallb (fun kv => json_native (snd kv)) d
  | PyTuple _ | PyObj _ => false
  | _ => true
  end.

(** A file on disk, seen through its parser ([json.load], [yaml.safe_load]):
    [Parsed v] holds the value the parser returns.  Reading can fail in
    three ways: [open] raises; the parser rejects the text
    ([JSONDecodeError], a syntax error, a truncated file); or reading raises
    a [ValueError] of another class, with message [msg]: bytes that are not
    valid in the file's encoding ([UnicodeDecodeError]), an integer literal
    longer than the interpreter converts. *)
Inductive file : Type :=
| Unreadable            (* [open] raises *)
| Malformed             (* the parser raises a syntax error *)
| Undecodable (msg : string)
| Parsed (v : pyval).

(** The file a path names when [components], read left to right, are
    appended to the directory [base]: an empty component and ["."] stay in
    place, [".."] goes up one directory (the root is its own parent), any
    other component goes down.  The directories gone through are taken to
    exist, and there are no symbolic links. *)
Fixpoint resolve (base : list string) (components : list string) : list string :=
  match components with
  | [] => base
  | c :: rest =>
      if (String.eqb c "" || String.eqb c ".")%bool then resolve base rest
      else if String.eqb c ".." then resolve (removelast base) rest
      else resolve (base ++ [c]) rest
  end.

(** [s.split("/")], the component being read in [current]. *)
Fixpoint split_slash (s current : string) : list string :=
  match s with
  | EmptyString => [current]
  | String c s' =>
      if Ascii.eqb c "/" then current :: split_slash s' ""
      else split_slash s' (current +:+ String c "")
  end.

(** [base / s] for a directory [base] and a string [s]: a string that
    starts with a slash is taken from the root. *)
Definition path_join (base : list string) (s : string) : list string :=
  match s with
  | String "/" _ => resolve [] (split_slash s "")
  | _ => resolve base (split_slash s "")
  end.

(** [s.upper()], on ASCII letters. *)
Definition upper_ascii (c : ascii) : ascii :=
  let n := nat_of_ascii c in
  if (Nat.leb 97 n && Nat.leb n 122)%bool then ascii_of_nat (n - 32) else c.

Fixpoint upper (s : string) : string :=
  match s with
  | EmptyString => EmptyString
  | String c s' => String (upper_ascii c) (upper s')
  end.

(** [s.endswith(suffix)]. *)
Fixpoint endswith (s suffix : string) : bool :=
  String.eqb s suffix ||
  match s with
  | EmptyString => false
  | String _ s' => endswith s' suffix
  end.

End Py.

(** ** Binary64 floats

    A Python [float] is an IEEE 754 binary64 number.  [spec_float] is the
    Standard Library's specification of the format: signed zeros,
    infinities, NaN, and finite numbers [(-1)^s * m * 2^e]; with [prec = 53]
    and [emax = 1024] its operations round to nearest, ties to even, as the
    hardware does. *)

Module Binary64.
Import Py.

Definition prec : Z := 53.
Definition emax : Z := 1024.

Definition float : Type := spec_float.

(** The representations that are floats: a finite number has its mantissa
    of exactly 53 bits, or fewer at the smallest exponent. *)
Definition valid (x : float) : bool := valid_binary prec emax x.

Definition zero : float := S754_zero false.

(** [float(n)] for an [int] below the overflow threshold. *)
Definition of_Z (n : Z) : float := binary_normalize prec emax n 0 false.

Definition sub (x y : float) : float := SFsub prec emax x y.
Definition mul (x y : float) : float := SFmul prec emax x y.
Definition div (x y : float) : float := SFdiv prec emax x y.
Definition abs (x : float) : float := SFabs x.

(** [x == y], [x < y] and [x > y]. *)
Definition eqb (x y : float) : bool := SFeqb x y.
Definition ltb (x y : float) : bool := SFltb x y.
Definition gtb (x y : float) : bool := SFltb y x.

(** [x / y]: Python raises [ZeroDivisionError] for a zero divisor, and
    gives the IEEE quotient otherwise (an overflow gives an infinity). *)
Definition truediv (x y : float) : outcome float :=
  if eqb y zero then Raise ZeroDivisionError else Return (div x y).

(** Python's [max(a, b)]: [b] when [b > a], otherwise [a]. *)
Definition py_max (a b : float) : float := if gtb b a then b else a.

Definition is_infinite (x : float) : bool :=
  match x with S754_infinity _ => true | _ => false end.

Definition sign_bit (x : float) : bool :=
  match x with
  | S754_zero s | S754_infinity s | S754_finite s _ _ => s
  | S754_nan => false
  end.

(** The number a finite float denotes. *)
Definition value (x : float) : Q :=
  match x with
  | S754_finite s m e => (inject_Z (cond_Zopp s (Zpos m)) * Qpower 2 e)%Q
  | _ => 0%Q
  end.

(** The float nearest to [num / den], with sign [s]: the quotient of the
    division algorithm of the format, on integers of any size. *)
Definition of_ratio (s : bool) (num den : positive) : float :=
  let '(mz, ez, lz) := SFdiv_core_binary prec emax (Zpos num) 0 (Zpos den) 0 in
  binary_round_aux prec emax s mz ez lz.

(** The float a decimal literal of value [q] denotes. *)
Definition of_Q (q : Q) : float :=
  match Qnum q with
  | Z0 => zero
  | Zpos n => of_ratio false n (Qden q)
  | Zneg n => of_ratio true n (Qden q)
  end.

(** Python's [round(x, ndigits)] on a float, for [ndigits >= 0]: the exact
    value of [x] is rounded to [ndigits] decimals, ties to even, and the
    decimal obtained is read back as a float of the same sign; NaN and the
    infinities round to themselves. *)
Definition py_round (x : float) (ndigits : nat) : float :=
  match x with
  | S754_finite s m e =>
      match Num.round_half_even (value x * inject_Z (Zpos (Num.scale ndigits)))%Q with
      | Z0 => S754_zero s
      | Zpos k | Zneg k => of_ratio s k (Num.scale ndigits)
      end
  | _ => x
  end.

(** The float a value denotes as the right operand of [float * value]:
    [bool] is a subclass of [int]; an [int] too large for a float raises
    [OverflowError]; any other class raises [TypeError]. *)
Definition as_float (v : pyval) : outcome float :=
  match v with
  | PyBool b => Return (of_Z (if b then 1 else 0))
  | PyInt z =>
      if is_infinite (of_Z z) then Raise OverflowError else Return (of_Z z)
  | PyFloat q => Return (of_Q q)
  | _ => Raise TypeError
  end.

(** Whether a float has sign [s]; NaN has both. *)
Definition has_sign (s : bool) (x : float) : bool :=
  match x with
  | S754_nan => true
  | S754_zero s' | S754_infinity s' | S754_finite s' _ _ => Bool.eqb s s'
  end.

(** The integer a finite float contributes to a sum at exponent [ez]. *)
Definition aligned (s : bool) (m : positive) (e ez : Z) : Z :=
  cond_Zopp s (Zpos (fst (shl_align m e ez))).

End Binary64.

(** ** report.py: comparison and reporting engine, on exact rationals *)

Module Report.
Import Num Py.

(** [d.get(key, {})] on a value that must be a dictionary: a value of
    another class has no [get] and the call raises [AttributeError]. *)
Definition get_section (v : pyval) (key : string) : outcome pyval :=
  match v with
  | PyDict d => Return (get_default d key (PyDict []))
  | _ => Raise AttributeError
  end.

(** [_load_cost_config()]: the [cost_estimation] section of
    [benchmark_config.yml] when it is enabled, [None] otherwise.  The
    argument is the configuration file next to the module, [None] when it
    does not exist.  Every exception is caught and gives [None]. *)
Definition _load_cost_config (config_file : option file) : option pydict :=
  match config_file with
  | None => None
  | Some Unreadable | Some Malformed | Some (Undecodable _) => None
  | Some (Parsed config) =>
      match bind (get_section config "benchmarking")
                 (fun b => get_section b "cost_estimation") with
      | Raise _ => None
      | Return (PyDict cost_config) =>
          if negb (truthy (get_default cost_config "enabled" (PyBool false)))
          then None
          else Some cost_config
      | Return _ => None   (* [cost_config.get] raises AttributeError *)
      end
  end.

(** [_calculate_cost(execution_time_ms, cost_config)]. *)
Definition _calculate_cost (execution_time_ms : Q) (cost_config : option pydict) : option Q :=
  match cost_config with
  | None | Some [] => None                      (* [if not cost_config] *)
  | Some cfg =>
      let execution_time_seconds := (execution_time_ms / 1000)%Q in
      let billable_seconds := py_max 60 execution_time_seconds in
      let credits_per_hour := get_default cfg "credits_per_hour" (PyInt 1) in
      let cost_per_credit := get_default cfg "cost_per_credit_usd" (PyFloat (250 # 100)) in
      match as_number credits_per_hour with
      | None => None                            (* TypeError, caught *)
      | Some r =>
          let credits_used := ((billable_seconds / 3600) * r)%Q in
          match as_number cost_per_credit with
          | None => None                        (* TypeError, caught *)
          | Some p =>
              let cost_usd := (credits_used * p)%Q in
              Some (py_round cost_usd 4)
          end
      end
  end.

Record MetricComparison : Type := {
  metric_name : string;
  metric_key : string;
  baseline_value : Q;
  current_value : Q;
  change_pct : Q;
  is_regression : bool;
}.

(** [_calculate_percentage_change(baseline, current)]. *)
Definition _calculate_percentage_change (baseline current : Q) : Q :=
  if Qeq_bool baseline 0 then 0%Q
  else
    let change_pct := (((current - baseline) / Qabs baseline) * 100)%Q in
    py_round change_pct 1.

Definition regression_metrics : list string :=
  [ "execution_time_change_pct";
    "bytes_scanned_change_pct";
    "partitions_scanned_change_pct" ].

(** [_is_regression(metric_name, change_pct)]. *)
Definition _is_regression (metric_name : string) (change_pct : Q) : bool :=
  if existsb (String.eqb metric_name) regression_metrics
  then Qgtb change_pct 0
  else false.

(** A digit string of exactly [n] digits for [0 <= v < 10^n]. *)
Fixpoint digits (n : nat) (v : Z) : string :=
  match n with
  | O => ""
  | S n' => digits n' (v / 10) +:+ str_int (v mod 10)
  end.

(** The format specifications [:.<n>f] ([plus = false]) and [:+.<n>f]
    ([plus = true]). *)
Definition format_f (plus : bool) (n : nat) (x : Q) : string :=
  let m := Z.abs (round_half_even (x * inject_Z (Zpos (scale n)))%Q) in
  let sign := if Qltb x 0 then "-" else if plus then "+" else "" in
  sign +:+ str_int (m / Zpos (scale n)) +:+
  match n with O => "" | _ => "." +:+ digits n (m mod Zpos (scale n)) end.

(** The numeric entries of a metrics dictionary, in insertion order. *)
Definition metrics : Type := list (string * Q).

Section Rendering.

(** [str(x)] of a float is the shortest decimal string that reads back as
    the same binary64 number.  It has no counterpart on exact rationals and
    is a parameter of the functions that build warning texts. *)
Variable repr_float : Q -> string.

(** [_compare_metric_set(baseline_metrics, current_metrics, metric_set_name)],
    given the cost configuration [_load_cost_config()] returned. *)
Definition _compare_metric_set (cost_config : option pydict)
    (baseline_metrics current_metrics : metrics) (metric_set_name : string)
  : list MetricComparison * list string :=
  let baseline_exec_time := get_default baseline_metrics "total_execution_time_ms" 0%Q in
  let current_exec_time := get_default current_metrics "total_execution_time_ms" 0%Q in
  let baseline_bytes := get_default baseline_metrics "total_bytes_scanned" 0%Q in
  let current_bytes := get_default current_metrics "total_bytes_scanned" 0%Q in
  let baseline_rows := get_default baseline_metrics "total_rows_produced" 0%Q in
  let current_rows := get_default current_metrics "total_rows_produced" 0%Q in
  let baseline_cost := _calculate_cost baseline_exec_time cost_config in
  let current_cost := _calculate_cost current_exec_time cost_config in
  let exec_time_change := _calculate_percentage_change baseline_exec_time current_exec_time in
  let exec_time_regression := _is_regression "execution_time_change_pct" exec_time_change in
  let comparisons1 :=
    [ {| metric_name := metric_set_name +:+ " Execution Time";
         metric_key := lower metric_set_name +:+ "_execution_time_change_pct";
         baseline_value := baseline_exec_time;
         current_value := current_exec_time;
         change_pct := exec_time_change;
         is_regression := exec_time_regression |} ] in
  let warnings1 :=
    if exec_time_regression
    then ["execution_time increased by " +:+ repr_float exec_time_change +:+ "%"]
    else [] in
  let bytes_change := _calculate_percentage_change baseline_bytes current_bytes in
  let bytes_regression := _is_regression "bytes_scanned_change_pct" bytes_change in
  let comparisons2 := comparisons1 ++
    [ {| metric_name := metric_set_name +:+ " Bytes Scanned";
         metric_key := lower metric_set_name +:+ "_bytes_scanned_change_pct";
         baseline_value := baseline_bytes;
         current_value := current_bytes;
         change_pct := bytes_change;
         is_regression := bytes_regression |} ] in
  let warnings2 := warnings1 ++
    (if bytes_regression
     then ["bytes_scanned increased by " +:+ repr_float bytes_change +:+ "%"]
     else []) in
  let rows_change := _calculate_percentage_change baseline_rows current_rows in
  let rows_regression := _is_regression "rows_produced_change_pct" rows_change in
  let comparisons3 := comparisons2 ++
    [ {| metric_name := metric_set_name +:+ " Rows Produced";
         metric_key := lower metric_set_name +:+ "_rows_produced_change_pct";
         baseline_value := baseline_rows;
         current_value := current_rows;
         change_pct := rows_change;
         is_regression := rows_regression |} ] in
  match baseline_cost, current_cost with
  | Some baseline_cost, Some current_cost =>
      let cost_change := _calculate_percentage_change baseline_cost current_cost in
      let cost_regression := _is_regression "execution_time_change_pct" cost_change in
      (comparisons3 ++
         [ {| metric_name := metric_set_name +:+ " Estimated Cost";
              metric_key := lower metric_set_name +:+ "_cost_change_pct";
              baseline_value := baseline_cost;
              current_value := current_cost;
              change_pct := cost_change;
              is_regression := cost_regression |} ],
       warnings2 ++
         (if cost_regression
          then ["estimated_cost increased by " +:+ repr_float cost_change +:+ "% ($"
                 +:+ format_f false 4 baseline_cost +:+ " → $"
                 +:+ format_f false 4 current_cost +:+ ")"]
          else []))
  | _, _ => (comparisons3, warnings2)
  end.

End Rendering.

(** The dictionary [_calculate_tradeoff_analysis] returns. *)
Record Tradeoff : Type := {
  build_vs_query_insight : string;
  build_cost_change : Q;
  query_performance_change : Q;
  recommendation : string;
}.

(** The loop [for comp in comparisons: if 'execution_time' in
    comp.metric_key: change = comp.change_pct], started at [acc]. *)
Fixpoint exec_change (comparisons : list MetricComparison) (acc : Q) : Q :=
  match comparisons with
  | [] => acc
  | comp :: rest =>
      exec_change rest
        (if contains "execution_time" (metric_key comp) then change_pct comp else acc)
  end.

(** [_calculate_tradeoff_analysis(build_comparisons, query_comparisons)]. *)
Definition _calculate_tradeoff_analysis
    (build_comparisons query_comparisons : list MetricComparison) : Tradeoff :=
  let build_exec_change := exec_change build_comparisons 0%Q in
  let query_exec_change := exec_change query_comparisons 0%Q in
  let mk insight rec :=
    {| build_vs_query_insight := insight;
       build_cost_change := build_exec_change;
       query_performance_change := query_exec_change;
       recommendation := rec |} in
  if (Qgtb build_exec_change 0 && Qltb query_exec_change 0)%bool then
    mk ("Build cost increased " +:+ format_f true 1 build_exec_change +:+ "%, "
        +:+ "but query performance improved " +:+ format_f false 1 query_exec_change
        +:+ "% (faster queries)")
       "FAVORABLE: Higher build cost for faster queries"
  else if (Qltb build_exec_change 0 && Qgtb query_exec_change 0)%bool then
    mk ("Build cost decreased " +:+ format_f false 1 build_exec_change
        +:+ "% (faster builds), "
        +:+ "but query performance regressed " +:+ format_f true 1 query_exec_change
        +:+ "% (slower queries)")
       "UNFAVORABLE: Lower build cost at cost of slower queries"
  else if (Qgtb build_exec_change 0 && Qgtb query_exec_change 0)%bool then
    mk ("Both build " +:+ format_f true 1 build_exec_change +:+ "% and queries "
        +:+ format_f true 1 query_exec_change +:+ "% got slower")
       "REGRESSION: Both build and query performance degraded"
  else if (Qltb build_exec_change 0 && Qltb query_exec_change 0)%bool then
    mk ("Both build " +:+ format_f false 1 build_exec_change +:+ "% and queries "
        +:+ format_f false 1 query_exec_change +:+ "% got faster")
       "IMPROVEMENT: Both build and query performance improved"
  else
    mk "Build and query metrics show minimal change"
       "NEUTRAL: No significant performance changes".

Record PipelineComparison : Type := {
  pipeline_name : string;
  timestamp : string;
  baseline_metrics : metrics;
  current_metrics : metrics;
  comparisons : list MetricComparison;
  build_comparisons : list MetricComparison;
  query_comparisons : list MetricComparison;
  warnings : list string;
  build_warnings : list string;
  query_warnings : list string;
  tradeoff_analysis : option Tradeoff;      (* [None] is the empty dict *)
  has_baseline : bool;
  verification_status : string;
}.

(** [compare_metrics(...)].  [now] is [datetime.now(timezone.utc).isoformat()]
    and [config_file] the configuration file [_load_cost_config] finds. *)
Definition compare_metrics (repr_float : Q -> string) (now : string)
    (config_file : option file)
    (baseline_metrics current_metrics : metrics)
    (pipeline_name verification_status : string)
    (baseline_query_metrics current_query_metrics : option metrics)
  : PipelineComparison :=
  let '(build_comparisons, build_warnings) :=
    _compare_metric_set repr_float (_load_cost_config config_file)
      baseline_metrics current_metrics "Build" in
  let '(query_comparisons, query_warnings) :=
    match baseline_query_metrics, current_query_metrics with
    | Some bq, Some cq =>
        _compare_metric_set repr_float (_load_cost_config config_file) bq cq "Query"
    | _, _ => ([], [])
    end in
  let all_comparisons := build_comparisons ++ query_comparisons in
  let all_warnings := build_warnings ++ query_warnings in
  let tradeoff_analysis :=
    match query_comparisons with
    | [] => None
    | _ => Some (_calculate_tradeoff_analysis build_comparisons query_comparisons)
    end in
  {| pipeline_name := pipeline_name;
     timestamp := now;
     baseline_metrics := baseline_metrics;
     current_metrics := current_metrics;
     comparisons := all_comparisons;
     build_comparisons := build_comparisons;
     query_comparisons := query_comparisons;
     warnings := all_warnings;
     build_warnings := build_warnings;
     query_warnings := query_warnings;
     tradeoff_analysis := tradeoff_analysis;
     has_baseline := true;
     verification_status := verification_status |}.



(** The [summary] of [generate_aggregated_report]:
    [total_regressions] and [total_pipelines_with_baseline], with
    [pipeline_count]. *)
Record AggregatedSummary : Type := {
  pipeline_count : Z;
  total_regressions : Z;
  total_pipelines_with_baseline : Z;
}.

Fixpoint sum_Z (l : list Z) : Z :=
  match l with
  | [] => 0
  | x :: l' => x + sum_Z l'
  end.

Definition aggregated_summary (pipeline_comparisons : list PipelineComparison)
  : AggregatedSummary :=
  {| pipeline_count := Z.of_nat (length pipeline_comparisons);
     total_regressions :=
       sum_Z (map (fun comp => Z.of_nat (length (warnings comp))) pipeline_comparisons);
     total_pipelines_with_baseline :=
       sum_Z (map (fun comp => if has_baseline comp then 1 else 0) pipeline_comparisons) |}.

End Report.

(** ** report.py on binary64 floats

    The functions of [report.py] that compute with floats, with the
    arithmetic as the interpreter performs it.  Metric values are floats,
    as the signatures say; a Python [int] of magnitude below [2^52] behaves
    in these formulas as the float of the same value. *)

Module Report64.
Import Py Binary64.

(** [_calculate_cost(execution_time_ms, cost_config)].  Every exception
    raised inside the [try] is caught and gives [None]. *)
Definition _calculate_cost (execution_time_ms : float) (cost_config : option pydict)
  : option float :=
  match cost_config with
  | None | Some [] => None                      (* [if not cost_config] *)
  | Some cfg =>
      let body : outcome float :=
        bind (truediv execution_time_ms (of_Z 1000)) (fun execution_time_seconds =>
        let billable_seconds := py_max (of_Z 60) execution_time_seconds in
        let credits_per_hour := get_default cfg "credits_per_hour" (PyInt 1) in
        let cost_per_credit := get_default cfg "cost_per_credit_usd" (PyFloat (250 # 100)) in
        bind (truediv billable_seconds (of_Z 3600)) (fun hours =>
        bind (as_float credits_per_hour) (fun r =>
        let credits_used := mul hours r in
        bind (as_float cost_per_credit) (fun p =>
        let cost_usd := mul credits_used p in
        Return (py_round cost_usd 4))))) in
      match body with
      | Return cost => Some cost
      | Raise _ => None
      end
  end.

Record MetricComparison : Type := {
  metric_name : string;
  metric_key : string;
  baseline_value : float;
  current_value : float;
  change_pct : float;
  is_regression : bool;
}.

(** [_calculate_percentage_change(baseline, current)]. *)
Definition _calculate_percentage_change (baseline current : float) : outcome float :=
  if eqb baseline zero then Return zero
  else
    bind (truediv (sub current baseline) (abs baseline)) (fun quotient =>
    let change_pct := mul quotient (of_Z 100) in
    Return (py_round change_pct 1)).

(** [_is_regression(metric_name, change_pct)]. *)
Definition _is_regression (metric_name : string) (change_pct : float) : bool :=
  if existsb (String.eqb metric_name) Report.regression_metrics
  then gtb change_pct zero
  else false.

(** The format specifications [:.<n>f] ([plus = false]) and [:+.<n>f]
    ([plus = true]) on a float. *)
Definition format_f (plus : bool) (n : nat) (x : float) : string :=
  let sign := if sign_bit x then "-" else if plus then "+" else "" in
  match x with
  | S754_nan => sign +:+ "nan"
  | S754_infinity _ => sign +:+ "inf"
  | _ =>
      let m := Z.abs (Num.round_half_even (value x * inject_Z (Zpos (Num.scale n)))%Q) in
      sign +:+ str_int (m / Zpos (Num.scale n)) +:+
      match n with O => "" | _ => "." +:+ Report.digits n (m mod Zpos (Num.scale n)) end
  end.

(** The numeric entries of a metrics dictionary, in insertion order. *)
Definition metrics : Type := list (string * float).

Section Rendering.

(** [str(x)] of a float, the shortest decimal string that reads back as
    [x], is a parameter of the functions that build warning texts. *)
Variable repr_float : float -> string.

(** [_compare_metric_set(baseline_metrics, current_metrics, metric_set_name)],
    given the cost configuration [_load_cost_config()] returned. *)
Definition _compare_metric_set (cost_config : option pydict)
    (baseline_metrics current_metrics : metrics) (metric_set_name : string)
  : outcome (list MetricComparison * list string) :=
  let baseline_exec_time := get_default baseline_metrics "total_execution_time_ms" zero in
  let current_exec_time := get_default current_metrics "total_execution_time_ms" zero in
  let baseline_bytes := get_default baseline_metrics "total_bytes_scanned" zero in
  let current_bytes := get_default current_metrics "total_bytes_scanned" zero in
  let baseline_rows := get_default baseline_metrics "total_rows_produced" zero in
  let current_rows := get_default current_metrics "total_rows_produced" zero in
  let baseline_cost := _calculate_cost baseline_exec_time cost_config in
  let current_cost := _calculate_cost current_exec_time cost_config in
  bind (_calculate_percentage_change baseline_exec_time current_exec_time)
    (fun exec_time_change =>
  let exec_time_regression := _is_regression "execution_time_change_pct" exec_time_change in
  let comparisons1 :=
    [ {| metric_name := metric_set_name +:+ " Execution Time";
         metric_key := lower metric_set_name +:+ "_execution_time_change_pct";
         baseline_value := baseline_exec_time;
         current_value := current_exec_time;
         change_pct := exec_time_change;
         is_regression := exec_time_regression |} ] in
  let warnings1 :=
    if exec_time_regression
    then ["execution_time increased by " +:+ repr_float exec_time_change +:+ "%"]
    else [] in
  bind (_calculate_percentage_change baseline_bytes current_bytes) (fun bytes_change =>
  let bytes_regression := _is_regression "bytes_scanned_change_pct" bytes_change in
  let comparisons2 := comparisons1 ++
    [ {| metric_name := metric_set_name +:+ " Bytes Scanned";
         metric_key := lower metric_set_name +:+ "_bytes_scanned_change_pct";
         baseline_value := baseline_bytes;
         current_value := current_bytes;
         change_pct := bytes_change;
         is_regression := bytes_regression |} ] in
  let warnings2 := warnings1 ++
    (if bytes_regression
     then ["bytes_scanned increased by " +:+ repr_float bytes_change +:+ "%"]
     else []) in
  bind (_calculate_percentage_change baseline_rows current_rows) (fun rows_change =>
  let rows_regression := _is_regression "rows_produced_change_pct" rows_change in
  let comparisons3 := comparisons2 ++
    [ {| metric_name := metric_set_name +:+ " Rows Produced";
         metric_key := lower metric_set_name +:+ "_rows_produced_change_pct";
         baseline_value := baseline_rows;
         current_value := current_rows;
         change_pct := rows_change;
         is_regression := rows_regression |} ] in
  match baseline_cost, current_cost with
  | Some baseline_cost, Some current_cost =>
      bind (_calculate_percentage_change baseline_cost current_cost) (fun cost_change =>
      let cost_regression := _is_regression "execution_time_change_pct" cost_change in
      Return
        (comparisons3 ++
           [ {| metric_name := metric_set_name +:+ " Estimated Cost";
                metric_key := lower metric_set_name +:+ "_cost_change_pct";
                baseline_value := baseline_cost;
                current_value := current_cost;
                change_pct := cost_change;
                is_regression := cost_regression |} ],
         warnings2 ++
           (if cost_regression
            then ["estimated_cost increased by " +:+ repr_float cost_change +:+ "% ($"
                   +:+ format_f false 4 baseline_cost +:+ " → $"
                   +:+ format_f false 4 current_cost +:+ ")"]
            else [])))
  | _, _ => Return (comparisons3, warnings2)
  end))).

End Rendering.

(** The dictionary [_calculate_tradeoff_analysis] returns. *)
Record Tradeoff : Type := {
  build_vs_query_insight : string;
  build_cost_change : float;
  query_performance_change : float;
  recommendation : string;
}.

(** The loop [for comp in comparisons: if 'execution_time' in
    comp.metric_key: change = comp.change_pct], started at [acc]. *)
Fixpoint exec_change (comparisons : list MetricComparison) (acc : float) : float :=
  match comparisons with
  | [] => acc
  | comp :: rest =>
      exec_change rest
        (if contains "execution_time" (metric_key comp) then change_pct comp else acc)
  end.

(** [_calculate_tradeoff_analysis(build_comparisons, query_comparisons)]. *)
Definition _calculate_tradeoff_analysis
    (build_comparisons query_comparisons : list MetricComparison) : Tradeoff :=
  let build_exec_change := exec_change build_comparisons zero in
  let query_exec_change := exec_change query_comparisons zero in
  let mk insight rec :=
    {| build_vs_query_insight := insight;
       build_cost_change := build_exec_change;
       query_performance_change := query_exec_change;
       recommendation := rec |} in
  if (gtb build_exec_change zero && ltb query_exec_change zero)%bool then
    mk ("Build cost increased " +:+ format_f true 1 build_exec_change +:+ "%, "
        +:+ "but query performance improved " +:+ format_f false 1 query_exec_change
        +:+ "% (faster queries)")
       "FAVORABLE: Higher build cost for faster queries"
  else if (ltb build_exec_change zero && gtb query_exec_change zero)%bool then
    mk ("Build cost decreased " +:+ format_f false 1 build_exec_change
        +:+ "% (faster builds), "
        +:+ "but query performance regressed " +:+ format_f true 1 query_exec_change
        +:+ "% (slower queries)")
       "UNFAVORABLE: Lower build cost at cost of slower queries"
  else if (gtb build_exec_change zero && gtb query_exec_change zero)%bool then
    mk ("Both build " +:+ format_f true 1 build_exec_change +:+ "% and queries "
        +:+ format_f true 1 query_exec_change +:+ "% got slower")
       "REGRESSION: Both build and query performance degraded"
  else if (ltb build_exec_change zero && ltb query_exec_change zero)%bool then
    mk ("Both build " +:+ format_f false 1 build_exec_change +:+ "% and queries "
        +:+ format_f false 1 query_exec_change +:+ "% got faster")
       "IMPROVEMENT: Both build and query performance improved"
  else
    mk "Build and query metrics show minimal change"
       "NEUTRAL: No significant performance changes".

Record PipelineComparison : Type := {
  pipeline_name : string;
  timestamp : string;
  baseline_metrics : metrics;
  current_metrics : metrics;
  comparisons : list MetricComparison;
  build_comparisons : list MetricComparison;
  query_comparisons : list MetricComparison;
  warnings : list string;
  build_warnings : list string;
  query_warnings : list string;
  tradeoff_analysis : option Tradeoff;      (* [None] is the empty dict *)
  has_baseline : bool;
  verification_status : string;
}.

(** [compare_metrics(...)].  [now] is [datetime.now(timezone.utc).isoformat()]
    and [config_file] the configuration file [_load_cost_config] finds. *)
Definition compare_metrics (repr_float : float -> string) (now : string)
    (config_file : option file)
    (baseline_metrics current_metrics : metrics)
    (pipeline_name verification_status : string)
    (baseline_query_metrics current_query_metrics : option metrics)
  : outcome PipelineComparison :=
  bind (_compare_metric_set repr_float (Report._load_cost_config config_file)
          baseline_metrics current_metrics "Build")
    (fun '(build_comparisons, build_warnings) =>
  bind (match baseline_query_metrics, current_query_metrics with
        | Some bq, Some cq =>
            _compare_metric_set repr_float (Report._load_cost_config config_file)
              bq cq "Query"
        | _, _ => Return ([], [])
        end)
    (fun '(query_comparisons, query_warnings) =>
  let all_comparisons := build_comparisons ++ query_comparisons in
  let all_warnings := build_warnings ++ query_warnings in
  let tradeoff_analysis :=
    match query_comparisons with
    | [] => None
    | _ => Some (_calculate_tradeoff_analysis build_comparisons query_comparisons)
    end in
  Return
    {| pipeline_name := pipeline_name;
       timestamp := now;
       baseline_metrics := baseline_metrics;
       current_metrics := current_metrics;
       comparisons := all_comparisons;
       build_comparisons := build_comparisons;
       query_comparisons := query_comparisons;
       warnings := all_warnings;
       build_warnings := build_warnings;
       query_warnings := query_warnings;
       tradeoff_analysis := tradeoff_analysis;
       has_baseline := true;
       verification_status := verification_status |})).

End Report64.

(** ** verify_output.py: output verifier *)

Module Verify.
Import Py.

(** *** The warehouse connection

    A result set is a list of rows; a cell is an integer or SQL [NULL].
    [answer sql] is what [cursor.fetchall()] delivers, [None] when the
    statement fails.  [clock n] is the text of the [n]-th reading of
    [datetime.now(timezone.utc).isoformat()]. *)
Record warehouse : Type := {
  accepts_connection : bool;
  answer : string -> option (list (list (option Z)));
  clock : nat -> string;
}.

(** What a run has done so far: whether [self.connection] is an open
    connection, the statements that reached the warehouse (oldest first),
    and how often the clock was read. *)
Record world : Type := {
  connected : bool;
  queries : list string;
  ticks : nat;
}.

Definition M (A : Type) : Type := world -> A * world.

Definition ret {A : Type} (a : A) : M A := fun w => (a, w).

Definition mbind {A B : Type} (m : M A) (k : A -> M B) : M B :=
  fun w => let (a, w') := m w in k a w'.

Notation "'let*' x ':=' m 'in' k" := (mbind m (fun x => k))
  (at level 10, x name, m at level 100, k at level 200).

Section Connection.

Variable wh : warehouse.

(** [SnowflakeConnection.connect()]: a refused connection leaves
    [self.connection] as it was. *)
Definition connect : M bool :=
  fun w => (accepts_connection wh,
            {| connected := if accepts_connection wh then true else connected w;
               queries := queries w; ticks := ticks w |}).

(** [SnowflakeConnection.close()]. *)
Definition close : M unit :=
  fun w => (tt, {| connected := false; queries := queries w; ticks := ticks w |}).

(** [SnowflakeConnection.execute_query(query)]: [None] when there is no
    open connection (nothing reaches the warehouse) or the statement
    fails. *)
Definition execute_query (query : string) : M (option (list (list (option Z)))) :=
  fun w =>
    if connected w
    then (answer wh query,
          {| connected := true; queries := queries w ++ [query]; ticks := ticks w |})
    else (None, w).

(** [datetime.now(timezone.utc).isoformat()]. *)
Definition now_iso : M string :=
  fun w => (clock wh (ticks w),
            {| connected := connected w; queries := queries w; ticks := S (ticks w) |}).

End Connection.

(** *** Data *)

Record BaselineFingerprint : Type := {
  bf_model_name : string;
  bf_fqn : string;
  bf_row_count : Z;
  bf_content_hash : option Z;
  bf_timestamp : string;
}.

Record CurrentFingerprint : Type := {
  cf_model_name : string;
  cf_fqn : string;
  cf_row_count : Z;
  cf_content_hash : option Z;
  cf_timestamp : string;
}.

Record VerificationResult : Type := {
  model_name : string;
  fqn : string;
  passed : bool;
  row_count_match : option bool;
  hash_match : option bool;
  baseline_row_count : option Z;
  current_row_count : option Z;
  baseline_hash : option Z;
  current_hash : option Z;
  error_message : string;
  warnings : list string;
}.

Record VerificationSummary : Type := {
  pipeline_id : string;
  total_models : Z;
  passed_models : Z;
  failed_models : Z;
  results : list VerificationResult;
  timestamp : string;
}.

(** The dictionary [VerificationSummary.to_dict()] builds. *)
Record SummaryDict : Type := {
  d_pipeline_id : string;
  d_total_models : Z;
  d_passed_models : Z;
  d_failed_models : Z;
  d_success_rate : Q;
  d_results : list VerificationResult;
  d_timestamp : string;
}.

Definition summary_to_dict (s : VerificationSummary) : SummaryDict :=
  {| d_pipeline_id := pipeline_id s;
     d_total_models := total_models s;
     d_passed_models := passed_models s;
     d_failed_models := failed_models s;
     d_success_rate :=
       if Z.ltb 0 (total_models s)
       then (inject_Z (passed_models s) / inject_Z (total_models s))%Q
       else 0%Q;
     d_results := results s;
     d_timestamp := timestamp s |}.

(** An element of the [baseline_fingerprints] list: a dictionary in the
    form [BaselineFingerprint.to_dict] writes, with strings under
    [model_name], [fqn] and [timestamp] and integers under [row_count] and
    [content_hash], each of which may be missing ([content_hash] may also
    be [null]); or a value that is not a dictionary.  Dictionaries holding
    values of other classes under these keys (a [null] row count, a list
    as [fqn]) are outside this type. *)
Inductive fingerprint_entry : Type :=
| FingerprintDict (model_name fqn : option string) (row_count : option Z)
                  (content_hash : option Z) (timestamp : option string)
| NotADict.

(** [BaselineFingerprint.from_dict(data)]. *)
Definition from_dict (data : fingerprint_entry) : outcome BaselineFingerprint :=
  match data with
  | FingerprintDict model_name fqn row_count content_hash timestamp =>
      Return {| bf_model_name := default "" model_name;
                bf_fqn := default "" fqn;
                bf_row_count := default 0 row_count;
                bf_content_hash := content_hash;
                bf_timestamp := default "" timestamp |}
  | NotADict => Raise AttributeError
  end.

(** [_create_baseline_map(baseline_fingerprints)]. *)
Fixpoint _create_baseline_map_from (baseline_fingerprints : list fingerprint_entry)
    (baseline_map : gmap string BaselineFingerprint)
  : outcome (gmap string BaselineFingerprint) :=
  match baseline_fingerprints with
  | [] => Return baseline_map
  | fingerprint_dict :: rest =>
      bind (from_dict fingerprint_dict) (fun fingerprint =>
        let key := if String.eqb (bf_fqn fingerprint) ""
                   then bf_model_name fingerprint
                   else bf_fqn fingerprint in
        _create_baseline_map_from rest (<[key := fingerprint]> baseline_map))
  end.

Definition _create_baseline_map (baseline_fingerprints : list fingerprint_entry)
  : outcome (gmap string BaselineFingerprint) :=
  _create_baseline_map_from baseline_fingerprints ∅.

(** [_compare_fingerprints(baseline, current)]. *)
Definition _compare_fingerprints (baseline : BaselineFingerprint)
    (current : CurrentFingerprint) : VerificationResult :=
  let row_count_match := Z.eqb (bf_row_count baseline) (cf_row_count current) in
  let '(passed1, error_messages1) :=
    if negb row_count_match
    then (false,
          ["Row count mismatch: expected " +:+ str_int (bf_row_count baseline)
             +:+ ", got " +:+ str_int (cf_row_count current)])
    else (true, []) in
  let '(hash_match, passed2, error_messages2, warnings) :=
    if (row_count_match && Z.ltb 0 (cf_row_count current))%bool then
      match bf_content_hash baseline, cf_content_hash current with
      | Some baseline_hash, Some current_hash =>
          if Z.eqb baseline_hash current_hash
          then (Some true, passed1, error_messages1, [])
          else (Some false, false,
                error_messages1 ++
                  ["Content hash mismatch: expected " +:+ str_int baseline_hash
                     +:+ ", got " +:+ str_int current_hash],
                [])
      | Some baseline_hash, None =>
          (None, passed1, error_messages1,
           ["Could not compute current content hash for comparison "
              +:+ "(baseline hash: " +:+ str_int baseline_hash +:+ ")"])
      | None, Some current_hash =>
          (None, passed1, error_messages1,
           ["Current content hash computed but baseline has none "
              +:+ "(current hash: " +:+ str_int current_hash +:+ ")"])
      | None, None => (Some true, passed1, error_messages1, [])
      end
    else (Some true, passed1, error_messages1, []) in
  {| model_name := cf_model_name current;
     fqn := cf_fqn current;
     passed := passed2;
     row_count_match := Some row_count_match;
     hash_match := hash_match;
     baseline_row_count := Some (bf_row_count baseline);
     current_row_count := Some (cf_row_count current);
     baseline_hash := bf_content_hash baseline;
     current_hash := cf_content_hash current;
     error_message := join " | " error_messages2;
     warnings := warnings |}.

(** A result built with only [model_name], [fqn], [passed],
    [error_message] and possibly [warnings] given. *)
Definition plain_result (model_name fqn : string) (passed : bool)
    (error_message : string) (warnings : list string) : VerificationResult :=
  {| model_name := model_name; fqn := fqn; passed := passed;
     row_count_match := None; hash_match := None;
     baseline_row_count := None; current_row_count := None;
     baseline_hash := None; current_hash := None;
     error_message := error_message; warnings := warnings |}.

Section Verifier.

Variable wh : warehouse.

(** [results[0][0]] of a single-value query: [None] when the query failed
    or returned nothing (also when the first row is empty, an [IndexError]
    that is caught), [Some cell] otherwise. *)
Definition first_cell (results : option (list (list (option Z)))) : option (option Z) :=
  match results with
  | None | Some [] => None
  | Some ([] :: _) => None
  | Some ((cell :: _) :: _) => Some cell
  end.

(** [_get_row_count(fqn)]. *)
Definition _get_row_count (fqn : string) : M (option Z) :=
  let* results := execute_query wh ("SELECT COUNT(*) FROM " +:+ fqn) in
  ret match first_cell results with
      | None => None
      | Some None => Some 0
      | Some (Some row_count) => Some row_count
      end.

(** [_try_hash_agg(fqn)]. *)
Definition _try_hash_agg (fqn : string) : M (option Z) :=
  let* results := execute_query wh ("SELECT HASH_AGG(HASH(*)) FROM " +:+ fqn) in
  ret match first_cell results with
      | None | Some None => None
      | Some (Some hash_result) => Some hash_result
      end.

(** [_try_sum_hash(fqn)]. *)
Definition _try_sum_hash (fqn : string) : M (option Z) :=
  let* results := execute_query wh ("SELECT SUM(HASH(*)) FROM " +:+ fqn) in
  ret match first_cell results with
      | None | Some None => None
      | Some (Some hash_result) => Some hash_result
      end.

(** [_get_content_hash(fqn, row_count)]. *)
Definition _get_content_hash (fqn : string) (row_count : Z) : M (option Z) :=
  if Z.eqb row_count 0 then ret None
  else
    let* hash_result := _try_hash_agg fqn in
    match hash_result with
    | Some h => ret (Some h)
    | None =>
        let* hash_result := _try_sum_hash fqn in
        match hash_result with
        | Some h => ret (Some h)
        | None => ret None
        end
    end.

(** [_get_current_fingerprint(fqn)]. *)
Definition _get_current_fingerprint (fqn : string) : M (option CurrentFingerprint) :=
  let model_name := last_segment "." fqn in
  let* row_count := _get_row_count fqn in
  match row_count with
  | None => ret None
  | Some row_count =>
      let* content_hash := _get_content_hash fqn row_count in
      let* ts := now_iso wh in
      ret (Some {| cf_model_name := model_name;
                   cf_fqn := fqn;
                   cf_row_count := row_count;
                   cf_content_hash := content_hash;
                   cf_timestamp := ts |})
  end.

(** [_verify_single_model(fqn, baseline_map)].  A [BaselineFingerprint] is
    always true as a condition, so [a or b] is [a] unless [a] is [None]. *)
Definition _verify_single_model (fqn : string)
    (baseline_map : gmap string BaselineFingerprint) : M VerificationResult :=
  let model_name := last_segment "." fqn in
  let baseline :=
    match baseline_map !! fqn with
    | Some b => Some b
    | None => baseline_map !! model_name
    end in
  match baseline with
  | None =>
      ret (plain_result model_name fqn true
             "No baseline available (first run)"
             ["No baseline fingerprint found - output accepted as baseline"])
  | Some baseline =>
      let* current := _get_current_fingerprint fqn in
      match current with
      | None =>
          ret (plain_result model_name fqn false
                 ("Failed to retrieve fingerprint for model " +:+ model_name) [])
      | Some current => ret (_compare_fingerprints baseline current)
      end
  end.

(** [_create_failed_summary(pipeline_id, model_fqns)]. *)
Definition _create_failed_summary (pipeline_id : string) (model_fqns : list string)
  : M SummaryDict :=
  let results :=
    map (fun fqn =>
           plain_result (last_segment "." fqn) fqn false
             "Verification system error - unable to connect or verify" [])
        model_fqns in
  let* ts := now_iso wh in
  ret (summary_to_dict
         {| pipeline_id := pipeline_id;
            total_models := Z.of_nat (length model_fqns);
            passed_models := 0;
            failed_models := Z.of_nat (length model_fqns);
            results := results;
            timestamp := ts |}).

(** The loop of [verify_models] over [model_fqns], carrying [results] and
    [passed_count]. *)
Fixpoint verify_loop (model_fqns : list string)
    (baseline_map : gmap string BaselineFingerprint)
    (results : list VerificationResult) (passed_count : Z)
  : M (list VerificationResult * Z) :=
  match model_fqns with
  | [] => ret (results, passed_count)
  | fqn :: rest =>
      let* result := _verify_single_model fqn baseline_map in
      verify_loop rest baseline_map (results ++ [result])
        (if passed result then passed_count + 1 else passed_count)
  end.

(** [verify_models(pipeline_id, model_fqns, baseline_fingerprints)]. *)
Definition verify_models (pipeline_id : string) (model_fqns : list string)
    (baseline_fingerprints : list fingerprint_entry) : M SummaryDict :=
  let* ok := connect wh in
  if negb ok then _create_failed_summary pipeline_id model_fqns
  else
    let* summary :=
      match _create_baseline_map baseline_fingerprints with
      | Raise _ => _create_failed_summary pipeline_id model_fqns
      | Return baseline_map =>
          let* rp := verify_loop model_fqns baseline_map [] 0 in
          let* ts := now_iso wh in
          ret (summary_to_dict
                 {| pipeline_id := pipeline_id;
                    total_models := Z.of_nat (length model_fqns);
                    passed_models := snd rp;
                    failed_models := Z.of_nat (length model_fqns) - snd rp;
                    results := fst rp;
                    timestamp := ts |})
      end in
    let* closed := close in
    ret summary.

End Verifier.

(** The state of a fresh verifier: not connected, nothing sent. *)
Definition initial_world : world :=
  {| connected := false; queries := []; ticks := 0 |}.

End Verify.

(** ** baseline.py: baseline store *)

Module Baseline.
Import Py.

(** A [Path], as its components from the root. *)
Definition path : Type := list string.

(** [p.name] and [p.parent]. *)
Definition name (p : path) : string := List.last p "".
Definition parent (p : path) : path := removelast p.

(** The files below the working tree, and the places where creating a
    directory or opening a file for writing is refused. *)
Record filesystem : Type := {
  files : gmap (list string) file;
  write_denied : list string -> bool;
}.

(** What [save_baseline] reads from its surroundings: the working
    directory, the clock, and the three best-effort metadata probes
    ([_get_git_commit_hash], [_get_dbt_version], [_get_username]), each of
    which returns [None] when its source is not available.
    [encoder_raises v] tells whether [json.dump(v, f, indent=2,
    default=str)] raises while it writes [v]: it does for an [int] with
    more decimal digits than the interpreter converts (4300 by default since
    Python 3.11), and how many that is is a setting of the interpreter. *)
Record environment : Type := {
  cwd : path;
  now : string;
  git_commit_hash : option string;
  dbt_version_probe : option string;
  username_probe : option string;
  encoder_raises : pyval -> bool;
}.

Record BaselineMetadata : Type := {
  timestamp : string;
  git_commit : option string;
  dbt_version : option string;
  username : option string;
}.

Definition opt_str (v : option string) : pyval :=
  match v with Some s => PyStr s | None => PyNone end.

(** [BaselineMetadata.to_dict()]. *)
Definition metadata_to_dict (m : BaselineMetadata) : pyval :=
  PyDict [ ("timestamp", PyStr (timestamp m));
           ("git_commit", opt_str (git_commit m));
           ("dbt_version", opt_str (dbt_version m));
           ("username", opt_str (username m)) ].

Record BaselineData : Type := {
  pipeline_name : string;
  build_metrics : pyval;
  query_metrics : pyval;
  fingerprints : pyval;
  metadata : BaselineMetadata;
}.

(** [BaselineData.to_dict()]. *)
Definition to_dict (b : BaselineData) : pyval :=
  PyDict [ ("pipeline_name", PyStr (pipeline_name b));
           ("build_metrics", build_metrics b);
           ("query_metrics", query_metrics b);
           ("fingerprints", fingerprints b);
           ("metadata", metadata_to_dict (metadata b)) ].

Section Store.

Variable env : environment.

(** [_get_baselines_dir(snowflake_dir)]. *)
Definition _get_baselines_dir (snowflake_dir : option path) : path :=
  let snowflake_dir :=
    match snowflake_dir with
    | Some d => d
    | None =>
        let current_dir := cwd env in
        if String.eqb (name current_dir) "benchmark"
        then parent current_dir
        else current_dir
    end in
  snowflake_dir ++ ["benchmark"; "baselines"].

(** [_get_baseline_file_path(pipeline_name, snowflake_dir)]. *)
Definition _get_baseline_file_path (pipeline_name : string)
    (snowflake_dir : option path) : path :=
  let baselines_dir := _get_baselines_dir snowflake_dir in
  let filename := replace_char " " "_" (lower pipeline_name) +:+ "_baseline.json" in
  path_join baselines_dir filename.

(** [save_baseline(pipeline_name, build_metrics, query_metrics,
    fingerprints, snowflake_dir)], with the file system it leaves.
    The three [ValueError]s are raised before the [try]; inside it every
    exception is caught and turned into [False]. *)
Definition save_baseline (fs : filesystem) (pipeline_name : string)
    (build_metrics query_metrics fingerprints : pyval)
    (snowflake_dir : option path) : outcome (bool * filesystem) :=
  if String.eqb pipeline_name "" then
    Raise (ValueError "pipeline_name cannot be empty")
  else if negb (is_dict build_metrics) then
    Raise (ValueError "build_metrics must be a dictionary")
  else if negb (is_dict query_metrics) then
    Raise (ValueError "query_metrics must be a dictionary")
  else
    let baselines_dir := _get_baselines_dir snowflake_dir in
    if write_denied fs baselines_dir then Return (false, fs)   (* mkdir raises *)
    else
      let metadata :=
        {| timestamp := now env;
           git_commit := git_commit_hash env;
           dbt_version := dbt_version_probe env;
           username := username_probe env |} in
      let baseline_data :=
        {| pipeline_name := pipeline_name;
           build_metrics := build_metrics;
           query_metrics := query_metrics;
           fingerprints := fingerprints;
           metadata := metadata |} in
      let file_path := _get_baseline_file_path pipeline_name snowflake_dir in
      if write_denied fs file_path then Return (false, fs)     (* open raises *)
      else if encoder_raises env (to_dict baseline_data) then
        (* [open(file_path, 'w')] has emptied the file and [json.dump]
           raises part-way: what is left is not a JSON document *)
        Return (false,
                {| files := <[file_path := Malformed]> (files fs);
                   write_denied := write_denied fs |})
      else
        Return (true,
                {| files := <[file_path := Parsed (jsonify (to_dict baseline_data))]> (files fs);
                   write_denied := write_denied fs |}).

(** The message of the format error. *)
Definition old_format_message : string :=
  "Baseline file uses old format. " +:+
  "Please regenerate baseline with updated benchmark.py".

(** [load_baseline(pipeline_name, snowflake_dir)].  The handlers are, in
    order: [JSONDecodeError] gives [None]; [ValueError] is raised again;
    any other exception gives [None]. *)
Definition load_baseline (fs : filesystem) (pipeline_name : string)
    (snowflake_dir : option path) : outcome (option pyval) :=
  let file_path := _get_baseline_file_path pipeline_name snowflake_dir in
  match files fs !! file_path with
  | None => Return None                         (* the file does not exist *)
  | Some f =>
      let body : outcome (option pyval) :=
        match f with
        | Unreadable => Raise OSError
        | Malformed => Raise JSONDecodeError
        | Undecodable msg => Raise (ValueError msg)
        | Parsed data =>
            bind (py_in "metrics" data) (fun has_metrics =>
            bind (if has_metrics
                  then bind (py_in "build_metrics" data) (fun b => Return (negb b))
                  else Return false) (fun old_format =>
            if old_format then Raise (ValueError old_format_message)
            else Return (Some data)))
        end in
      match body with
      | Return r => Return r
      | Raise JSONDecodeError => Return None
      | Raise (ValueError msg) => Raise (ValueError msg)
      | Raise _ => Return None
      end
  end.

End Store.

(** [data['build_metrics']] and the like on what [load_baseline] returned. *)
Definition field (data : pyval) (key : string) : option pyval :=
  match data with PyDict d => get d key | _ => None end.

(** The value a Python caller holds after [load_baseline]: [None] is the
    object [None]. *)
Definition loaded (r : option pyval) : pyval :=
  match r with Some v => v | None => PyNone end.

Definition required_fields : list string :=
  ["pipeline_name"; "build_metrics"; "query_metrics"; "fingerprints"; "metadata"].

(** [validate_baseline(baseline_data)]. *)
Definition validate_baseline (baseline_data : pyval) : bool * string :=
  match baseline_data with
  | PyNone => (false, "Baseline data is None")
  | PyDict d =>
      if (has_key d "metrics" && negb (has_key d "build_metrics"))%bool then
        (false, old_format_message)
      else
        let missing_fields := List.filter (fun f => negb (has_key d f)) required_fields in
        match missing_fields with
        | _ :: _ =>
            (false, "Missing required fields: " +:+ join ", " missing_fields)
        | [] =>
            match get_default d "metadata" (PyDict []) with
            | PyDict metadata =>
                if negb (has_key metadata "timestamp") then
                  (false, "Missing timestamp in metadata")
                else
                  match get_default d "fingerprints" (PyList []) with
                  | PyList _ =>
                      match get_default d "build_metrics" (PyDict []) with
                      | PyDict _ =>
                          match get_default d "query_metrics" (PyDict []) with
                          | PyDict _ => (true, "Baseline data is valid")
                          | _ => (false, "query_metrics is not a dictionary")
                          end
                      | _ => (false, "build_metrics is not a dictionary")
                      end
                  | _ => (false, "Fingerprints is not a list")
                  end
            | _ => (false, "Metadata is not a dictionary")
            end
        end
  | _ => (false, "Baseline data is not a dictionary")
  end.

(** [clear_baseline(pipeline_name, snowflake_dir)], with the file system it
    leaves.  [unlink] is refused where writing is; the exception is caught
    and gives [False]. *)
Definition clear_baseline (env : environment) (fs : filesystem)
    (pipeline_name : string) (snowflake_dir : option path) : bool * filesystem :=
  let file_path := _get_baseline_file_path env pipeline_name snowflake_dir in
  match files fs !! file_path with
  | None => (true, fs)
  | Some _ =>
      if write_denied fs file_path then (false, fs)
      else (true, {| files := delete file_path (files fs);
                     write_denied := write_denied fs |})
  end.

End Baseline.

(** ** metrics_collector.py: the look-back window of the history lookup *)

Module Collector.
Import Num.

(** A [datetime] is a number of microseconds since the epoch; a
    [timedelta] is a number of microseconds. *)
Definition datetime : Type := Z.

Definition timedelta_minutes (m : Z) : Z := m * 60000000.

(** [(a - b).total_seconds()]. *)
Definition total_seconds (delta : Z) : Q := (inject_Z delta / 1000000)%Q.

(** The look-back of [_query_execution_history(start_time, ...)] at the
    moment [now]:
    [max(int((now - start_time).total_seconds() / 60) + 5, 15)]. *)
Definition minutes_ago_start (now start_time : datetime) : Z :=
  Z.max (py_int (total_seconds (now - start_time) / 60)%Q + 5) 15.

(** The bound the statement passes to the history function,
    [END_TIME_RANGE_START => DATEADD(minute, -m, CURRENT_TIMESTAMP())]. *)
Definition end_time_range_start_sql (now start_time : datetime) : string :=
  "DATEADD(minute, -" +:+ Py.str_int (minutes_ago_start now start_time)
    +:+ ", CURRENT_TIMESTAMP())".

(** The instant that bound denotes when the warehouse's
    [CURRENT_TIMESTAMP()] is [now]. *)
Definition window_start (now start_time : datetime) : datetime :=
  now - timedelta_minutes (minutes_ago_start now start_time).

(** The start time [collect_metrics] hands to [_query_execution_history]:
    [start_dt - timedelta(minutes=time_window_minutes)]. *)
Definition query_start_dt (start_dt : datetime) (time_window_minutes : Z) : datetime :=
  start_dt - timedelta_minutes time_window_minutes.

(** The default of [collect_metrics]' [time_window_minutes]. *)
Definition default_time_window_minutes : Z := 10.

(** Where the history window of [collect_metrics] begins. *)
Definition collect_window_start (now start_dt : datetime) (time_window_minutes : Z)
  : datetime :=
  window_start now (query_start_dt start_dt time_window_minutes).

(** *** Attribution and aggregation

    A record of the query history, as [dict(zip(columns, row))] builds it.
    Every column is present; [None] is SQL [NULL]. *)
Record query : Type := {
  QUERY_ID : string;
  QUERY_TEXT : option string;
  TOTAL_ELAPSED_TIME : option Z;
  BYTES_SCANNED : option Z;
  ROWS_PRODUCED : option Z;
}.

(** [value or 0]. *)
Definition or_zero (v : option Z) : Z :=
  match v with Some n => n | None => 0 end.

(** The dictionary [{model: [] for model in executed_models}]. *)
Fixpoint empty_query_map (executed_models : list string) : gmap string (list query) :=
  match executed_models with
  | [] => ∅
  | model :: rest => <[model := []]> (empty_query_map rest)
  end.

(** The inner loop of [_match_queries_to_models]: the first model whose
    upper-case name is [target_name] gets the query, then [break]. *)
Fixpoint attribute (executed_models : list string) (target_name : string)
    (q : query) (model_query_map : gmap string (list query))
  : gmap string (list query) :=
  match executed_models with
  | [] => model_query_map
  | model :: rest =>
      if String.eqb (Py.upper model) target_name
      then <[model := default [] (model_query_map !! model) ++ [q]]> model_query_map
      else attribute rest target_name q model_query_map
  end.

Section Matching.

(** [re.search(r'CREATE\s+(?:OR\s+REPLACE\s+)?(?:VIEW|TABLE|TRANSIENT\s+TABLE)\s+\S+\.(\w+)',
    text)]: the captured target name, [None] when the pattern does not
    occur.  The regular-expression engine is a parameter. *)
Variable ddl_target : string -> option string.

(** The outer loop of [_match_queries_to_models].  A [NULL] query text
    has no [upper] and raises [AttributeError]. *)
Fixpoint match_loop (queries : list query) (executed_models : list string)
    (model_query_map : gmap string (list query))
  : Py.outcome (gmap string (list query)) :=
  match queries with
  | [] => Py.Return model_query_map
  | q :: rest =>
      match QUERY_TEXT q with
      | None => Py.Raise Py.AttributeError
      | Some text =>
          let query_text := Py.upper text in
          match ddl_target query_text with
          | Some target_name =>
              match_loop rest executed_models
                (attribute executed_models target_name q model_query_map)
          | None => match_loop rest executed_models model_query_map
          end
      end
  end.

(** [_match_queries_to_models(queries, executed_models, fqn_models)]. *)
Definition _match_queries_to_models (queries : list query)
    (executed_models : list string) : Py.outcome (gmap string (list query)) :=
  match_loop queries executed_models (empty_query_map executed_models).

End Matching.

(** An entry of [model_details]. *)
Record model_detail : Type := {
  md_model_name : string;
  md_fqn : option string;
  md_total_execution_time_ms : Z;
  md_total_bytes_scanned : Z;
  md_total_rows_produced : Z;
  md_query_count : Z;
}.

(** The metrics dictionary of a pipeline. *)
Record pipeline_metrics : Type := {
  pm_pipeline_id : string;
  pm_timestamp : string;
  pm_total_execution_time_ms : Z;
  pm_total_bytes_scanned : Z;
  pm_total_rows_produced : Z;
  pm_model_details : list model_detail;
  pm_warehouse : Py.pyval;
  pm_database : Py.pyval;
  pm_schema : Py.pyval;
  pm_collection_timestamp : string;
}.

(** The loop over a model's queries, started at the three running sums. *)
Fixpoint model_totals (queries : list query) (time bytes rows : Z) : Z * Z * Z :=
  match queries with
  | [] => (time, bytes, rows)
  | q :: rest =>
      model_totals rest
        (time + or_zero (TOTAL_ELAPSED_TIME q))
        (bytes + or_zero (BYTES_SCANNED q))
        (rows + or_zero (ROWS_PRODUCED q))
  end.

(** The first [fqn] with [fqn.endswith('.' + model.upper())]. *)
Definition find_fqn (fqn_models : list string) (model : string) : option string :=
  List.find (fun fqn => Py.endswith fqn ("." +:+ Py.upper model)) fqn_models.

(** The loop of [_aggregate_metrics] over [executed_models], carrying the
    pipeline totals and [model_metrics_list]. *)
Fixpoint aggregate_loop (executed_models fqn_models : list string)
    (model_query_map : gmap string (list query))
    (time bytes rows : Z) (model_metrics_list : list model_detail)
  : Z * Z * Z * list model_detail :=
  match executed_models with
  | [] => (time, bytes, rows, model_metrics_list)
  | model :: rest =>
      let queries := default [] (model_query_map !! model) in
      let '(model_time, model_bytes, model_rows) := model_totals queries 0 0 0 in
      aggregate_loop rest fqn_models model_query_map
        (time + model_time) (bytes + model_bytes) (rows + model_rows)
        (model_metrics_list ++
           [ {| md_model_name := model;
                md_fqn := find_fqn fqn_models model;
                md_total_execution_time_ms := model_time;
                md_total_bytes_scanned := model_bytes;
                md_total_rows_produced := model_rows;
                md_query_count := Z.of_nat (length queries) |} ])
  end.

(** [_aggregate_metrics(...)]; [now] is the collection timestamp. *)
Definition _aggregate_metrics (now : string) (pipeline_id start_timestamp : string)
    (executed_models fqn_models : list string)
    (model_query_map : gmap string (list query)) (version_info : Py.pydict)
  : pipeline_metrics :=
  let '(time, bytes, rows, details) :=
    aggregate_loop executed_models fqn_models model_query_map 0 0 0 [] in
  {| pm_pipeline_id := pipeline_id;
     pm_timestamp := start_timestamp;
     pm_total_execution_time_ms := time;
     pm_total_bytes_scanned := bytes;
     pm_total_rows_produced := rows;
     pm_model_details := details;
     pm_warehouse := Py.get_default version_info "warehouse" Py.PyNone;
     pm_database := Py.get_default version_info "database" Py.PyNone;
     pm_schema := Py.get_default version_info "schema" Py.PyNone;
     pm_collection_timestamp := now |}.

End Collector.

(** ** benchmark.py: the orchestrator's helpers *)

Module Orchestrator.
Import Py.

Inductive exit_code : Type :=
| EXIT_SUCCESS
| EXIT_BENCHMARK_FAILED
| EXIT_VERIFICATION_FAILED
| EXIT_INVALID_ARGUMENTS.

(** [get_pipeline_name(pipeline_id)]. *)
Definition get_pipeline_name (pipeline_id : string) : string :=
  if String.eqb pipeline_id "A" then "Pipeline A"
  else if String.eqb pipeline_id "B" then "Pipeline B"
  else if String.eqb pipeline_id "C" then "Pipeline C"
  else if String.eqb pipeline_id "all" then "All Pipelines"
  else "Pipeline " +:+ pipeline_id.

(** What [run_command] does with a verification summary: [None] lets the
    run go on, [Some code] is returned at once. *)
Definition verification_gate (verification : Verify.SummaryDict) : option exit_code :=
  let passed := Verify.d_passed_models verification in
  let total := Verify.d_total_models verification in
  if Z.eqb passed total then None
  else if Z.ltb passed total then Some EXIT_VERIFICATION_FAILED
  else None.

(** A probe target, [{'model_name': ..., 'fqn': ...}]. *)
Record probe_target : Type := {
  pt_model_name : string;
  pt_fqn : string;
}.

(** [{fqn.split('.')[-1].lower(): fqn for fqn in fqn_models}], continued
    from [acc]. *)
Fixpoint fqn_lower_map_from (fqn_models : list string) (acc : gmap string string)
  : gmap string string :=
  match fqn_models with
  | [] => acc
  | fqn :: rest =>
      fqn_lower_map_from rest (<[lower (last_segment "." fqn) := fqn]> acc)
  end.

(** The loop over [final_models_lower]. *)
Fixpoint select_final (final_models_lower : list string)
    (fqn_lower_map : gmap string string) : list probe_target :=
  match final_models_lower with
  | [] => []
  | final_model :: rest =>
      match fqn_lower_map !! final_model with
      | Some fqn =>
          {| pt_model_name := final_model; pt_fqn := fqn |}
            :: select_final rest fqn_lower_map
      | None => select_final rest fqn_lower_map
      end
  end.

(** [filter_fqn_models_by_final_models(fqn_models, final_models)]. *)
Definition filter_fqn_models_by_final_models (fqn_models final_models : list string)
  : list probe_target :=
  let fqn_lower_map := fqn_lower_map_from fqn_models ∅ in
  let final_models_lower := map lower final_models in
  select_final final_models_lower fqn_lower_map.

End Orchestrator.

(** ** Specification-level definitions

    The rules as the specification words them, to be compared with what
    the code computes. *)

Module Spec.
Import Py.

(** The cost rule: a one-minute minimum billing unit, a credit rate per
    hour and a price per credit, rounded to four decimals. *)
Definition estimated_cost (t_ms r p : Q) : Q :=
  Num.py_round (Qmax 60 (t_ms / 1000) / 3600 * r * p)%Q 4.

(** The execution time a metrics dictionary reports. *)
Definition execution_time (m : Report.metrics) : Q :=
  get_default m "total_execution_time_ms" 0%Q.

(** The five recommendations. *)
Definition FAVORABLE : string := "FAVORABLE: Higher build cost for faster queries".

(** How many results of a list passed. *)
Definition count_passed (l : list Verify.VerificationResult) : Z :=
  Z.of_nat (length (List.filter Verify.passed l)).

(** The invariant of a summary dictionary for an input of [n] models. *)
Definition consistent_summary (n : nat) (s : Verify.SummaryDict) : Prop :=
  Verify.d_passed_models s + Verify.d_failed_models s = Verify.d_total_models s /\
  Verify.d_total_models s = Z.of_nat n /\
  length (Verify.d_results s) = n /\
  Verify.d_passed_models s = count_passed (Verify.d_results s) /\
  (0 < Verify.d_total_models s ->
     Verify.d_success_rate s
     = (inject_Z (Verify.d_passed_models s) / inject_Z (Verify.d_total_models s))%Q) /\
  (Verify.d_total_models s = 0 -> Verify.d_success_rate s = 0%Q).

(** The statement that asks the warehouse for a row count. *)
Definition count_statement (fqn : string) : string :=
  "SELECT COUNT(*) FROM " +:+ fqn.

(** The two statements that ask the warehouse for a content hash. *)
Definition hash_agg_statement (fqn : string) : string :=
  "SELECT HASH_AGG(HASH(*)) FROM " +:+ fqn.

Definition sum_hash_statement (fqn : string) : string :=
  "SELECT SUM(HASH(*)) FROM " +:+ fqn.

(** [q] is one of the three read-only probes of the table [fqn]. *)
Definition probe_of (fqn q : string) : Prop :=
  q = count_statement fqn \/ q = hash_agg_statement fqn \/ q = sum_hash_statement fqn.

(** The key under which a baseline entry is filed: its FQN, or its model
    name when the FQN is missing or empty; none for a value that is not a
    dictionary. *)
Definition entry_key (e : Verify.fingerprint_entry) : option string :=
  match e with
  | Verify.FingerprintDict model_name fqn _ _ _ =>
      Some (if String.eqb (default "" fqn) "" then default "" model_name
            else default "" fqn)
  | Verify.NotADict => None
  end.

(** The model a history record is attributed to: the first executed model
    whose upper-case name is the target the DDL pattern captures in the
    upper-cased query text. *)
Definition first_match (ddl_target : string -> option string)
    (executed_models : list string) (q : Collector.query) : option string :=
  match Collector.QUERY_TEXT q with
  | None => None
  | Some text =>
      match ddl_target (upper text) with
      | None => None
      | Some target =>
          List.find (fun model => String.eqb (upper model) target) executed_models
      end
  end.

(** The [model_details] entry of one model: the sums over the queries
    attributed to it and the first FQN that ends in its upper-case name. *)
Definition model_detail_of (fqn_models : list string)
    (model_query_map : gmap string (list Collector.query)) (model : string)
  : Collector.model_detail :=
  let queries := default [] (model_query_map !! model) in
  {| Collector.md_model_name := model;
     Collector.md_fqn := Collector.find_fqn fqn_models model;
     Collector.md_total_execution_time_ms :=
       Report.sum_Z (map (fun q => Collector.or_zero (Collector.TOTAL_ELAPSED_TIME q)) queries);
     Collector.md_total_bytes_scanned :=
       Report.sum_Z (map (fun q => Collector.or_zero (Collector.BYTES_SCANNED q)) queries);
     Collector.md_total_rows_produced :=
       Report.sum_Z (map (fun q => Collector.or_zero (Collector.ROWS_PRODUCED q)) queries);
     Collector.md_query_count := Z.of_nat (length queries) |}.

(** Whether a history record is attributed to the model [k]. *)
Definition attributed_to (ddl_target : string -> option string)
    (executed_models : list string) (k : string) (q : Collector.query) : bool :=
  match first_match ddl_target executed_models q with
  | Some model => String.eqb model k
  | None => false
  end.

(** Whether the fully qualified name [fqn] names the model [model_name]:
    its last dotted segment, lower-cased, is [model_name]. *)
Definition names_model (model_name fqn : string) : bool :=
  String.eqb (lower (last_segment "." fqn)) model_name.

End Spec.

(** ** Specification-level definitions on floats *)

Module Spec64.
Import Py Binary64.

(** [(current - baseline) / |baseline| * 100] rounded to one decimal, each
    operation performed on floats. *)
Definition relative_change (baseline current : float) : float :=
  py_round (mul (div (sub current baseline) (abs baseline)) (of_Z 100)) 1.

(** The percentage change: 0.0 for a zero baseline. *)
Definition percentage_change (baseline current : float) : float :=
  if eqb baseline zero then zero else relative_change baseline current.

(** The cost rule: [round((max(60, t_ms / 1000) / 3600) * r * p, 4)], each
    operation performed on floats. *)
Definition estimated_cost (t_ms r p : float) : float :=
  py_round
    (mul (mul (div (py_max (of_Z 60) (div t_ms (of_Z 1000))) (of_Z 3600)) r) p) 4.

(** The execution time a metrics dictionary reports. *)
Definition execution_time (m : Report64.metrics) : float :=
  get_default m "total_execution_time_ms" zero.

(** A comparison list carries the cost entry [key] of the two sides
    [baseline] and [current] under the cost rule. *)
Definition has_cost_entry (r p : float) (key : string)
    (baseline current : Report64.metrics) (l : list Report64.MetricComparison) : Prop :=
  exists e, In e l /\
    Report64.metric_key e = key /\
    Report64.baseline_value e = estimated_cost (execution_time baseline) r p /\
    Report64.current_value e = estimated_cost (execution_time current) r p.

End Spec64.

(** ** Sample data

    Concrete inputs used to run the definitions. *)

Module Samples.
Import Py.

Definition cost_config : pydict :=
  [ ("enabled", PyBool true);
    ("credits_per_hour", PyInt 1);
    ("cost_per_credit_usd", PyFloat (25 # 10)) ].

(** A configuration file with the cost estimate switched on. *)
Definition config_document : pyval :=
  PyDict [ ("benchmarking",
            PyDict [ ("warmup_runs", PyInt 1);
                     ("cost_estimation", PyDict cost_config) ]) ].

(** Build metrics of a thirty-second and of a ninety-second run, and query
    metrics of a one-second and of a two-second run. *)
Definition build_30s : Report64.metrics :=
  [ ("total_execution_time_ms", Binary64.of_Z 30000);
    ("total_bytes_scanned", Binary64.of_Z 1000000) ].

Definition build_90s : Report64.metrics :=
  [ ("total_execution_time_ms", Binary64.of_Z 90000);
    ("total_bytes_scanned", Binary64.of_Z 1000000) ].

Definition query_1s : Report64.metrics :=
  [ ("total_execution_time_ms", Binary64.of_Z 1000) ].

Definition query_2s : Report64.metrics :=
  [ ("total_execution_time_ms", Binary64.of_Z 2000) ].

(** The floats [1e-300] and [1e300]. *)
Definition tiny : Binary64.float := S754_finite false 6032057205060441 (-1049).
Definition huge : Binary64.float := S754_finite false 6724873095247260 944.

Definition warehouse : Verify.warehouse :=
  {| Verify.accepts_connection := true;
     Verify.answer := fun sql =>
       if String.eqb sql "SELECT COUNT(*) FROM DB.S.M" then Some [[Some 150]]
       else if String.eqb sql "SELECT HASH_AGG(HASH(*)) FROM DB.S.M" then Some [[Some 77]]
       else if String.eqb sql "SELECT COUNT(*) FROM DB.S.E" then Some [[Some 0]]
       else None;
     Verify.clock := fun n => "2024-01-15T10:00:0" +:+ str_int (Z.of_nat n) +:+ "+00:00" |}.

Definition baseline_100 : Verify.BaselineFingerprint :=
  {| Verify.bf_model_name := "M"; Verify.bf_fqn := "DB.S.M";
     Verify.bf_row_count := 100; Verify.bf_content_hash := Some 77;
     Verify.bf_timestamp := "2024-01-14T10:00:00+00:00" |}.

Definition current_150 : Verify.CurrentFingerprint :=
  {| Verify.cf_model_name := "M"; Verify.cf_fqn := "DB.S.M";
     Verify.cf_row_count := 150; Verify.cf_content_hash := Some 77;
     Verify.cf_timestamp := "2024-01-15T10:00:00+00:00" |}.

Definition environment : Baseline.environment :=
  {| Baseline.cwd := ["home"; "project"; "snowflake"; "benchmark"];
     Baseline.now := "2024-01-15T10:00:00+00:00";
     Baseline.git_commit_hash := Some "3f2a9c1";
     Baseline.dbt_version_probe := None;
     Baseline.username_probe := Some "analyst";
     Baseline.encoder_raises := fun _ => false |}.

Definition baseline_path : Baseline.path :=
  ["home"; "project"; "snowflake"; "benchmark"; "baselines"; "pipeline_a_baseline.json"].

(** An empty, writable file system. *)
Definition empty_fs : Baseline.filesystem :=
  {| Baseline.files := ∅; Baseline.write_denied := fun _ => false |}.

(** A baseline file in the old single-metrics format. *)
Definition legacy_document : pydict :=
  [ ("pipeline_name", PyStr "Pipeline A");
    ("metrics", PyDict [("total_execution_time_ms", PyInt 5000)]);
    ("fingerprints", PyList []) ].

Definition legacy_fs : Baseline.filesystem :=
  {| Baseline.files := {[ baseline_path := Parsed (PyDict legacy_document) ]};
     Baseline.write_denied := fun _ => false |}.

(** Build metrics holding a tuple. *)
Definition metrics_with_tuple : pyval :=
  PyDict [ ("total_execution_time_ms", PyInt 5000);
           ("window", PyTuple [PyInt 1; PyInt 2]) ].

Definition plain_metrics : pyval :=
  PyDict [ ("total_execution_time_ms", PyInt 5000);
           ("total_bytes_scanned", PyInt 1000000) ].

(** The file system a save leaves behind, [fs] itself when the save does
    not succeed. *)
Definition after_save (fs : Baseline.filesystem) (build_metrics : pyval)
  : Baseline.filesystem :=
  match Baseline.save_baseline environment fs "Pipeline A" build_metrics
          plain_metrics (PyList []) None with
  | Return (_, fs') => fs'
  | Raise _ => fs
  end.

End Samples.

(** * Properties *)

(** ** Rounding *)

Section Rounding.
Import Num.
Local Open Scope Q_scope.

Lemma Qltb_lt (x y : Q) : Qltb x y = true <-> x < y.
Proof.
  unfold Qltb. rewrite Qlt_alt.
  destruct (x ?= y); split; intro H; congruence.
Qed.

Lemma Qgtb_lt (x y : Q) : Qgtb x y = true <-> y < x.
Proof. unfold Qgtb. apply Qltb_lt. Qed.


Lemma floor_bounds (x : Q) :
  inject_Z (Qfloor x) <= x /\ x < inject_Z (Qfloor x) + 1.
Proof.
  split; [apply Qfloor_le|].
  pose proof (Qlt_floor x) as H.
  rewrite inject_Z_plus in H. exact H.
Qed.

(** The rounded value is positive exactly above one half. *)
Lemma round_half_even_pos (x : Q) :
  (0 < round_half_even x)%Z <-> 1 # 2 < x.
Proof.
  unfold round_half_even.
  destruct (floor_bounds x) as [Hlo Hhi].
  set (f := Qfloor x) in *.
  assert (Hpos : (1 <= f)%Z -> 1 <= inject_Z f)
    by (intro H; unfold Qle; simpl; lia).
  assert (Hneg : (f <= -1)%Z -> inject_Z f <= -1)
    by (intro H; unfold Qle; simpl; lia).
  assert (Hnp : (f <= 0)%Z -> inject_Z f <= 0)
    by (intro H; unfold Qle; simpl; lia).
  assert (Hnn : (0 <= f)%Z -> 0 <= inject_Z f)
    by (intro H; unfold Qle; simpl; lia).
  destruct (x - inject_Z f ?= 1 # 2) eqn:E.
  - apply Qeq_alt in E.
    destruct (Z.even f) eqn:Ev.
    + split; intro H.
      * assert (1 <= f)%Z as H1 by lia. apply Hpos in H1. lra.
      * destruct (Z_lt_le_dec 0 f) as [L|L]; [exact L|]. apply Hnp in L. lra.
    + assert (f <> 0)%Z by (intro Z0; rewrite Z0 in Ev; discriminate).
      split; intro H0.
      * assert (1 <= f)%Z as H1 by lia. apply Hpos in H1. lra.
      * destruct (Z_lt_le_dec 0 (f + 1)) as [L|L]; [exact L|].
        assert (f <= 0)%Z as L0 by lia. apply Hnp in L0. lra.
  - apply Qlt_alt in E.
    split; intro H.
    + assert (1 <= f)%Z as H1 by lia. apply Hpos in H1. lra.
    + destruct (Z_lt_le_dec 0 f) as [L|L]; [exact L|]. apply Hnp in L. lra.
  - apply Qgt_alt in E.
    split; intro H.
    + assert (0 <= f)%Z as H1 by lia. apply Hnn in H1. lra.
    + destruct (Z_lt_le_dec 0 (f + 1)) as [L|L]; [exact L|].
      assert (f <= -1)%Z as L0 by lia. apply Hneg in L0. lra.
Qed.



Lemma py_round_pos (x : Q) (n : nat) :
  0 < py_round x n <-> 1 # 2 < x * inject_Z (Zpos (scale n)).
Proof.
  unfold py_round. rewrite <- round_half_even_pos.
  unfold Qlt. simpl. split; intro H; lia.
Qed.


End Rounding.

(** ** Binary64: signs and order *)

Section Binary64Facts.
Import Binary64.
Local Open Scope Z_scope.

Lemma round_aux_sign (s : bool) (m e : Z) (l : location) :
  has_sign s (binary_round_aux prec emax s m e l) = true.
Proof.
  unfold binary_round_aux.
  destruct (shr_fexp prec emax m e l) as [mrs' e'].
  destruct (shr_fexp prec emax _ e' loc_Exact) as [mrs'' e''].
  destruct (shr_m mrs'') as [|p|p]; [| |reflexivity].
  - apply eqb_reflx.
  - destruct (e'' <=? emax - prec); apply eqb_reflx.
Qed.

Lemma binary_round_sign (s : bool) (m : positive) (e : Z) :
  has_sign s (binary_round prec emax s m e) = true.
Proof.
  unfold binary_round.
  destruct (shl_align m e _) as [mz ez]. apply round_aux_sign.
Qed.

Lemma has_sign_gtb (x : float) : has_sign true x = true -> gtb x zero = false.
Proof.
  destruct x as [s|s| |s m e]; try destruct s; simpl; intro H;
    try reflexivity; discriminate.
Qed.

Lemma has_sign_ltb (x : float) : has_sign false x = true -> ltb x zero = false.
Proof.
  destruct x as [s|s| |s m e]; try destruct s; simpl; intro H;
    try reflexivity; discriminate.
Qed.

Ltac sign_cases :=
  repeat match goal with s : bool |- _ => destruct s end;
  simpl; intros; try discriminate; auto.

Lemma mul_finite_sign (sx sy : bool) (mx my : positive) (ex ey : Z) :
  has_sign (xorb sx sy) (mul (S754_finite sx mx ex) (S754_finite sy my ey)) = true.
Proof.
  change (mul (S754_finite sx mx ex) (S754_finite sy my ey))
    with (binary_round_aux prec emax (xorb sx sy) (Zpos (mx * my)) (ex + ey) loc_Exact).
  apply round_aux_sign.
Qed.

Lemma div_finite_sign (sx sy : bool) (mx my : positive) (ex ey : Z) :
  has_sign (xorb sx sy) (div (S754_finite sx mx ex) (S754_finite sy my ey)) = true.
Proof.
  change (div (S754_finite sx mx ex) (S754_finite sy my ey))
    with (let '(mz, ez, lz) := SFdiv_core_binary prec emax (Zpos mx) ex (Zpos my) ey in
          binary_round_aux prec emax (xorb sx sy) mz ez lz).
  destruct (SFdiv_core_binary prec emax (Zpos mx) ex (Zpos my) ey) as [[mz ez] lz].
  apply round_aux_sign.
Qed.

(** Products and quotients have the product of the signs. *)
Lemma mul_sign (sx sy : bool) (x y : float) :
  has_sign sx x = true -> has_sign sy y = true ->
  has_sign (xorb sx sy) (mul x y) = true.
Proof.
  destruct x as [s1|s1| |s1 m1 e1], y as [s2|s2| |s2 m2 e2];
    try (sign_cases; fail).
  intros H1 H2. apply eqb_prop in H1, H2. subst s1 s2. apply mul_finite_sign.
Qed.

Lemma div_sign (sx sy : bool) (x y : float) :
  has_sign sx x = true -> has_sign sy y = true ->
  has_sign (xorb sx sy) (div x y) = true.
Proof.
  destruct x as [s1|s1| |s1 m1 e1], y as [s2|s2| |s2 m2 e2];
    try (sign_cases; fail).
  intros H1 H2. apply eqb_prop in H1, H2. subst s1 s2. apply div_finite_sign.
Qed.

Lemma mul_gtb (x y : float) :
  gtb (mul x y) zero = true ->
  (gtb x zero = true /\ gtb y zero = true) \/ (ltb x zero = true /\ ltb y zero = true).
Proof.
  destruct x as [s1|s1| |s1 m1 e1], y as [s2|s2| |s2 m2 e2];
    try (sign_cases; fail).
  intro H. pose proof (mul_finite_sign s1 s2 m1 m2 e1 e2) as S.
  destruct s1, s2; simpl xorb in S.
  - right. split; reflexivity.
  - rewrite (has_sign_gtb _ S) in H. discriminate.
  - rewrite (has_sign_gtb _ S) in H. discriminate.
  - left. split; reflexivity.
Qed.

Lemma mul_ltb (x y : float) :
  ltb (mul x y) zero = true ->
  (gtb x zero = true /\ ltb y zero = true) \/ (ltb x zero = true /\ gtb y zero = true).
Proof.
  destruct x as [s1|s1| |s1 m1 e1], y as [s2|s2| |s2 m2 e2];
    try (sign_cases; fail).
  intro H. pose proof (mul_finite_sign s1 s2 m1 m2 e1 e2) as S.
  destruct s1, s2; simpl xorb in S.
  - rewrite (has_sign_ltb _ S) in H. discriminate.
  - right. split; reflexivity.
  - left. split; reflexivity.
  - rewrite (has_sign_ltb _ S) in H. discriminate.
Qed.

Lemma div_gtb (x y : float) :
  gtb (div x y) zero = true ->
  (gtb x zero = true /\ has_sign false y = true) \/
  (ltb x zero = true /\ has_sign true y = true).
Proof.
  destruct x as [s1|s1| |s1 m1 e1], y as [s2|s2| |s2 m2 e2];
    try (sign_cases; fail).
  intro H. pose proof (div_finite_sign s1 s2 m1 m2 e1 e2) as S.
  destruct s1, s2; simpl xorb in S.
  - right. split; reflexivity.
  - rewrite (has_sign_gtb _ S) in H. discriminate.
  - rewrite (has_sign_gtb _ S) in H. discriminate.
  - left. split; reflexivity.
Qed.

Lemma div_ltb (x y : float) :
  ltb (div x y) zero = true ->
  (gtb x zero = true /\ has_sign true y = true) \/
  (ltb x zero = true /\ has_sign false y = true).
Proof.
  destruct x as [s1|s1| |s1 m1 e1], y as [s2|s2| |s2 m2 e2];
    try (sign_cases; fail).
  intro H. pose proof (div_finite_sign s1 s2 m1 m2 e1 e2) as S.
  destruct s1, s2; simpl xorb in S.
  - rewrite (has_sign_ltb _ S) in H. discriminate.
  - right. split; reflexivity.
  - left. split; reflexivity.
  - rewrite (has_sign_ltb _ S) in H. discriminate.
Qed.

Lemma of_ratio_sign (s : bool) (num den : positive) :
  has_sign s (of_ratio s num den) = true.
Proof.
  unfold of_ratio.
  destruct (SFdiv_core_binary prec emax (Zpos num) 0 (Zpos den) 0) as [[mz ez] lz].
  apply round_aux_sign.
Qed.

Lemma py_round_finite_sign (s : bool) (m : positive) (e : Z) (n : nat) :
  has_sign s (py_round (S754_finite s m e) n) = true.
Proof.
  unfold py_round.
  destruct (Num.round_half_even _) as [|k|k].
  - apply eqb_reflx.
  - apply of_ratio_sign.
  - apply of_ratio_sign.
Qed.

(** Rounding keeps the sign. *)
Lemma py_round_sign (s : bool) (x : float) (n : nat) :
  has_sign s x = true -> has_sign s (py_round x n) = true.
Proof.
  destruct x as [s1|s1| |s1 m1 e1]; try (intro H; exact H).
  intro H. apply eqb_prop in H. subst s1. apply py_round_finite_sign.
Qed.

Lemma py_round_gtb (x : float) (n : nat) :
  gtb (py_round x n) zero = true -> gtb x zero = true.
Proof.
  destruct x as [s1|s1| |s1 m1 e1]; try (intro H; exact H).
  intro H. pose proof (py_round_finite_sign s1 m1 e1 n) as S.
  destruct s1; [|reflexivity].
  rewrite (has_sign_gtb _ S) in H. discriminate.
Qed.

Lemma py_round_ltb (x : float) (n : nat) :
  ltb (py_round x n) zero = true -> ltb x zero = true.
Proof.
  destruct x as [s1|s1| |s1 m1 e1]; try (intro H; exact H).
  intro H. pose proof (py_round_finite_sign s1 m1 e1 n) as S.
  destruct s1; [reflexivity|].
  rewrite (has_sign_ltb _ S) in H. discriminate.
Qed.

Lemma abs_sign (x : float) : has_sign false (abs x) = true.
Proof. destruct x as [s|s| |s m e]; reflexivity. Qed.

Lemma abs_not_negative (x : float) : has_sign true (abs x) = true -> abs x = S754_nan.
Proof. destruct x as [s|s| |s m e]; simpl; intro H; try discriminate; reflexivity. Qed.

Lemma abs_nonzero (x : float) : eqb x zero = false -> eqb (abs x) zero = false.
Proof. destruct x as [s|s| |s m e]; try destruct s; simpl; intro H; try discriminate; reflexivity. Qed.

(** *** Alignment and canonical representations *)

Lemma iter_xO (d m : positive) : Zpos (Pos.iter xO m d) = Zpos m * 2 ^ Zpos d.
Proof.
  induction d as [|d IH] using Pos.peano_ind.
  - simpl. lia.
  - rewrite Pos.iter_succ, Pos2Z.inj_succ, Z.pow_succ_r by lia.
    rewrite Pos2Z.inj_xO, IH. ring.
Qed.

Lemma shl_align_value (m : positive) (e ez : Z) :
  ez <= e -> Zpos (fst (shl_align m e ez)) = Zpos m * 2 ^ (e - ez).
Proof.
  intro H. unfold shl_align.
  destruct (ez - e) as [|p|p] eqn:D.
  - assert (e - ez = 0) as -> by lia. simpl. lia.
  - lia.
  - assert (e - ez = Zpos p) as -> by lia. simpl fst. apply iter_xO.
Qed.

Lemma digits2_size (m : positive) : digits2_pos m = Pos.size m.
Proof. induction m as [m IH|m IH|]; simpl; [rewrite IH | rewrite IH |]; reflexivity. Qed.

Lemma digits2_bounds (m : positive) :
  2 ^ (Zpos (digits2_pos m) - 1) <= Zpos m < 2 ^ Zpos (digits2_pos m).
Proof.
  rewrite digits2_size. split.
  - pose proof (Pos.size_le m) as L.
    assert (K : Zpos (2 ^ Pos.size m) <= Zpos m~0) by exact L.
    rewrite Pos2Z.inj_pow in K.
    replace (Zpos (Pos.size m)) with (Z.succ (Zpos (Pos.size m) - 1)) in K by lia.
    rewrite Z.pow_succ_r in K by lia. lia.
  - pose proof (Pos.size_gt m) as G.
    assert (K : Zpos m < Zpos (2 ^ Pos.size m)) by exact G.
    rewrite Pos2Z.inj_pow in K. exact K.
Qed.

(** A float's exponent is at least -1074, its mantissa is below [2^53],
    and above the smallest exponent the mantissa has its leading bit. *)
Lemma bounded_facts (m : positive) (e : Z) :
  bounded prec emax m e = true ->
  -1074 <= e /\ Zpos m < 2 ^ 53 /\ (-1074 < e -> 2 ^ 52 <= Zpos m).
Proof.
  unfold bounded, canonical_mantissa, fexp, emin, prec, emax.
  intro H. apply andb_prop in H as [C _]. apply Z.eqb_eq in C.
  pose proof (digits2_bounds m) as [L U].
  assert (D : Zpos (digits2_pos m) <= 53) by lia.
  split; [lia|]. split.
  - eapply Z.lt_le_trans; [exact U|]. apply Z.pow_le_mono_r; lia.
  - intro E. assert (Zpos (digits2_pos m) = 53) as K by lia.
    rewrite K in L. exact L.
Qed.

Lemma canonical_order (m1 m2 : positive) (e1 e2 : Z) :
  bounded prec emax m1 e1 = true -> bounded prec emax m2 e2 = true ->
  e1 < e2 -> Zpos m1 < Zpos m2 * 2 ^ (e2 - e1).
Proof.
  intros B1 B2 E.
  destruct (bounded_facts m1 e1 B1) as (L1 & U1 & _).
  destruct (bounded_facts m2 e2 B2) as (_ & _ & N2).
  specialize (N2 ltac:(lia)).
  assert (P : 2 ^ 1 <= 2 ^ (e2 - e1)) by (apply Z.pow_le_mono_r; lia).
  change (2 ^ 1) with 2 in P.
  change (2 ^ 53) with (2 ^ 52 * 2) in U1.
  nia.
Qed.

(** The comparison of two floats is the comparison of their aligned
    integers. *)
Lemma compare_aligned (sx sy : bool) (mx my : positive) (ex ey : Z) :
  bounded prec emax mx ex = true -> bounded prec emax my ey = true ->
  SFcompare (S754_finite sx mx ex) (S754_finite sy my ey)
  = Some (Z.compare (aligned sx mx ex (Z.min ex ey)) (aligned sy my ey (Z.min ex ey))).
Proof.
  intros Bx By. unfold aligned.
  rewrite !shl_align_value by lia.
  assert (Px : 0 < Zpos mx * 2 ^ (ex - Z.min ex ey)).
  { apply Z.mul_pos_pos; [lia|]. apply Z.pow_pos_nonneg; lia. }
  assert (Py : 0 < Zpos my * 2 ^ (ey - Z.min ex ey)).
  { apply Z.mul_pos_pos; [lia|]. apply Z.pow_pos_nonneg; lia. }
  assert (O : match Z.compare ex ey with
              | Lt => Zpos mx * 2 ^ (ex - Z.min ex ey) < Zpos my * 2 ^ (ey - Z.min ex ey)
              | Gt => Zpos my * 2 ^ (ey - Z.min ex ey) < Zpos mx * 2 ^ (ex - Z.min ex ey)
              | Eq => Zpos mx * 2 ^ (ex - Z.min ex ey) = Zpos mx /\
                      Zpos my * 2 ^ (ey - Z.min ex ey) = Zpos my
              end).
  { destruct (Z.compare_spec ex ey) as [E|E|E].
    - subst ey. rewrite Z.min_id, Z.sub_diag. simpl. lia.
    - rewrite Z.min_l by lia. rewrite Z.sub_diag, Z.mul_1_r.
      apply canonical_order; assumption.
    - rewrite Z.min_r by lia. rewrite Z.sub_diag, Z.mul_1_r.
      apply canonical_order; assumption. }
  simpl SFcompare. f_equal.
  revert Px Py O.
  generalize (Zpos mx * 2 ^ (ex - Z.min ex ey)) (Zpos my * 2 ^ (ey - Z.min ex ey)).
  intros X Y Px Py O.
  destruct sx, sy; simpl cond_Zopp.
  - destruct (ex ?= ey).
    + destruct O as [-> ->]. reflexivity.
    + symmetry. apply Z.compare_gt_iff. lia.
    + symmetry. apply Z.compare_lt_iff. lia.
  - symmetry. apply Z.compare_lt_iff. lia.
  - symmetry. apply Z.compare_gt_iff. lia.
  - destruct (ex ?= ey).
    + destruct O as [-> ->]. reflexivity.
    + symmetry. apply Z.compare_lt_iff. exact O.
    + symmetry. apply Z.compare_gt_iff. exact O.
Qed.

Lemma sub_finite (sx sy : bool) (mx my : positive) (ex ey : Z) :
  sub (S754_finite sx mx ex) (S754_finite sy my ey)
  = binary_normalize prec emax
      (aligned sx mx ex (Z.min ex ey) - aligned sy my ey (Z.min ex ey))
      (Z.min ex ey) false.
Proof. reflexivity. Qed.

Lemma binary_normalize_sign (z e : Z) :
  has_sign (Z.ltb z 0) (binary_normalize prec emax z e false) = true.
Proof.
  destruct z as [|p|p]; simpl Z.ltb; simpl binary_normalize.
  - reflexivity.
  - apply binary_round_sign.
  - apply binary_round_sign.
Qed.

(** The sign of a difference against the order of its arguments. *)
Lemma sub_gtb (x y : float) :
  valid x = true -> valid y = true ->
  gtb (sub x y) zero = true -> ltb y x = true.
Proof.
  destruct x as [s1|s1| |s1 m1 e1], y as [s2|s2| |s2 m2 e2];
    try (sign_cases; fail).
  intros Vx Vy H. unfold ltb, SFltb.
  rewrite (compare_aligned s2 s1 m2 m1 e2 e1 Vy Vx).
  rewrite sub_finite in H. rewrite (Z.min_comm e2 e1).
  pose proof (binary_normalize_sign
                (aligned s1 m1 e1 (Z.min e1 e2) - aligned s2 m2 e2 (Z.min e1 e2))
                (Z.min e1 e2)) as S.
  destruct (Z.compare_spec (aligned s2 m2 e2 (Z.min e1 e2))
                           (aligned s1 m1 e1 (Z.min e1 e2))) as [E|E|E].
  - rewrite E, Z.sub_diag in H. discriminate H.
  - reflexivity.
  - assert (L : (aligned s1 m1 e1 (Z.min e1 e2) - aligned s2 m2 e2 (Z.min e1 e2) <? 0) = true)
      by (apply Z.ltb_lt; lia).
    rewrite L in S. rewrite (has_sign_gtb _ S) in H. discriminate.
Qed.

Lemma sub_ltb (x y : float) :
  valid x = true -> valid y = true ->
  ltb (sub x y) zero = true -> ltb x y = true.
Proof.
  destruct x as [s1|s1| |s1 m1 e1], y as [s2|s2| |s2 m2 e2];
    try (sign_cases; fail).
  intros Vx Vy H. unfold ltb, SFltb.
  rewrite (compare_aligned s1 s2 m1 m2 e1 e2 Vx Vy).
  rewrite sub_finite in H.
  pose proof (binary_normalize_sign
                (aligned s1 m1 e1 (Z.min e1 e2) - aligned s2 m2 e2 (Z.min e1 e2))
                (Z.min e1 e2)) as S.
  destruct (Z.compare_spec (aligned s1 m1 e1 (Z.min e1 e2))
                           (aligned s2 m2 e2 (Z.min e1 e2))) as [E|E|E].
  - rewrite E, Z.sub_diag in H. discriminate H.
  - reflexivity.
  - assert (L : (aligned s1 m1 e1 (Z.min e1 e2) - aligned s2 m2 e2 (Z.min e1 e2) <? 0) = false)
      by (apply Z.ltb_ge; lia).
    rewrite L in S. rewrite (has_sign_ltb _ S) in H. discriminate.
Qed.

Lemma ltb_sub_sign (x y : float) :
  valid x = true -> valid y = true ->
  ltb y x = true -> has_sign false (sub x y) = true.
Proof.
  destruct x as [s1|s1| |s1 m1 e1], y as [s2|s2| |s2 m2 e2];
    try (sign_cases; fail).
  intros Vx Vy H. unfold ltb, SFltb in H.
  rewrite (compare_aligned s2 s1 m2 m1 e2 e1 Vy Vx), (Z.min_comm e2 e1) in H.
  rewrite sub_finite.
  pose proof (binary_normalize_sign
                (aligned s1 m1 e1 (Z.min e1 e2) - aligned s2 m2 e2 (Z.min e1 e2))
                (Z.min e1 e2)) as S.
  destruct (Z.compare_spec (aligned s2 m2 e2 (Z.min e1 e2))
                           (aligned s1 m1 e1 (Z.min e1 e2))) as [E|E|E];
    try discriminate H.
  assert (L : (aligned s1 m1 e1 (Z.min e1 e2) - aligned s2 m2 e2 (Z.min e1 e2) <? 0) = false)
    by (apply Z.ltb_ge; lia).
  rewrite L in S. exact S.
Qed.

Lemma gtb_sub_sign (x y : float) :
  valid x = true -> valid y = true ->
  ltb x y = true -> has_sign true (sub x y) = true.
Proof.
  destruct x as [s1|s1| |s1 m1 e1], y as [s2|s2| |s2 m2 e2];
    try (sign_cases; fail).
  intros Vx Vy H. unfold ltb, SFltb in H.
  rewrite (compare_aligned s1 s2 m1 m2 e1 e2 Vx Vy) in H.
  rewrite sub_finite.
  pose proof (binary_normalize_sign
                (aligned s1 m1 e1 (Z.min e1 e2) - aligned s2 m2 e2 (Z.min e1 e2))
                (Z.min e1 e2)) as S.
  destruct (Z.compare_spec (aligned s1 m1 e1 (Z.min e1 e2))
                           (aligned s2 m2 e2 (Z.min e1 e2))) as [E|E|E];
    try discriminate H.
  assert (L : (aligned s1 m1 e1 (Z.min e1 e2) - aligned s2 m2 e2 (Z.min e1 e2) <? 0) = true)
    by (apply Z.ltb_lt; lia).
  rewrite L in S. exact S.
Qed.

(** Equal finite floats have a zero difference. *)
Lemma sub_equal (x y : float) :
  valid x = true -> valid y = true -> is_infinite x = false ->
  eqb x y = true -> eqb (sub x y) zero = true.
Proof.
  destruct x as [s1|s1| |s1 m1 e1], y as [s2|s2| |s2 m2 e2];
    try (sign_cases; fail).
  intros Vx Vy _ H. unfold eqb, SFeqb in H.
  rewrite (compare_aligned s1 s2 m1 m2 e1 e2 Vx Vy) in H.
  rewrite sub_finite.
  destruct (Z.compare_spec (aligned s1 m1 e1 (Z.min e1 e2))
                           (aligned s2 m2 e2 (Z.min e1 e2))) as [E|E|E];
    try discriminate H.
  rewrite E, Z.sub_diag. reflexivity.
Qed.

End Binary64Facts.

(** ** report.py: percentage change *)

Section PercentageChange.
Import Py Binary64 Report64.

Lemma hundred_eq : of_Z 100 = S754_finite false 7036874417766400 (-46).
Proof. vm_compute. reflexivity. Qed.

Lemma mul_hundred_gtb (x : float) :
  gtb (mul x (of_Z 100)) zero = true -> gtb x zero = true.
Proof.
  intro H. apply mul_gtb in H. destruct H as [[H _]|[_ H]]; [exact H|].
  rewrite hundred_eq in H. discriminate H.
Qed.

Lemma mul_hundred_ltb (x : float) :
  ltb (mul x (of_Z 100)) zero = true -> ltb x zero = true.
Proof.
  intro H. apply mul_ltb in H. destruct H as [[_ H]|[H _]]; [|exact H].
  rewrite hundred_eq in H. discriminate H.
Qed.

Lemma div_abs_gtb (x y : float) :
  gtb (div x (abs y)) zero = true -> gtb x zero = true.
Proof.
  intro H. destruct (div_gtb _ _ H) as [[K _]|[_ K]]; [exact K|].
  rewrite (abs_not_negative y K) in H.
  destruct x as [s|s| |s m e]; discriminate H.
Qed.

Lemma div_abs_ltb (x y : float) :
  ltb (div x (abs y)) zero = true -> ltb x zero = true.
Proof.
  intro H. destruct (div_ltb _ _ H) as [[_ K]|[K _]]; [|exact K].
  rewrite (abs_not_negative y K) in H.
  destruct x as [s|s| |s m e]; discriminate H.
Qed.

(** The function never raises: it returns 0.0 for a zero baseline, and
    its divisor is not zero otherwise. *)
Lemma percentage_change_returns (b c : float) :
  _calculate_percentage_change b c = Return (Spec64.percentage_change b c).
Proof.
  unfold _calculate_percentage_change, Spec64.percentage_change.
  destruct (eqb b zero) eqn:E; [reflexivity|].
  unfold truediv. rewrite (abs_nonzero b E). reflexivity.
Qed.

(** The sign of the rounded change never contradicts the order of the two
    values. *)
Lemma relative_change_sign (b c : float) :
  valid b = true -> valid c = true ->
  (gtb (Spec64.relative_change b c) zero = true -> ltb b c = true) /\
  (ltb (Spec64.relative_change b c) zero = true -> ltb c b = true) /\
  (ltb b c = true -> ltb (Spec64.relative_change b c) zero = false) /\
  (ltb c b = true -> gtb (Spec64.relative_change b c) zero = false).
Proof.
  intros Vb Vc. unfold Spec64.relative_change. repeat split.
  - intro H. apply py_round_gtb, mul_hundred_gtb, div_abs_gtb in H.
    exact (sub_gtb c b Vc Vb H).
  - intro H. apply py_round_ltb, mul_hundred_ltb, div_abs_ltb in H.
    exact (sub_ltb c b Vc Vb H).
  - intro H. apply has_sign_ltb, py_round_sign.
    change false with (xorb (xorb false false) false).
    apply mul_sign; [|rewrite hundred_eq; reflexivity].
    apply div_sign; [|apply abs_sign].
    exact (ltb_sub_sign c b Vc Vb H).
  - intro H. apply has_sign_gtb, py_round_sign.
    change true with (xorb (xorb true false) false).
    apply mul_sign; [|rewrite hundred_eq; reflexivity].
    apply div_sign; [|apply abs_sign].
    exact (gtb_sub_sign c b Vc Vb H).
Qed.

Lemma percentage_change_sign_sound (b c : float) :
  valid b = true -> valid c = true ->
  (gtb (Spec64.percentage_change b c) zero = true -> ltb b c = true) /\
  (ltb (Spec64.percentage_change b c) zero = true -> ltb c b = true) /\
  (ltb b c = true -> ltb (Spec64.percentage_change b c) zero = false) /\
  (ltb c b = true -> gtb (Spec64.percentage_change b c) zero = false).
Proof.
  intros Vb Vc. unfold Spec64.percentage_change.
  destruct (eqb b zero) eqn:E.
  - repeat split; intro H; try discriminate H; reflexivity.
  - apply relative_change_sign; assumption.
Qed.

(** C1 (as amended).  On floats, a baseline of zero gives 0.0; any other
    baseline gives [(current - baseline) / |baseline| * 100] rounded to one
    decimal, the divisor is not zero, and the function never raises.  For a
    positive baseline a positive result means [current > baseline], and
    [current > baseline] never gives a negative result. *)
Theorem percentage_change_spec (b c : float) :
  (eqb b zero = true -> _calculate_percentage_change b c = Return zero) /\
  (eqb b zero = false ->
     eqb (abs b) zero = false /\
     _calculate_percentage_change b c
     = Return (py_round (mul (div (sub c b) (abs b)) (of_Z 100)) 1)) /\
  (exists r, _calculate_percentage_change b c = Return r) /\
  (forall r, valid b = true -> valid c = true -> gtb b zero = true ->
     _calculate_percentage_change b c = Return r ->
     (gtb r zero = true -> gtb c b = true) /\
     (gtb c b = true -> ltb r zero = false)).
Proof.
  rewrite percentage_change_returns. unfold Spec64.percentage_change.
  split; [|split; [|split]].
  - intro H. rewrite H. reflexivity.
  - intro H. rewrite H. split; [exact (abs_nonzero b H) | reflexivity].
  - eexists. reflexivity.
  - intros r Vb Vc _ R. inversion R as [Hr].
    destruct (percentage_change_sign_sound b c Vb Vc) as (P & _ & N & _).
    unfold Spec64.percentage_change in P, N.
    split; [exact P | exact N].
Qed.

(** C1, as stated, fails on both counts.  An increase from 10000 to 10001
    is 0.01 %, which rounds to 0.0, so the result is not positive although
    [current > baseline]; and from [1e-300] to [1e300] the quotient
    overflows, so the result is infinite for two finite values. *)
Lemma percentage_change_sign_counterexample :
  ~ (forall b c r,
       valid b = true -> valid c = true -> gtb b zero = true ->
       _calculate_percentage_change b c = Return r ->
       (gtb r zero = true <-> gtb c b = true)) /\
  ~ (forall b c r,
       valid b = true -> valid c = true ->
       is_infinite b = false -> is_infinite c = false ->
       _calculate_percentage_change b c = Return r ->
       is_infinite r = false).
Proof.
  split.
  - intro H.
    destruct (H (of_Z 10000) (of_Z 10001) zero) as [_ K];
      try (vm_compute; reflexivity).
    discriminate (K ltac:(vm_compute; reflexivity)).
  - intro H.
    assert (K := H Samples.tiny Samples.huge (S754_infinity false)
                   eq_refl eq_refl eq_refl eq_refl ltac:(vm_compute; reflexivity)).
    discriminate K.
Qed.

End PercentageChange.

(** ** report.py: cost estimate *)

Section CostEstimate.
Import Num Py Report.
Local Open Scope Q_scope.


Lemma load_cost_config_enabled (config_file : option file) (cfg : pydict) :
  _load_cost_config config_file = Some cfg ->
  truthy (get_default cfg "enabled" (PyBool false)) = true.
Proof.
  unfold _load_cost_config.
  destruct config_file as [[| |msg|config]|]; try discriminate.
  destruct (bind _ _) as [[]|]; try discriminate.
  destruct (truthy (get_default d "enabled" (PyBool false))) eqn:E; simpl; [|discriminate].
  intro H. inversion H. subst. exact E.
Qed.

End CostEstimate.

Section CostEstimateFloat.
Import Py Binary64 Report64.

Lemma truediv_thousand (x : float) : truediv x (of_Z 1000) = Return (div x (of_Z 1000)).
Proof. reflexivity. Qed.

Lemma truediv_hour (x : float) : truediv x (of_Z 3600) = Return (div x (of_Z 3600)).
Proof. reflexivity. Qed.

Lemma calculate_cost_float_rule (t r p : float) (cfg : pydict) :
  truthy (get_default cfg "enabled" (PyBool false)) = true ->
  as_float (get_default cfg "credits_per_hour" (PyInt 1)) = Return r ->
  as_float (get_default cfg "cost_per_credit_usd" (PyFloat (250 # 100))) = Return p ->
  _calculate_cost t (Some cfg) = Some (Spec64.estimated_cost t r p).
Proof.
  intros En Hr Hp.
  unfold _calculate_cost.
  destruct cfg as [|kv cfg']; [discriminate En|].
  cbv zeta. rewrite truediv_thousand. cbn [bind].
  rewrite truediv_hour. cbn [bind].
  rewrite Hr. cbn [bind]. rewrite Hp. cbn [bind]. reflexivity.
Qed.

Lemma compare_metric_set_cost (repr_float : float -> string) (r p : float)
    (cfg : pydict) (b c : metrics) (set_name : string) :
  truthy (get_default cfg "enabled" (PyBool false)) = true ->
  as_float (get_default cfg "credits_per_hour" (PyInt 1)) = Return r ->
  as_float (get_default cfg "cost_per_credit_usd" (PyFloat (250 # 100))) = Return p ->
  exists comparisons warnings,
    _compare_metric_set repr_float (Some cfg) b c set_name
    = Return (comparisons, warnings) /\
    Spec64.has_cost_entry r p (lower set_name +:+ "_cost_change_pct") b c comparisons.
Proof.
  intros En Hr Hp.
  unfold _compare_metric_set. cbv zeta.
  rewrite !(calculate_cost_float_rule _ r p cfg En Hr Hp).
  rewrite !percentage_change_returns. cbn [bind].
  eexists. eexists. split; [reflexivity|].
  unfold Spec64.has_cost_entry.
  eexists. split.
  - apply in_or_app. right. left. reflexivity.
  - repeat split.
Qed.

(** C7.  On floats, with an enabled cost configuration of rate [r] and
    price [p], the estimate for any execution time is
    [round((max(60, t_ms / 1000) / 3600) * r * p, 4)]; for thirty seconds
    the billable seconds are sixty; and [compare_metrics] puts the estimate
    of this one rule into both the build and the query comparison when both
    metric sets are present. *)
Theorem cost_estimate_billing_floor (r p : float) (cfg : pydict) :
  truthy (get_default cfg "enabled" (PyBool false)) = true ->
  as_float (get_default cfg "credits_per_hour" (PyInt 1)) = Return r ->
  as_float (get_default cfg "cost_per_credit_usd" (PyFloat (250 # 100))) = Return p ->
  (forall t,
     _calculate_cost t (Some cfg)
     = Some (py_round
               (mul (mul (div (py_max (of_Z 60) (div t (of_Z 1000))) (of_Z 3600)) r) p)
               4)) /\
  (py_max (of_Z 60) (div (of_Z 30000) (of_Z 1000)) = of_Z 60 /\
   _calculate_cost (of_Z 30000) (Some cfg)
   = Some (py_round (mul (mul (div (of_Z 60) (of_Z 3600)) r) p) 4)) /\
  (forall repr_float now config_file bm cm name status bq cq,
     Report._load_cost_config config_file = Some cfg ->
     exists cmp,
       compare_metrics repr_float now config_file bm cm name status (Some bq) (Some cq)
       = Return cmp /\
       Spec64.has_cost_entry r p "build_cost_change_pct" bm cm (build_comparisons cmp) /\
       Spec64.has_cost_entry r p "query_cost_change_pct" bq cq (query_comparisons cmp)).
Proof.
  intros En Hr Hp.
  assert (F : py_max (of_Z 60) (div (of_Z 30000) (of_Z 1000)) = of_Z 60)
    by (vm_compute; reflexivity).
  split; [|split; [split|]].
  - intro t. apply calculate_cost_float_rule; assumption.
  - exact F.
  - rewrite (calculate_cost_float_rule _ r p cfg En Hr Hp).
    unfold Spec64.estimated_cost. rewrite F. reflexivity.
  - intros repr_float now config_file bm cm name status bq cq Hc.
    destruct (compare_metric_set_cost repr_float r p cfg bm cm "Build" En Hr Hp)
      as (bcs & bws & Eb & B).
    destruct (compare_metric_set_cost repr_float r p cfg bq cq "Query" En Hr Hp)
      as (qcs & qws & Eq & Qr).
    unfold compare_metrics. rewrite Hc, Eb. cbn [bind]. rewrite Eq. cbn [bind].
    eexists. split; [reflexivity|].
    cbn [build_comparisons query_comparisons]. split; [exact B | exact Qr].
Qed.

End CostEstimateFloat.

Lemma cost_estimate_billing_floor_witness :
  Py.truthy (Py.get_default Samples.cost_config "enabled" (Py.PyBool false)) = true /\
  Binary64.as_float (Py.get_default Samples.cost_config "credits_per_hour" (Py.PyInt 1))
    = Py.Return (Binary64.of_Z 1) /\
  Binary64.as_float (Py.get_default Samples.cost_config "cost_per_credit_usd"
                       (Py.PyFloat (250 # 100)))
    = Py.Return (Binary64.of_Q (25 # 10)) /\
  Report64._calculate_cost (Binary64.of_Z 30000) (Some Samples.cost_config)
    = Some (Binary64.of_Q (417 # 10000)) /\
  Report._load_cost_config (Some (Py.Parsed Samples.config_document))
    = Some Samples.cost_config /\
  exists cmp,
    Report64.compare_metrics (fun _ => "") "2024-01-15T10:00:00+00:00"
      (Some (Py.Parsed Samples.config_document))
      Samples.build_30s Samples.build_90s "Pipeline A" "passed"
      (Some Samples.query_1s) (Some Samples.query_2s)
    = Py.Return cmp /\
    Spec64.has_cost_entry (Binary64.of_Z 1) (Binary64.of_Q (25 # 10))
      "build_cost_change_pct" Samples.build_30s Samples.build_90s
      (Report64.build_comparisons cmp) /\
    Spec64.has_cost_entry (Binary64.of_Z 1) (Binary64.of_Q (25 # 10))
      "query_cost_change_pct" Samples.query_1s Samples.query_2s
      (Report64.query_comparisons cmp).
Proof.
  split; [reflexivity|]. split; [reflexivity|]. split; [reflexivity|].
  destruct (cost_estimate_billing_floor (Binary64.of_Z 1) (Binary64.of_Q (25 # 10))
              Samples.cost_config eq_refl eq_refl eq_refl) as (_ & (_ & H) & C).
  split; [rewrite H; vm_compute; reflexivity|].
  split; [reflexivity|].
  exact (C (fun _ => "") "2024-01-15T10:00:00+00:00"
           (Some (Py.Parsed Samples.config_document))
           Samples.build_30s Samples.build_90s "Pipeline A" "passed"
           Samples.query_1s Samples.query_2s eq_refl).
Defined.

(** ** report.py: tradeoff analysis *)

Section Tradeoff.
Import Num Py Report.
Local Open Scope Q_scope.





End Tradeoff.

(** ** Strings *)

Section Strings.
Import Py.

Lemma prefix_append (s t : string) : String.prefix s (s +:+ t) = true.
Proof.
  induction s as [|a s IH].
  - change (String.prefix "" t = true). destruct t; reflexivity.
  - change (String.prefix (String a s) (String a (s +:+ t)) = true).
    cbn [String.prefix].
    destruct (ascii_dec a a) as [_|N]; [exact IH | contradiction].
Qed.

Lemma contains_here (s t : string) : contains s (s +:+ t) = true.
Proof.
  assert (E : contains s (s +:+ t)
              = String.prefix s (s +:+ t)
                || match s +:+ t with
                   | EmptyString => false
                   | String _ r => contains s r
                   end)
    by (destruct (s +:+ t); reflexivity).
  rewrite E, prefix_append. reflexivity.
Qed.

Lemma contains_append_r (sub a s : string) :
  contains sub s = true -> contains sub (a +:+ s) = true.
Proof.
  intro H. induction a as [|c a IH]; [exact H|].
  change (String.prefix sub (String c (a +:+ s)) || contains sub (a +:+ s) = true).
  rewrite IH. apply orb_true_r.
Qed.

Lemma contains_middle (a sub b : string) :
  contains sub (a +:+ sub +:+ b) = true.
Proof. apply contains_append_r, contains_here. Qed.

Lemma append_empty_r (s : string) : s +:+ "" = s.
Proof.
  induction s as [|c s IH]; [reflexivity|].
  change (String c (s +:+ "") = String c s). rewrite IH. reflexivity.
Qed.

Lemma contains_end (a sub : string) : contains sub (a +:+ sub) = true.
Proof.
  rewrite <- (append_empty_r sub) at 2. apply contains_middle.
Qed.

End Strings.

(** ** verify_output.py *)

Section Verification.
Import Py Verify.

(** C2.  A model for which the baseline map has an entry neither under its
    fully-qualified name nor under its short name is accepted: the result
    has [passed = True] and a non-empty warning list, whatever the
    warehouse would answer; the warehouse is not even asked. *)
Theorem first_run_is_accepted (wh : warehouse) (fqn : string)
    (baseline_map : gmap string BaselineFingerprint) (w : world) :
  baseline_map !! fqn = None ->
  baseline_map !! last_segment "." fqn = None ->
  passed (fst (_verify_single_model wh fqn baseline_map w)) = true /\
  warnings (fst (_verify_single_model wh fqn baseline_map w)) <> [] /\
  snd (_verify_single_model wh fqn baseline_map w) = w.
Proof.
  intros Hf Hm. unfold _verify_single_model. rewrite Hf, Hm.
  repeat split. discriminate.
Qed.

(** C4.  When the row counts differ the comparison fails, flags the row
    count, and its message names both counts. *)
Theorem row_count_mismatch_is_reported (baseline : BaselineFingerprint)
    (current : CurrentFingerprint) :
  bf_row_count baseline <> cf_row_count current ->
  passed (_compare_fingerprints baseline current) = false /\
  row_count_match (_compare_fingerprints baseline current) = Some false /\
  contains ("expected " +:+ str_int (bf_row_count baseline))
           (error_message (_compare_fingerprints baseline current)) = true /\
  contains ("got " +:+ str_int (cf_row_count current))
           (error_message (_compare_fingerprints baseline current)) = true.
Proof.
  intro H. apply Z.eqb_neq in H.
  unfold _compare_fingerprints. rewrite H. cbn [negb andb passed row_count_match error_message join].
  repeat split.
  - change (contains ("expected " +:+ str_int (bf_row_count baseline))
              ("Row count mismatch: " +:+ ("expected " +:+ str_int (bf_row_count baseline))
                 +:+ (", got " +:+ str_int (cf_row_count current))) = true).
    apply contains_middle.
  - do 2 apply contains_append_r.
    change (contains ("got " +:+ str_int (cf_row_count current))
              (", " +:+ ("got " +:+ str_int (cf_row_count current))) = true).
    apply contains_end.
Qed.

Lemma first_run_is_accepted_witness :
  let baseline_map : gmap string BaselineFingerprint := ∅ in
  baseline_map !! "DB.S.M" = None /\
  baseline_map !! last_segment "." "DB.S.M" = None /\
  passed (fst (_verify_single_model Samples.warehouse "DB.S.M" baseline_map
                 initial_world)) = true.
Proof.
  intro baseline_map.
  split; [reflexivity|]. split; [reflexivity|].
  apply (first_run_is_accepted Samples.warehouse "DB.S.M" baseline_map initial_world);
    reflexivity.
Defined.

Lemma row_count_mismatch_is_reported_witness :
  bf_row_count Samples.baseline_100 <> cf_row_count Samples.current_150 /\
  error_message (_compare_fingerprints Samples.baseline_100 Samples.current_150)
    = "Row count mismatch: expected 100, got 150" /\
  passed (_compare_fingerprints Samples.baseline_100 Samples.current_150) = false.
Proof.
  split; [discriminate|]. split; [reflexivity|].
  apply (row_count_mismatch_is_reported Samples.baseline_100 Samples.current_150).
  discriminate.
Defined.

(** C3.  An empty table is never hashed: [_get_content_hash] with a row
    count of zero returns [None] and sends nothing to the warehouse; a
    current fingerprint with a row count of zero has no content hash and
    cost exactly the row-count statement; and two fingerprints with a row
    count of zero compare as passed with [hash_match = True] (the
    comparison itself never touches the warehouse). *)
Theorem empty_table_is_never_hashed (wh : warehouse) (fqn : string) (w : world) :
  _get_content_hash wh fqn 0 w = (None, w) /\
  (forall fp w',
     _get_current_fingerprint wh fqn w = (Some fp, w') ->
     cf_row_count fp = 0 ->
     cf_content_hash fp = None /\
     queries w' = queries w ++ [Spec.count_statement fqn]) /\
  (forall baseline current,
     bf_row_count baseline = 0 ->
     cf_row_count current = 0 ->
     passed (_compare_fingerprints baseline current) = true /\
     hash_match (_compare_fingerprints baseline current) = Some true /\
     row_count_match (_compare_fingerprints baseline current) = Some true /\
     current_hash (_compare_fingerprints baseline current) = cf_content_hash current).
Proof.
  split; [reflexivity|]. split.
  - intros fp w'.
    unfold _get_current_fingerprint, _get_row_count, mbind, execute_query, ret.
    destruct (connected w) eqn:C; [|discriminate].
    destruct (first_cell (answer wh ("SELECT COUNT(*) FROM " +:+ fqn)))
      as [[row_count|]|]; [| |discriminate].
    + unfold _get_content_hash.
      destruct (Z.eqb_spec row_count 0) as [->|N].
      * unfold ret, now_iso. intros H _. inversion H. split; reflexivity.
      * intros H Z0. exfalso.
        destruct (mbind (_try_hash_agg wh fqn) _ _) as [content_hash w1].
        unfold now_iso in H. inversion H. subst fp. simpl in Z0. contradiction.
    + unfold _get_content_hash. cbn [Z.eqb]. unfold ret, now_iso.
      intros H _. inversion H. split; reflexivity.
  - intros baseline current Hb Hc.
    unfold _compare_fingerprints. rewrite Hb, Hc. repeat split.
Qed.

Lemma verify_loop_counts (wh : warehouse)
    (baseline_map : gmap string BaselineFingerprint) (model_fqns : list string) :
  forall (results : list VerificationResult) (passed_count : Z) (w : world),
    let out := fst (verify_loop wh model_fqns baseline_map results passed_count w) in
    snd out - passed_count = Spec.count_passed (fst out) - Spec.count_passed results /\
    length (fst out) = (length results + length model_fqns)%nat.
Proof.
  induction model_fqns as [|fqn rest IH]; intros results passed_count w.
  - simpl. split; lia.
  - cbn [verify_loop]. unfold mbind.
    destruct (_verify_single_model wh fqn baseline_map w) as [result w1].
    specialize (IH (results ++ [result])
                   (if passed result then passed_count + 1 else passed_count) w1).
    cbv zeta in IH |- *. destruct IH as [IHc IHl].
    split.
    + unfold Spec.count_passed in IHc |- *.
      rewrite List.filter_app, length_app in IHc. cbn [List.filter] in IHc.
      destruct (passed result); simpl in IHc; lia.
    + rewrite IHl, length_app. simpl. lia.
Qed.

Lemma failed_results_count (model_fqns : list string) (msg : string) :
  Spec.count_passed
    (map (fun fqn => plain_result (last_segment "." fqn) fqn false msg []) model_fqns) = 0.
Proof.
  unfold Spec.count_passed. induction model_fqns as [|f l IH]; [reflexivity|].
  simpl. exact IH.
Qed.

Lemma failed_summary_consistent (wh : warehouse) (pid : string)
    (model_fqns : list string) (w : world) :
  Spec.consistent_summary (length model_fqns)
    (fst (_create_failed_summary wh pid model_fqns w)) /\
  d_passed_models (fst (_create_failed_summary wh pid model_fqns w)) = 0.
Proof.
  unfold _create_failed_summary, mbind, now_iso, ret, Spec.consistent_summary, summary_to_dict.
  cbn [fst d_passed_models d_failed_models d_total_models d_results d_success_rate
       pipeline_id total_models passed_models failed_models results].
  rewrite failed_results_count, length_map.
  repeat split; try lia.
  - intro H. apply Z.ltb_lt in H. rewrite H. reflexivity.
  - intro H. rewrite H. reflexivity.
Qed.

(** C10.  Whatever the warehouse does, the summary [verify_models] returns
    for a list of [n] names has [passed + failed = total = n], one result
    per name, [passed] equal to the number of passed results, and a success
    rate of [passed / total], or [0.0] when there is no model.  The failure
    summary, which is what [verify_models] returns when the connection is
    refused or building the baseline map raises, has no passed model. *)
Theorem summary_counts_are_consistent (wh : warehouse) (pid : string)
    (model_fqns : list string) (baseline_fingerprints : list fingerprint_entry)
    (w : world) :
  Spec.consistent_summary (length model_fqns)
    (fst (verify_models wh pid model_fqns baseline_fingerprints w)) /\
  Spec.consistent_summary (length model_fqns)
    (fst (_create_failed_summary wh pid model_fqns w)) /\
  (accepts_connection wh = false \/
   (exists e, _create_baseline_map baseline_fingerprints = Raise e) ->
   d_passed_models
     (fst (verify_models wh pid model_fqns baseline_fingerprints w)) = 0 /\
   d_failed_models
     (fst (verify_models wh pid model_fqns baseline_fingerprints w))
   = Z.of_nat (length model_fqns)).
Proof.
  split; [|split].
  - unfold verify_models, mbind at 1, connect.
    destruct (accepts_connection wh); cbn [negb].
    + unfold mbind at 1.
      destruct (_create_baseline_map baseline_fingerprints) as [baseline_map|e].
      * unfold mbind at 1.
        pose proof (verify_loop_counts wh baseline_map model_fqns [] 0
                      {| connected := true; queries := queries w; ticks := ticks w |})
          as L.
        destruct (verify_loop wh model_fqns baseline_map [] 0 _) as [[rs pc] w1].
        cbv zeta in L. cbn [fst snd] in L. destruct L as [Lc Ll].
        unfold Spec.count_passed at 2 in Lc. cbn [List.filter length] in Lc.
        unfold mbind, now_iso, close, ret, Spec.consistent_summary, summary_to_dict.
        cbn [fst snd d_passed_models d_failed_models d_total_models d_results
             d_success_rate pipeline_id total_models passed_models failed_models results].
        repeat split; try lia.
        -- exact Ll.
        -- intro H. apply Z.ltb_lt in H. rewrite H. reflexivity.
        -- intro H. rewrite H. reflexivity.
      * pose proof (failed_summary_consistent wh pid model_fqns
                      {| connected := true; queries := queries w; ticks := ticks w |})
          as [F _].
        destruct (_create_failed_summary wh pid model_fqns _) as [s w1].
        exact F.
    + apply failed_summary_consistent.
  - apply failed_summary_consistent.
  - intros [C | [e E]]; unfold verify_models, mbind at 1, connect.
    + rewrite C. cbn [negb]. split; reflexivity.
    + destruct (accepts_connection wh); cbn [negb]; [|split; reflexivity].
      rewrite E. unfold mbind at 1.
      split; reflexivity.
Qed.

End Verification.

(** ** baseline.py *)

Section BaselineStore.
Import Py Baseline.

(** Writing and reading back a JSON-native value changes nothing. *)
Lemma jsonify_native : forall v : pyval, json_native v = true -> jsonify v = v.
Proof.
  fix IH 1.
  intros [ | b | z | q | s | l | l | d | s] H;
    simpl in *; try reflexivity; try discriminate.
  - f_equal. induction l as [|x l IHl]; [reflexivity|].
    simpl in *. apply andb_true_iff in H as [Hx Hl].
    rewrite (IH x Hx), (IHl Hl). reflexivity.
  - f_equal. induction d as [|[k x] d IHd]; [reflexivity|].
    simpl in *. apply andb_true_iff in H as [Hx Hd].
    rewrite (IH x Hx), (IHd Hd). reflexivity.
Qed.

(** C5.  A baseline file whose document has a ["metrics"] key and no
    ["build_metrics"] key makes [load_baseline] raise a [ValueError] that
    asks to regenerate the baseline; nothing is returned. *)
Theorem legacy_baseline_is_rejected (env : environment) (fs : filesystem)
    (pipeline_name : string) (snowflake_dir : option path) (d : pydict) :
  files fs !! _get_baseline_file_path env pipeline_name snowflake_dir
    = Some (Parsed (PyDict d)) ->
  has_key d "metrics" = true ->
  has_key d "build_metrics" = false ->
  load_baseline env fs pipeline_name snowflake_dir
    = Raise (ValueError old_format_message) /\
  contains "regenerate baseline" old_format_message = true.
Proof.
  intros Hf Hm Hb. split; [|reflexivity].
  unfold load_baseline. rewrite Hf.
  unfold py_in, bind. rewrite Hm, Hb. reflexivity.
Qed.

Lemma legacy_baseline_is_rejected_witness :
  files Samples.legacy_fs
    !! _get_baseline_file_path Samples.environment "Pipeline A" None
    = Some (Parsed (PyDict Samples.legacy_document)) /\
  has_key Samples.legacy_document "metrics" = true /\
  has_key Samples.legacy_document "build_metrics" = false /\
  load_baseline Samples.environment Samples.legacy_fs "Pipeline A" None
    = Raise (ValueError old_format_message).
Proof.
  assert (F : files Samples.legacy_fs
                !! _get_baseline_file_path Samples.environment "Pipeline A" None
              = Some (Parsed (PyDict Samples.legacy_document)))
    by (apply lookup_singleton_eq).
  split; [exact F|]. split; [reflexivity|]. split; [reflexivity|].
  apply (legacy_baseline_is_rejected Samples.environment Samples.legacy_fs
           "Pipeline A" None Samples.legacy_document F eq_refl eq_refl).
Defined.

(** What [load_baseline] returns right after a successful [save_baseline]. *)
Lemma load_after_save (env : environment) (fs fs' : filesystem)
    (pipeline_name : string) (build_metrics query_metrics fingerprints : pyval)
    (snowflake_dir : option path) :
  save_baseline env fs pipeline_name build_metrics query_metrics fingerprints
    snowflake_dir = Return (true, fs') ->
  load_baseline env fs' pipeline_name snowflake_dir
  = Return (Some (PyDict
      [ ("pipeline_name", PyStr pipeline_name);
        ("build_metrics", jsonify build_metrics);
        ("query_metrics", jsonify query_metrics);
        ("fingerprints", jsonify fingerprints);
        ("metadata",
         PyDict [ ("timestamp", PyStr (now env));
                  ("git_commit", opt_str (git_commit_hash env));
                  ("dbt_version", opt_str (dbt_version_probe env));
                  ("username", opt_str (username_probe env)) ]) ])).
Proof.
  unfold save_baseline.
  destruct (String.eqb pipeline_name ""); [discriminate|].
  destruct (is_dict build_metrics); [|discriminate].
  destruct (is_dict query_metrics); [|discriminate].
  cbn [negb].
  destruct (write_denied fs (_get_baselines_dir env snowflake_dir)); [discriminate|].
  destruct (write_denied fs (_get_baseline_file_path env pipeline_name snowflake_dir));
    [discriminate|].
  destruct (encoder_raises env _); [discriminate|].
  intro H. inversion H as [E]. clear H E.
  unfold load_baseline. cbn [files].
  rewrite lookup_insert_eq.
  destruct (git_commit_hash env), (dbt_version_probe env), (username_probe env);
    reflexivity.
Qed.

(** C6 (as amended).  After a successful [save_baseline] of JSON-native
    build metrics, query metrics and fingerprints, [load_baseline] for the
    same pipeline returns a document whose [build_metrics],
    [query_metrics] and [fingerprints] are the saved values and whose
    [metadata.timestamp] is the time of the save. *)
Theorem baseline_round_trip (env : environment) (fs fs' : filesystem)
    (pipeline_name : string) (build_metrics query_metrics fingerprints : pyval)
    (snowflake_dir : option path) :
  json_native build_metrics = true ->
  json_native query_metrics = true ->
  json_native fingerprints = true ->
  save_baseline env fs pipeline_name build_metrics query_metrics fingerprints
    snowflake_dir = Return (true, fs') ->
  exists data,
    load_baseline env fs' pipeline_name snowflake_dir = Return (Some data) /\
    field data "build_metrics" = Some build_metrics /\
    field data "query_metrics" = Some query_metrics /\
    field data "fingerprints" = Some fingerprints /\
    (exists metadata, field data "metadata" = Some metadata /\
                      field metadata "timestamp" = Some (PyStr (now env))).
Proof.
  intros Nb Nq Nf S.
  eexists. split; [apply (load_after_save _ _ _ _ _ _ _ _ S)|].
  rewrite (jsonify_native _ Nb), (jsonify_native _ Nq), (jsonify_native _ Nf).
  repeat split. eexists. split; reflexivity.
Qed.

Lemma baseline_round_trip_witness :
  json_native Samples.plain_metrics = true /\
  json_native Samples.plain_metrics = true /\
  json_native (PyList []) = true /\
  save_baseline Samples.environment Samples.empty_fs "Pipeline A"
    Samples.plain_metrics Samples.plain_metrics (PyList []) None
    = Return (true, Samples.after_save Samples.empty_fs Samples.plain_metrics) /\
  exists data,
    load_baseline Samples.environment
      (Samples.after_save Samples.empty_fs Samples.plain_metrics) "Pipeline A" None
      = Return (Some data) /\
    field data "build_metrics" = Some Samples.plain_metrics /\
    field data "query_metrics" = Some Samples.plain_metrics /\
    field data "fingerprints" = Some (PyList []) /\
    (exists metadata,
       field data "metadata" = Some metadata /\
       field metadata "timestamp" = Some (PyStr (now Samples.environment))).
Proof.
  split; [reflexivity|]. split; [reflexivity|]. split; [reflexivity|].
  split; [reflexivity|].
  apply (baseline_round_trip Samples.environment Samples.empty_fs
           (Samples.after_save Samples.empty_fs Samples.plain_metrics) "Pipeline A"
           Samples.plain_metrics Samples.plain_metrics (PyList []) None);
    reflexivity.
Defined.

(** C6, as stated, fails: [json.dump] writes a tuple as an array (and,
    through [default=str], an object it does not know as a string), so a
    build-metrics dictionary holding the tuple [(1, 2)] is saved
    successfully and read back holding the list [[1, 2]]. *)
Lemma baseline_round_trip_counterexample :
  save_baseline Samples.environment Samples.empty_fs "Pipeline A"
    Samples.metrics_with_tuple Samples.plain_metrics (PyList []) None
    = Return (true, Samples.after_save Samples.empty_fs Samples.metrics_with_tuple) /\
  exists data,
    load_baseline Samples.environment
      (Samples.after_save Samples.empty_fs Samples.metrics_with_tuple) "Pipeline A" None
      = Return (Some data) /\
    field data "build_metrics"
      = Some (PyDict [ ("total_execution_time_ms", PyInt 5000);
                       ("window", PyList [PyInt 1; PyInt 2]) ]) /\
    field data "build_metrics" <> Some Samples.metrics_with_tuple.
Proof.
  assert (S : save_baseline Samples.environment Samples.empty_fs "Pipeline A"
                Samples.metrics_with_tuple Samples.plain_metrics (PyList []) None
              = Return (true, Samples.after_save Samples.empty_fs
                                Samples.metrics_with_tuple))
    by reflexivity.
  split; [exact S|].
  eexists. split; [apply (load_after_save _ _ _ _ _ _ _ _ S)|].
  split; [reflexivity|]. discriminate.
Qed.

End BaselineStore.

(** ** metrics_collector.py: look-back window *)

Section Lookback.
Import Num Collector.

Lemma minutes_ago_start_quot (now start_time : datetime) :
  minutes_ago_start now start_time
  = Z.max (Z.quot (now - start_time) 60000000 + 5) 15.
Proof.
  unfold minutes_ago_start, py_int, total_seconds, Qdiv, Qmult, Qinv.
  cbn [Qnum Qden inject_Z]. rewrite !Z.mul_1_r. reflexivity.
Qed.

Lemma window_before_start_time (now start_time : datetime) :
  start_time <= now ->
  window_start now start_time < start_time - timedelta_minutes 4.
Proof.
  intro H. unfold window_start, timedelta_minutes.
  rewrite minutes_ago_start_quot.
  rewrite Z.quot_div_nonneg by lia.
  pose proof (Z.div_mod (now - start_time) 60000000 ltac:(lia)) as E.
  pose proof (Z.mod_pos_bound (now - start_time) 60000000 ltac:(lia)) as B.
  lia.
Qed.

(** C9 (as amended).  For a collection time [now] not before the pipeline
    start [start_ts], the look-back of the history lookup is at least 15
    minutes, counted back from [now]; the window begins more than 4 minutes
    before the start time the lookup is given, which with the 10-minute
    buffer of [collect_metrics] is more than 14 minutes before
    [start_ts]. *)
Theorem lookback_window_bounds (now start_ts : datetime) :
  start_ts <= now ->
  15 <= minutes_ago_start now (query_start_dt start_ts default_time_window_minutes) /\
  collect_window_start now start_ts default_time_window_minutes
    <= now - timedelta_minutes 15 /\
  collect_window_start now start_ts default_time_window_minutes
    < start_ts - timedelta_minutes 14 /\
  (forall start_time, start_time <= now ->
     window_start now start_time < start_time - timedelta_minutes 4).
Proof.
  intro H.
  assert (M : 15 <= minutes_ago_start now
                      (query_start_dt start_ts default_time_window_minutes))
    by (unfold minutes_ago_start; lia).
  split; [exact M|]. split; [|split].
  - unfold collect_window_start, window_start, timedelta_minutes in *. lia.
  - pose proof (window_before_start_time now
                  (query_start_dt start_ts default_time_window_minutes)) as W.
    unfold collect_window_start, query_start_dt, default_time_window_minutes,
      timedelta_minutes in *. lia.
  - apply window_before_start_time.
Qed.

Lemma lookback_window_bounds_witness :
  0 <= 30000000 /\
  collect_window_start 30000000 0 default_time_window_minutes = -870000000 /\
  collect_window_start 30000000 0 default_time_window_minutes
    < 0 - timedelta_minutes 14.
Proof.
  split; [lia|]. split; [reflexivity|].
  destruct (lookback_window_bounds 30000000 0) as (_ & _ & W & _); [lia|].
  exact W.
Defined.

(** C9, as stated, fails: thirty seconds after the pipeline start the
    look-back is 15 minutes, so the window begins 14.5 minutes before
    [start_ts], later than [start_ts] minus 15 minutes; and the lookup
    itself, given a start time twenty minutes old, looks back 25 minutes
    and begins only 5 minutes before it. *)
Lemma lookback_window_counterexample :
  0 <= 30000000 /\
  minutes_ago_start 30000000 (query_start_dt 0 default_time_window_minutes) = 15 /\
  ~ (collect_window_start 30000000 0 default_time_window_minutes
       <= 0 - timedelta_minutes 15) /\
  ~ (window_start 1200000000 0 <= 0 - timedelta_minutes 15).
Proof.
  split; [lia|]. split; [reflexivity|].
  split; vm_compute; intro H; apply H; reflexivity.
Qed.

End Lookback.

(** ** Worked examples

    The remaining testable properties of the specification, run on the
    embedding. *)

Section Examples.
Import Num Py Report Verify.



(** Equal row counts and equal hashes pass. *)
Example matching_fingerprints_pass :
  let current :=
    {| cf_model_name := "M"; cf_fqn := "DB.S.M"; cf_row_count := 100;
       cf_content_hash := Some 77; cf_timestamp := "" |} in
  passed (_compare_fingerprints Samples.baseline_100 current) = true /\
  hash_match (_compare_fingerprints Samples.baseline_100 current) = Some true.
Proof. split; reflexivity. Qed.

(** A hash on one side only leaves [hash_match] undetermined, with a
    warning, and does not fail the model. *)
Example one_sided_hash_is_indeterminate :
  let current :=
    {| cf_model_name := "M"; cf_fqn := "DB.S.M"; cf_row_count := 100;
       cf_content_hash := None; cf_timestamp := "" |} in
  passed (_compare_fingerprints Samples.baseline_100 current) = true /\
  hash_match (_compare_fingerprints Samples.baseline_100 current) = None /\
  warnings (_compare_fingerprints Samples.baseline_100 current)
  = ["Could not compute current content hash for comparison (baseline hash: 77)"].
Proof. repeat split. Qed.

(** A run over three models: a row-count mismatch, an empty table and a
    model without baseline.  Only the first table is hashed. *)
Example verify_three_models :
  let out :=
    verify_models Samples.warehouse "A" ["DB.S.M"; "DB.S.E"; "DB.S.X"]
      [ FingerprintDict (Some "M") (Some "DB.S.M") (Some 100) (Some 77) None;
        FingerprintDict (Some "E") None (Some 0) None None ]
      initial_world in
  d_total_models (fst out) = 3 /\
  d_passed_models (fst out) = 2 /\
  d_failed_models (fst out) = 1 /\
  d_success_rate (fst out) = (2 # 3)%Q /\
  map error_message (d_results (fst out))
  = [ "Row count mismatch: expected 100, got 150"; "";
      "No baseline available (first run)" ] /\
  queries (snd out)
  = [ "SELECT COUNT(*) FROM DB.S.M";
      "SELECT HASH_AGG(HASH(*)) FROM DB.S.M";
      "SELECT COUNT(*) FROM DB.S.E" ].
Proof. vm_compute. repeat split. Qed.

(** A slower build with faster queries is the favorable tradeoff. *)
Example slower_build_faster_queries :
  let cmp :=
    compare_metrics (fun _ => "") "2024-01-15T10:30:00+00:00" None
      [("total_execution_time_ms", 5000%Q)] [("total_execution_time_ms", 5750%Q)]
      "Pipeline A" "pass"
      (Some [("total_execution_time_ms", 1000%Q)])
      (Some [("total_execution_time_ms", 800%Q)]) in
  option_map recommendation (tradeoff_analysis cmp) = Some Spec.FAVORABLE /\
  option_map build_vs_query_insight (tradeoff_analysis cmp)
  = Some ("Build cost increased +15.0%, "
          +:+ "but query performance improved -20.0% (faster queries)").
Proof. vm_compute. split; reflexivity. Qed.

End Examples.

(** ** Worked examples on floats *)

Section FloatExamples.
Import Py Binary64.

(** Values at a rounding tie, where the float is not the decimal it is
    written as: [0.05] lies above one twentieth, so 2000 -> 2001 is
    reported as 0.1 %, and 2000 -> 1999 as -0.1 %. *)
Example change_2000_2001 :
  Report64._calculate_percentage_change (of_Z 2000) (of_Z 2001) = Return (of_Q (1 # 10)).
Proof. vm_compute. reflexivity. Qed.

Example change_2000_1999 :
  Report64._calculate_percentage_change (of_Z 2000) (of_Z 1999) = Return (of_Q (-1 # 10)).
Proof. vm_compute. reflexivity. Qed.

Example change_10000_10001 :
  Report64._calculate_percentage_change (of_Z 10000) (of_Z 10001) = Return zero.
Proof. vm_compute. reflexivity. Qed.

(** On paper 60120 ms and 60264 ms cost 0.04175 and 0.04185 dollars, two
    ties at the fourth decimal; the floats round to 0.0417 and 0.0419. *)
Example cost_60120 :
  Report64._calculate_cost (of_Z 60120) (Some Samples.cost_config)
  = Some (of_Q (417 # 10000)).
Proof. vm_compute. reflexivity. Qed.

Example cost_60264 :
  Report64._calculate_cost (of_Z 60264) (Some Samples.cost_config)
  = Some (of_Q (419 # 10000)).
Proof. vm_compute. reflexivity. Qed.

(** A rate that is not a number switches the estimate off. *)
Example cost_with_text_rate :
  Report64._calculate_cost (of_Z 60120)
    (Some [("enabled", PyBool true); ("credits_per_hour", PyStr "1")]) = None.
Proof. reflexivity. Qed.

End FloatExamples.

(** ** Worked examples on the baseline store *)

Section StoreExamples.
Import Py Baseline.

(** A save whose encoder raises returns [False] and leaves the baseline
    that was there before unreadable. *)
Example failed_dump_destroys_baseline :
  let env :=
    {| cwd := cwd Samples.environment; now := now Samples.environment;
       git_commit_hash := None; dbt_version_probe := None; username_probe := None;
       encoder_raises := fun _ => true |} in
  let fs := Samples.after_save Samples.empty_fs Samples.plain_metrics in
  exists fs',
    (exists data, load_baseline env fs "Pipeline A" None = Return (Some data)) /\
    save_baseline env fs "Pipeline A" Samples.plain_metrics Samples.plain_metrics
      (PyList []) None = Return (false, fs') /\
    load_baseline env fs' "Pipeline A" None = Return None.
Proof.
  eexists. split; [eexists; reflexivity|]. split; reflexivity.
Qed.

(** A baseline file that cannot be decoded makes [load_baseline] raise. *)
Example undecodable_baseline_raises :
  load_baseline Samples.environment
    {| files := {[ Samples.baseline_path := Undecodable "invalid start byte" ]};
       write_denied := fun _ => false |} "Pipeline A" None
  = Raise (ValueError "invalid start byte").
Proof. reflexivity. Qed.

(** Slashes in a pipeline name are path separators. *)
Example names_with_slashes :
  _get_baseline_file_path Samples.environment "a/b" None
  = _get_baseline_file_path Samples.environment "a//b" None /\
  _get_baseline_file_path Samples.environment "../x" None
  = ["home"; "project"; "snowflake"; "benchmark"; "x_baseline.json"].
Proof. split; reflexivity. Qed.

End StoreExamples.

(** * Further properties *)

(** ** Rounding, continued *)

Section RoundingOrder.
Import Num.
Local Open Scope Q_scope.



Lemma round_half_even_integer (z : Z) : round_half_even (inject_Z z) = z.
Proof.
  unfold round_half_even. rewrite Qfloor_Z.
  assert (E : ((inject_Z z - inject_Z z) ?= (1 # 2)) = Lt).
  { apply (proj1 (Qlt_alt _ _)). lra. }
  rewrite E. reflexivity.
Qed.

(** The rounded value is negative exactly below minus one half. *)
Lemma round_half_even_neg (x : Q) :
  (round_half_even x < 0)%Z <-> x < - (1 # 2).
Proof.
  unfold round_half_even.
  destruct (floor_bounds x) as [Hlo Hhi].
  set (f := Qfloor x) in *.
  assert (Hle : forall k : Z, (f <= k)%Z -> inject_Z f <= k # 1)
    by (intros k H; unfold Qle; simpl; lia).
  assert (Hge : forall k : Z, (k <= f)%Z -> k # 1 <= inject_Z f)
    by (intros k H; unfold Qle; simpl; lia).
  destruct (x - inject_Z f ?= 1 # 2) eqn:E.
  - apply Qeq_alt in E.
    destruct (Z.even f) eqn:Ev.
    + assert (f <> -1)%Z by (intro Z0; rewrite Z0 in Ev; discriminate).
      split; intro H0.
      * pose proof (Hle (-2)%Z ltac:(lia)) as K. lra.
      * destruct (Z_lt_le_dec f 0) as [L|L]; [exact L|].
        pose proof (Hge 0%Z L) as K. lra.
    + split; intro H0.
      * pose proof (Hle (-2)%Z ltac:(lia)) as K. lra.
      * destruct (Z_lt_le_dec (f + 1) 0) as [L|L]; [exact L|].
        pose proof (Hge (-1)%Z ltac:(lia)) as K. lra.
  - apply Qlt_alt in E.
    split; intro H.
    + pose proof (Hle (-1)%Z ltac:(lia)) as K. lra.
    + destruct (Z_lt_le_dec f 0) as [L|L]; [exact L|].
      pose proof (Hge 0%Z L) as K. lra.
  - apply Qgt_alt in E.
    split; intro H.
    + pose proof (Hle (-2)%Z ltac:(lia)) as K. lra.
    + destruct (Z_lt_le_dec (f + 1) 0) as [L|L]; [exact L|].
      pose proof (Hge (-1)%Z ltac:(lia)) as K. lra.
Qed.


Lemma py_round_neg (x : Q) (n : nat) :
  py_round x n < 0 <-> x * inject_Z (Zpos (scale n)) < - (1 # 2).
Proof.
  unfold py_round. rewrite <- round_half_even_neg.
  unfold Qlt. simpl. split; intro H; lia.
Qed.

End RoundingOrder.

(** ** report.py, continued *)

Section ReportMore.
Import Num Py Report.
Local Open Scope Q_scope.

Lemma is_regression_positive (key : string) (x : Q) :
  _is_regression key x = true -> 0 < x.
Proof.
  unfold _is_regression. destruct (existsb _ _); [|discriminate].
  apply Qgtb_lt.
Qed.



(** X2.  Every regression flag has its warning: [_compare_metric_set] emits as
    many warnings as it flags comparisons; a flag is only ever set on an
    increase; and the rows-produced comparison (the third) is never
    flagged. *)
Theorem warnings_count_regressions (repr_float : Q -> string)
    (cfg : option pydict) (b c : metrics) (set_name : string) :
  let r := _compare_metric_set repr_float cfg b c set_name in
  length (snd r) = length (List.filter is_regression (fst r)) /\
  (forall e, In e (fst r) -> is_regression e = true -> 0 < change_pct e) /\
  nth_error (map is_regression (fst r)) 2 = Some false.
Proof.
  intro r. subst r. unfold _compare_metric_set. cbv zeta.
  assert (R : forall x, _is_regression "rows_produced_change_pct" x = false)
    by reflexivity.
  rewrite !R.
  destruct (_calculate_cost _ cfg) as [bcost|];
    [destruct (_calculate_cost _ cfg) as [ccost|]|];
    cbn [fst snd].
  all: split; [|split; [|reflexivity]].
  all: try (repeat match goal with
                   | |- context [_is_regression ?k ?x] =>
                       destruct (_is_regression k x) eqn:?
                   end; reflexivity).
  all: intros e He Hr; cbn [In app] in He;
    repeat destruct He as [He|He]; try contradiction; subst e;
    cbn [is_regression change_pct] in *;
    try discriminate; eapply is_regression_positive; exact Hr.
Qed.

End ReportMore.

Section ReportCost.
Import Num Py Report.
Local Open Scope Q_scope.





Lemma compare_metric_set_nonempty (repr_float : Q -> string)
    (cfg : option pydict) (b c : metrics) (set_name : string) :
  fst (_compare_metric_set repr_float cfg b c set_name) <> [].
Proof.
  unfold _compare_metric_set. cbv zeta.
  destruct (_calculate_cost _ cfg) as [bcost|];
    [destruct (_calculate_cost _ cfg) as [ccost|]|]; discriminate.
Qed.

(** X5.  The tradeoff analysis is produced exactly when both query-time metric
    sets are supplied.  Without one of them the comparison is the build
    comparison alone. *)
Theorem tradeoff_needs_both_query_sets (repr_float : Q -> string) (now : string)
    (config_file : option file) (bm cm : metrics) (name status : string)
    (bq cq : option metrics) :
  let cmp := compare_metrics repr_float now config_file bm cm name status bq cq in
  (tradeoff_analysis cmp <> None <-> bq <> None /\ cq <> None) /\
  (tradeoff_analysis cmp = None ->
     query_comparisons cmp = [] /\
     comparisons cmp = build_comparisons cmp /\
     warnings cmp = build_warnings cmp).
Proof.
  intro cmp. subst cmp. unfold compare_metrics.
  destruct (_compare_metric_set repr_float (_load_cost_config config_file) bm cm "Build")
    as [bc bw].
  destruct bq as [bq|], cq as [cq|].
  2-4: cbn [tradeoff_analysis query_comparisons comparisons build_comparisons
            warnings build_warnings];
       rewrite !app_nil_r; split; [|auto];
       split; [intro H; exfalso; apply H; reflexivity|];
       intros [A B]; exfalso; (apply A; reflexivity) || (apply B; reflexivity).
  pose proof (compare_metric_set_nonempty repr_float (_load_cost_config config_file)
                bq cq "Query") as N.
  destruct (_compare_metric_set repr_float (_load_cost_config config_file) bq cq "Query")
    as [qc qw].
  cbn [fst] in N.
  cbn [tradeoff_analysis query_comparisons comparisons build_comparisons
       warnings build_warnings].
  destruct qc as [|q0 qc]; [contradiction|].
  split; [split; [intros _; split; discriminate | intros _; discriminate]|].
  discriminate.
Qed.

End ReportCost.

(** ** Strings, continued *)

Section StringsMore.
Import Py.





End StringsMore.

Section ReportRendering.
Import Num Py Report.
Local Open Scope Q_scope.


Lemma sum_Z_nonneg (l : list Z) :
  Forall (fun x => (0 <= x)%Z) l -> (0 <= sum_Z l)%Z.
Proof. induction 1; simpl; lia. Qed.

(** X7.  The summary of the aggregated report: the number of pipelines with a
    baseline lies between zero and the number of pipelines and equals it
    when every comparison comes from [compare_metrics]; the regression
    total is the number of all warnings, and is zero exactly when no
    pipeline has a warning. *)
Theorem aggregated_summary_counts (l : list PipelineComparison) :
  let s := aggregated_summary l in
  (0 <= total_pipelines_with_baseline s <= pipeline_count s)%Z /\
  (Forall (fun c => has_baseline c = true) l ->
   total_pipelines_with_baseline s = pipeline_count s) /\
  total_regressions s = Z.of_nat (length (concat (map warnings l))) /\
  (total_regressions s = 0%Z <-> Forall (fun c => warnings c = []) l).
Proof.
  unfold aggregated_summary.
  cbn [total_pipelines_with_baseline pipeline_count total_regressions].
  induction l as [|c l (IH1 & IH2 & IH3 & IH4)].
  - cbn. repeat split; try lia. constructor.
  - cbn [map sum_Z length concat]. rewrite length_app, Nat2Z.inj_succ, Nat2Z.inj_add.
    split; [|split; [|split]].
    + destruct (has_baseline c); lia.
    + intro F. inversion F as [|? ? Hc Hl]. subst. rewrite Hc.
      rewrite (IH2 Hl). lia.
    + rewrite IH3. reflexivity.
    + split.
      * intro H.
        assert (A : warnings c = []) by (destruct (warnings c); [reflexivity|simpl in H; lia]).
        constructor; [exact A|]. apply IH4. rewrite A in H. simpl in H. lia.
      * intro F. inversion F as [|? ? Hc Hl]. subst. rewrite Hc.
        rewrite (proj2 IH4 Hl). reflexivity.
Qed.

End ReportRendering.

Section PercentageChangeMore.
Import Py Binary64 Report64.

Lemma zero_change (d b : float) (n : nat) :
  eqb d zero = true -> eqb b zero = false ->
  is_infinite b = false -> eqb b b = true ->
  eqb (py_round (mul (div d (abs b)) (of_Z 100)) n) zero = true.
Proof.
  rewrite hundred_eq.
  destruct d as [s|s| |s m e]; try discriminate; try (destruct s; discriminate).
  destruct b as [s'|s'| |s' m' e']; try discriminate; reflexivity.
Qed.

(** X3.  The execution-time comparison comes first and carries the two
    execution times; it is never flagged when the baseline is zero; it is
    flagged exactly when its percentage change is positive; and a flag
    means that the current time is greater than the baseline time. *)
Theorem execution_time_regression_sound (repr_float : float -> string)
    (cfg : option pydict) (bm cm : metrics) (set_name : string) :
  let b := Spec64.execution_time bm in
  let c := Spec64.execution_time cm in
  exists e rest warnings,
    _compare_metric_set repr_float cfg bm cm set_name = Return (e :: rest, warnings) /\
    baseline_value e = b /\ current_value e = c /\
    _calculate_percentage_change b c = Return (change_pct e) /\
    (eqb b zero = true -> is_regression e = false) /\
    (is_regression e = true <-> gtb (change_pct e) zero = true) /\
    (valid b = true -> valid c = true -> is_regression e = true -> gtb c b = true).
Proof.
  intros b c. unfold _compare_metric_set. cbv zeta.
  fold (Spec64.execution_time bm) (Spec64.execution_time cm). fold b c.
  rewrite !percentage_change_returns. cbn [bind].
  assert (K : forall x, _is_regression "execution_time_change_pct" x = gtb x zero)
    by reflexivity.
  assert (Z0 : eqb b zero = true ->
               gtb (Spec64.percentage_change b c) zero = false).
  { intro E. unfold Spec64.percentage_change. rewrite E. reflexivity. }
  assert (S : valid b = true -> valid c = true ->
              gtb (Spec64.percentage_change b c) zero = true -> gtb c b = true).
  { intros Vb Vc. exact (proj1 (percentage_change_sign_sound b c Vb Vc)). }
  destruct (_calculate_cost b cfg) as [bcost|];
    [destruct (_calculate_cost c cfg) as [ccost|]|];
    try (rewrite !percentage_change_returns; cbn [bind]);
    cbn [app]; eexists; eexists; eexists; (split; [reflexivity|]);
    cbn [baseline_value current_value is_regression change_pct];
    rewrite K; repeat split; try assumption; try (intro H; exact H).
Qed.

(** X8.  The sign of the reported change never contradicts the direction
    of the change, whatever the sign of the baseline: a positive result
    means the value grew, a negative result means it shrank, a growing
    value never gives a negative result, a shrinking value never a positive
    one, and two equal finite values give zero. *)
Theorem percentage_change_sign (b c r : float) :
  valid b = true -> valid c = true ->
  _calculate_percentage_change b c = Return r ->
  (gtb r zero = true -> gtb c b = true) /\
  (ltb r zero = true -> ltb c b = true) /\
  (gtb c b = true -> ltb r zero = false) /\
  (ltb c b = true -> gtb r zero = false) /\
  (eqb c b = true -> is_infinite c = false -> eqb r zero = true).
Proof.
  intros Vb Vc R. rewrite percentage_change_returns in R. inversion R as [Hr].
  destruct (percentage_change_sign_sound b c Vb Vc) as (A & B & C & D).
  split; [exact A|]. split; [exact B|]. split; [exact C|]. split; [exact D|].
  intros E F. unfold Spec64.percentage_change.
  destruct (eqb b zero) eqn:Z; [reflexivity|].
  unfold Spec64.relative_change. apply zero_change.
  - apply sub_equal; assumption.
  - exact Z.
  - destruct b as [s'|s'| |s' m' e']; try reflexivity.
    destruct c as [s|s| |s m e]; try discriminate F; try discriminate E;
      destruct s, s'; discriminate E.
  - destruct b as [s'|s'| |s' m' e'].
    + reflexivity.
    + destruct s'; reflexivity.
    + destruct c as [s|s| |s m e]; discriminate E.
    + unfold eqb, SFeqb.
      rewrite (compare_aligned s' s' m' m' e' e' Vb Vb), Z.compare_refl. reflexivity.
Qed.

Lemma percentage_change_sign_witness :
  valid (of_Z 2000) = true /\ valid (of_Z 1999) = true /\
  _calculate_percentage_change (of_Z 2000) (of_Z 1999) = Return (of_Q (-1 # 10)) /\
  ltb (of_Q (-1 # 10)) zero = true /\
  ltb (of_Z 1999) (of_Z 2000) = true.
Proof.
  split; [reflexivity|]. split; [reflexivity|].
  assert (R : _calculate_percentage_change (of_Z 2000) (of_Z 1999)
              = Return (of_Q (-1 # 10))) by (vm_compute; reflexivity).
  split; [exact R|]. split; [reflexivity|].
  destruct (percentage_change_sign (of_Z 2000) (of_Z 1999) (of_Q (-1 # 10))
              eq_refl eq_refl R) as (_ & H & _).
  apply H. reflexivity.
Defined.

End PercentageChangeMore.

(** ** verify_output.py, continued *)

Section ComparisonVerdict.
Import Py Verify.

(** X9.  The verdict of a comparison.  It passes exactly when the row counts
    are equal and, for a non-empty table with a hash on both sides, the
    hashes are equal; and it passes exactly when it reports no error. *)
Theorem comparison_verdict (baseline : BaselineFingerprint)
    (current : CurrentFingerprint) :
  let r := _compare_fingerprints baseline current in
  (passed r = true <->
     bf_row_count baseline = cf_row_count current /\
     (0 < cf_row_count current ->
      forall h1 h2, bf_content_hash baseline = Some h1 ->
                    cf_content_hash current = Some h2 -> h1 = h2)) /\
  (passed r = true <-> error_message r = "").
Proof.
  intro r. subst r. unfold _compare_fingerprints.
  destruct (Z.eqb_spec (bf_row_count baseline) (cf_row_count current)) as [E|N];
    cbn [negb andb].
  - destruct (Z.ltb_spec 0 (cf_row_count current)) as [L|L].
    + destruct (bf_content_hash baseline) as [h1|], (cf_content_hash current) as [h2|];
        try destruct (Z.eqb_spec h1 h2) as [Eh|Nh];
        cbn [passed error_message join app]; split; split;
        try (intros; discriminate); try reflexivity;
        try (intros _; split; [exact E|]; intros _ a b Ha Hb; congruence).
      intros [_ H]. exfalso. apply Nh. apply (H L h1 h2); reflexivity.
    + cbn [passed error_message join]. split; split; try reflexivity.
      intros _. split; [exact E|]. intro. lia.
  - cbn [passed error_message join]. split; split; try (intros; discriminate).
    intros [E _]. contradiction.
Qed.

(** X10.  The hash comparison is undetermined ([hash_match] is [None]) exactly
    for a non-empty table with equal row counts and a hash on one side
    only; this is exactly the case in which the result carries a warning,
    and it does not fail the model. *)
Theorem indeterminate_hash_match (baseline : BaselineFingerprint)
    (current : CurrentFingerprint) :
  let r := _compare_fingerprints baseline current in
  (hash_match r = None <->
     bf_row_count baseline = cf_row_count current /\
     0 < cf_row_count current /\
     ((bf_content_hash baseline <> None /\ cf_content_hash current = None) \/
      (bf_content_hash baseline = None /\ cf_content_hash current <> None))) /\
  (warnings r <> [] <-> hash_match r = None) /\
  (hash_match r = None -> passed r = true).
Proof.
  intro r. subst r. unfold _compare_fingerprints.
  destruct (Z.eqb_spec (bf_row_count baseline) (cf_row_count current)) as [E|N];
    cbn [negb andb].
  - destruct (Z.ltb_spec 0 (cf_row_count current)) as [L|L].
    + destruct (bf_content_hash baseline) as [h1|], (cf_content_hash current) as [h2|];
        try destruct (Z.eqb_spec h1 h2) as [Eh|Nh];
        cbn [passed hash_match warnings];
        (split; [split|split; [split|]]);
        try (intros; discriminate); try reflexivity; try congruence;
        try (intros [_ [_ [[A B]|[A B]]]]; congruence);
        try (intros _; split; [exact E|]; split; [exact L|]);
        try (left; split; congruence); try (right; split; congruence).
    + cbn [passed hash_match warnings].
      split; [split|split; [split|]]; try (intros; discriminate); try congruence.
      intros [_ [L' _]]. lia.
  - cbn [passed hash_match warnings].
    split; [split|split; [split|]]; try (intros; discriminate); try congruence.
    intros [E _]. contradiction.
Qed.

End ComparisonVerdict.

Section BaselineMap.
Import Py Verify.

Lemma from_dict_key (e : fingerprint_entry) (f : BaselineFingerprint) :
  from_dict e = Return f ->
  Spec.entry_key e
  = Some (if String.eqb (bf_fqn f) "" then bf_model_name f else bf_fqn f).
Proof.
  destruct e as [n q rc h ts|]; [|discriminate].
  intro H. inversion H. reflexivity.
Qed.

Lemma baseline_map_from_raises (fps : list fingerprint_entry) :
  forall acc : gmap string BaselineFingerprint,
    (In NotADict fps -> _create_baseline_map_from fps acc = Raise AttributeError) /\
    (~ In NotADict fps -> exists m, _create_baseline_map_from fps acc = Return m).
Proof.
  induction fps as [|e fps IH]; intro acc.
  - split; [intros []|]. intros _. exists acc. reflexivity.
  - destruct e as [n q rc h ts|].
    + cbn [_create_baseline_map_from from_dict bind].
      destruct (IH (<[(if String.eqb (default "" q) "" then default "" n
                       else default "" q) :=
                      {| bf_model_name := default "" n; bf_fqn := default "" q;
                         bf_row_count := default 0 rc; bf_content_hash := h;
                         bf_timestamp := default "" ts |}]> acc)) as [A B].
      split.
      * intros [C|C]; [discriminate C | exact (A C)].
      * intro C. apply B. intro D. apply C. right. exact D.
    + split; [reflexivity|]. intro C. exfalso. apply C. left. reflexivity.
Qed.

Lemma not_a_dict_dec (fps : list fingerprint_entry) :
  {In NotADict fps} + {~ In NotADict fps}.
Proof.
  induction fps as [|e fps [I|I]].
  - right. intros [].
  - left. right. exact I.
  - destruct e as [n q rc h ts|].
    + right. intros [C|C]; [discriminate C | contradiction].
    + left. left. reflexivity.
Qed.

(** X11.  On a list whose dictionaries have the form
    [BaselineFingerprint.to_dict] writes, building the baseline map fails
    exactly when the list holds an element that is not a dictionary, and
    then with [AttributeError]. *)
Theorem baseline_map_raises_iff (fps : list fingerprint_entry) :
  (_create_baseline_map fps = Raise AttributeError <-> In NotADict fps) /\
  (forall e, _create_baseline_map fps = Raise e -> e = AttributeError) /\
  (~ In NotADict fps <-> exists m, _create_baseline_map fps = Return m).
Proof.
  unfold _create_baseline_map.
  destruct (baseline_map_from_raises fps ∅) as [A B].
  destruct (not_a_dict_dec fps) as [I|I].
  - rewrite (A I). split; [|split].
    + split; intros _; [exact I | reflexivity].
    + intros e E. inversion E. reflexivity.
    + split; [intro C; contradiction | intros [m C]; discriminate C].
  - destruct (B I) as [m Hm]. rewrite Hm. split; [|split].
    + split; [intro C; discriminate C | intro C; contradiction].
    + intros e C. discriminate C.
    + split; [intros _; exists m; reflexivity | intros _; exact I].
Qed.

Lemma baseline_map_from_lookup (k : string) (fps : list fingerprint_entry) :
  forall (acc m : gmap string BaselineFingerprint),
    _create_baseline_map_from fps acc = Return m ->
    (Forall (fun e => Spec.entry_key e <> Some k) fps -> m !! k = acc !! k) /\
    (m !! k = None -> acc !! k = None /\
                      Forall (fun e => Spec.entry_key e <> Some k) fps) /\
    (forall pre e post f,
       fps = pre ++ e :: post ->
       Spec.entry_key e = Some k ->
       Forall (fun e' => Spec.entry_key e' <> Some k) post ->
       from_dict e = Return f ->
       m !! k = Some f).
Proof.
  induction fps as [|e fps IH]; intros acc m H.
  - cbn in H. inversion H. subst m. repeat split; auto.
    intros pre e post f E. destruct pre; discriminate E.
  - cbn [_create_baseline_map_from] in H.
    destruct (from_dict e) as [fp|ex] eqn:Fe; [|discriminate H].
    cbn [bind] in H.
    pose proof (from_dict_key e fp Fe) as Ke.
    set (key := if String.eqb (bf_fqn fp) "" then bf_model_name fp else bf_fqn fp) in *.
    destruct (IH _ _ H) as (I1 & I2 & I3).
    split; [|split].
    + intro F. inversion F as [|? ? Fk Fr]. subst.
      rewrite (I1 Fr). apply lookup_insert_ne. intro C. apply Fk. rewrite Ke, C.
      reflexivity.
    + intro N. destruct (I2 N) as [A Fr].
      destruct (decide (key = k)) as [C|C].
      * subst k. rewrite lookup_insert_eq in A. discriminate A.
      * rewrite lookup_insert_ne in A by exact C. split; [exact A|].
        constructor; [|exact Fr]. rewrite Ke. intro D. inversion D. contradiction.
    + intros pre e' post f E Kk Fp Fd.
      destruct pre as [|p pre]; cbn in E; inversion E; subst.
      * assert (fp = f) by congruence. subst f.
        destruct (IH _ _ H) as (J1 & _ & _).
        rewrite (J1 Fp).
        assert (key = k) by congruence. subst k. apply lookup_insert_eq.
      * apply (I3 pre e' post f eq_refl Kk Fp Fd).
Qed.

(** X12.  What the baseline map holds.  A name has no entry exactly when no
    element of the list is filed under it (its FQN or, when that is empty,
    its model name); and when several elements share a key, the last one
    is the one the map keeps. *)
Theorem baseline_map_lookup (fps : list fingerprint_entry)
    (m : gmap string BaselineFingerprint) (k : string) :
  _create_baseline_map fps = Return m ->
  (m !! k = None <-> Forall (fun e => Spec.entry_key e <> Some k) fps) /\
  (forall pre e post f,
     fps = pre ++ e :: post ->
     Spec.entry_key e = Some k ->
     Forall (fun e' => Spec.entry_key e' <> Some k) post ->
     from_dict e = Return f ->
     m !! k = Some f).
Proof.
  intro H. unfold _create_baseline_map in H.
  destruct (baseline_map_from_lookup k fps ∅ m H) as (A & B & C).
  split; [split|exact C].
  - intro N. exact (proj2 (B N)).
  - intro F. rewrite (A F). apply lookup_empty.
Qed.

Lemma baseline_map_lookup_witness :
  let older := FingerprintDict (Some "M") (Some "DB.S.M") (Some 100) (Some 77) None in
  let newer := FingerprintDict (Some "M") (Some "DB.S.M") (Some 120) (Some 78) None in
  let m : gmap string BaselineFingerprint :=
    match _create_baseline_map [older; newer] with
    | Return m => m
    | Raise _ => ∅
    end in
  _create_baseline_map [older; newer] = Return m /\
  option_map bf_row_count (m !! "DB.S.M") = Some 120.
Proof.
  intros older newer m.
  assert (H : _create_baseline_map [older; newer] = Return m) by reflexivity.
  split; [exact H|].
  destruct (baseline_map_lookup [older; newer] m "DB.S.M" H) as [_ L].
  rewrite (L [older] newer [] _ eq_refl eq_refl ltac:(constructor) eq_refl).
  reflexivity.
Defined.

End BaselineMap.

Section WarehouseTraffic.
Import Py Verify.

(** X13.  Which hash a non-empty table gets: the aggregate hash when the
    warehouse delivers one, otherwise the sum of the row hashes, otherwise
    none.  The fallback statement is sent only after the primary one gave
    nothing, and nothing else is sent. *)
Theorem content_hash_strategy (wh : warehouse) (fqn : string) (row_count : Z)
    (w : world) :
  row_count <> 0 ->
  connected w = true ->
  let out := _get_content_hash wh fqn row_count w in
  let agg := first_cell (answer wh (Spec.hash_agg_statement fqn)) in
  let sum := first_cell (answer wh (Spec.sum_hash_statement fqn)) in
  (forall h, agg = Some (Some h) ->
     fst out = Some h /\
     queries (snd out) = queries w ++ [Spec.hash_agg_statement fqn]) /\
  ((agg = None \/ agg = Some None) ->
     fst out = match sum with Some (Some h) => Some h | _ => None end /\
     queries (snd out)
     = queries w ++ [Spec.hash_agg_statement fqn; Spec.sum_hash_statement fqn]).
Proof.
  intros N C out agg sum. subst out agg sum.
  unfold _get_content_hash. apply Z.eqb_neq in N. rewrite N.
  unfold _try_hash_agg, _try_sum_hash, mbind, execute_query, ret.
  unfold Spec.hash_agg_statement, Spec.sum_hash_statement.
  rewrite C. cbn [connected queries].
  split.
  - intros h ->. split; reflexivity.
  - intros [-> | ->]; cbn;
      (destruct (first_cell (answer wh ("SELECT SUM(HASH(*)) FROM " +:+ fqn)))
         as [[h|]|]; cbn; rewrite <- ?app_assoc; split; reflexivity).
Qed.

Lemma content_hash_strategy_witness :
  (150 <> 0)%Z /\
  connected (snd (connect Samples.warehouse initial_world)) = true /\
  fst (_get_content_hash Samples.warehouse "DB.S.M" 150
         (snd (connect Samples.warehouse initial_world))) = Some 77.
Proof.
  split; [discriminate|]. split; [reflexivity|].
  destruct (content_hash_strategy Samples.warehouse "DB.S.M" 150
              (snd (connect Samples.warehouse initial_world)))
    as [H _]; [discriminate|reflexivity|].
  exact (proj1 (H 77 eq_refl)).
Defined.

Lemma compare_fingerprints_names (b : BaselineFingerprint) (c : CurrentFingerprint) :
  fqn (_compare_fingerprints b c) = cf_fqn c /\
  model_name (_compare_fingerprints b c) = cf_model_name c.
Proof.
  unfold _compare_fingerprints.
  destruct (negb _); destruct (andb _ _);
    try destruct (bf_content_hash b); try destruct (cf_content_hash c);
    try destruct (Z.eqb _ _); split; reflexivity.
Qed.

Ltac traffic_leaf l :=
  cbn;
  rewrite ?(proj1 (compare_fingerprints_names _ _)),
          ?(proj2 (compare_fingerprints_names _ _));
  cbn [cf_fqn cf_model_name];
  repeat match goal with C : connected _ = _ |- _ => rewrite C end;
  (split; [reflexivity|]); (split; [reflexivity|]); (split; [reflexivity|]);
  exists l;
  (split; [rewrite ?app_nil_r, <- ?app_assoc; reflexivity|]);
  (split; [simpl; lia | repeat constructor; assumption]).

(** What verifying one model does to the world: the result carries the
    model's names, the connection state is untouched, and at most three
    statements are sent, each a read-only probe of that model's table. *)
Lemma verify_single_model_effects (wh : warehouse) (fqn0 : string)
    (baseline_map : gmap string BaselineFingerprint) (w : world) :
  fqn (fst (_verify_single_model wh fqn0 baseline_map w)) = fqn0 /\
  model_name (fst (_verify_single_model wh fqn0 baseline_map w))
    = last_segment "." fqn0 /\
  connected (snd (_verify_single_model wh fqn0 baseline_map w)) = connected w /\
  exists newq,
    queries (snd (_verify_single_model wh fqn0 baseline_map w)) = queries w ++ newq /\
    (length newq <= 3)%nat /\
    Forall (Spec.probe_of fqn0) newq.
Proof.
  assert (P1 : Spec.probe_of fqn0 ("SELECT COUNT(*) FROM " +:+ fqn0))
    by (left; reflexivity).
  assert (P2 : Spec.probe_of fqn0 ("SELECT HASH_AGG(HASH(*)) FROM " +:+ fqn0))
    by (right; left; reflexivity).
  assert (P3 : Spec.probe_of fqn0 ("SELECT SUM(HASH(*)) FROM " +:+ fqn0))
    by (right; right; reflexivity).
  unfold _verify_single_model.
  destruct (match baseline_map !! fqn0 with
            | Some b => Some b
            | None => baseline_map !! last_segment "." fqn0
            end) as [b|].
  2: { traffic_leaf (@nil string). }
  unfold _get_current_fingerprint, _get_row_count, _get_content_hash,
    _try_hash_agg, _try_sum_hash, mbind, execute_query, now_iso, ret.
  destruct (connected w) eqn:C.
  2: { traffic_leaf (@nil string). }
  destruct (first_cell (answer wh ("SELECT COUNT(*) FROM " +:+ fqn0)))
    as [[rc|]|].
  - destruct (Z.eqb rc 0).
    + traffic_leaf ["SELECT COUNT(*) FROM " +:+ fqn0].
    + cbn [connected queries].
      destruct (first_cell (answer wh ("SELECT HASH_AGG(HASH(*)) FROM " +:+ fqn0)))
        as [[h|]|].
      * traffic_leaf ["SELECT COUNT(*) FROM " +:+ fqn0;
                      "SELECT HASH_AGG(HASH(*)) FROM " +:+ fqn0].
      * cbn [connected queries].
        destruct (first_cell (answer wh ("SELECT SUM(HASH(*)) FROM " +:+ fqn0)))
          as [[h|]|];
          traffic_leaf ["SELECT COUNT(*) FROM " +:+ fqn0;
                        "SELECT HASH_AGG(HASH(*)) FROM " +:+ fqn0;
                        "SELECT SUM(HASH(*)) FROM " +:+ fqn0].
      * cbn [connected queries].
        destruct (first_cell (answer wh ("SELECT SUM(HASH(*)) FROM " +:+ fqn0)))
          as [[h|]|];
          traffic_leaf ["SELECT COUNT(*) FROM " +:+ fqn0;
                        "SELECT HASH_AGG(HASH(*)) FROM " +:+ fqn0;
                        "SELECT SUM(HASH(*)) FROM " +:+ fqn0].
  - traffic_leaf ["SELECT COUNT(*) FROM " +:+ fqn0].
  - traffic_leaf ["SELECT COUNT(*) FROM " +:+ fqn0].
Qed.

End WarehouseTraffic.

Section VerifyModels.
Import Py Verify.

Lemma verify_loop_effects (wh : warehouse)
    (baseline_map : gmap string BaselineFingerprint) (model_fqns : list string) :
  forall (results : list VerificationResult) (passed_count : Z) (w : world),
    let out := verify_loop wh model_fqns baseline_map results passed_count w in
    map fqn (fst (fst out)) = map fqn results ++ model_fqns /\
    map model_name (fst (fst out))
      = map model_name results ++ map (last_segment ".") model_fqns /\
    connected (snd out) = connected w /\
    exists newq,
      queries (snd out) = queries w ++ newq /\
      (length newq <= 3 * length model_fqns)%nat /\
      Forall (fun q => exists f, In f model_fqns /\ Spec.probe_of f q) newq.
Proof.
  induction model_fqns as [|f rest IH]; intros results passed_count w.
  - cbn. rewrite !app_nil_r. repeat split. exists [].
    rewrite app_nil_r. repeat split; [simpl; lia | constructor].
  - cbn [verify_loop]. unfold mbind.
    destruct (verify_single_model_effects wh f baseline_map w)
      as (Ef & En & Ec & l1 & Eq & El & Ep).
    destruct (_verify_single_model wh f baseline_map w) as [result w1].
    cbn [fst snd] in Ef, En, Ec, Eq.
    specialize (IH (results ++ [result])
                   (if passed result then passed_count + 1 else passed_count) w1).
    cbv zeta in IH |- *.
    destruct IH as (If & In' & Ic & l2 & Iq & Il & Ip).
    rewrite If, In', Ic, Iq, !map_app. cbn [map]. rewrite Ef, En, Ec, Eq.
    rewrite <- !app_assoc. repeat split.
    exists (l1 ++ l2). repeat split.
    + rewrite length_app. simpl. lia.
    + apply Forall_app. split.
      * eapply List.Forall_impl; [|exact Ep]. intros q Hq. exists f. split;
          [left; reflexivity | exact Hq].
      * eapply List.Forall_impl; [|exact Ip]. intros q (g & Hg & Hq). exists g. split;
          [right; exact Hg | exact Hq].
Qed.

(** X14.  The traffic of a whole verification.  [verify_models] only adds to the
    log, at most three statements per model, and every statement it sends
    is a row-count, aggregate-hash or sum-of-hashes [SELECT] on one of the
    requested tables; a refused connection sends nothing. *)
Theorem verification_is_read_only (wh : warehouse) (pid : string)
    (model_fqns : list string) (baseline_fingerprints : list fingerprint_entry)
    (w : world) :
  let out := verify_models wh pid model_fqns baseline_fingerprints w in
  (exists newq,
     queries (snd out) = queries w ++ newq /\
     (length newq <= 3 * length model_fqns)%nat /\
     Forall (fun q => exists f, In f model_fqns /\ Spec.probe_of f q) newq) /\
  (accepts_connection wh = false -> queries (snd out) = queries w).
Proof.
  intro out. subst out. unfold verify_models, mbind at 1, connect.
  destruct (accepts_connection wh); cbn [negb].
  - split; [|discriminate].
    unfold mbind at 1.
    destruct (_create_baseline_map baseline_fingerprints) as [baseline_map|e].
    + unfold mbind at 1.
      destruct (verify_loop_effects wh baseline_map model_fqns [] 0
                  {| connected := true; queries := queries w; ticks := ticks w |})
        as (_ & _ & _ & l & Eq & El & Ep).
      destruct (verify_loop wh model_fqns baseline_map [] 0 _) as [[rs pc] w1].
      cbn in Eq |- *. exists l. repeat split; assumption.
    + cbn. exists []. rewrite app_nil_r. repeat split; [apply Nat.le_0_l | constructor].
  - split; [|reflexivity].
    cbn. exists []. rewrite app_nil_r. repeat split; [apply Nat.le_0_l | constructor].
Qed.

(** X15.  The connection is released on every path that opened it: after
    [verify_models] with an accepted connection the connection is closed,
    also when building the baseline map raised; a refused connection
    leaves the connection state as it was. *)
Theorem verification_closes_connection (wh : warehouse) (pid : string)
    (model_fqns : list string) (baseline_fingerprints : list fingerprint_entry)
    (w : world) :
  let out := verify_models wh pid model_fqns baseline_fingerprints w in
  (accepts_connection wh = true -> connected (snd out) = false) /\
  (accepts_connection wh = false -> connected (snd out) = connected w).
Proof.
  intro out. subst out. unfold verify_models, mbind at 1, connect.
  destruct (accepts_connection wh); cbn [negb].
  - split; [intros _|discriminate].
    unfold mbind at 1.
    destruct (_create_baseline_map baseline_fingerprints) as [baseline_map|e].
    + unfold mbind at 1.
      destruct (verify_loop wh model_fqns baseline_map [] 0 _) as [[rs pc] w1].
      reflexivity.
    + reflexivity.
  - split; [discriminate|intros _; reflexivity].
Qed.

(** X16.  The results of a verification are in the order of the input: the
    [i]-th result is about the [i]-th requested name, on every path, and
    its model name is the last component of that name. *)
Theorem results_follow_input_order (wh : warehouse) (pid : string)
    (model_fqns : list string) (baseline_fingerprints : list fingerprint_entry)
    (w : world) :
  let s := fst (verify_models wh pid model_fqns baseline_fingerprints w) in
  map fqn (d_results s) = model_fqns /\
  map model_name (d_results s) = map (last_segment ".") model_fqns.
Proof.
  intro s. subst s.
  assert (F : forall w', map fqn (d_results (fst (_create_failed_summary wh pid model_fqns w')))
                         = model_fqns /\
                         map model_name
                           (d_results (fst (_create_failed_summary wh pid model_fqns w')))
                         = map (last_segment ".") model_fqns).
  { intro w'. cbn. rewrite !map_map. cbn. split; [apply map_id | reflexivity]. }
  unfold verify_models, connect, mbind.
  destruct (accepts_connection wh); cbn [negb]; [|apply F].
  destruct (_create_baseline_map baseline_fingerprints) as [baseline_map|e].
  - destruct (verify_loop_effects wh baseline_map model_fqns [] 0
                {| connected := true; queries := queries w; ticks := ticks w |})
      as (Ef & En & _).
    destruct (verify_loop wh model_fqns baseline_map [] 0 _) as [[rs pc] w1].
    cbn in Ef, En |- *. split; assumption.
  - specialize (F {| connected := true; queries := queries w; ticks := ticks w |}).
    destruct (_create_failed_summary wh pid model_fqns _) as [s w1].
    exact F.
Qed.

End VerifyModels.

Section VerificationGate.
Import Py Verify Orchestrator.

Lemma count_passed_cases (l : list VerificationResult) :
  (Spec.count_passed l = Z.of_nat (length l) /\
   List.Forall (fun r => passed r = true) l) \/
  (Spec.count_passed l < Z.of_nat (length l) /\
   List.Exists (fun r => passed r = false) l).
Proof.
  unfold Spec.count_passed.
  induction l as [|r l [[E F]|[L X]]].
  - left. split; [reflexivity | constructor].
  - cbn [List.filter length]. destruct (passed r) eqn:P.
    + left. split; [cbn [length]; lia | constructor; assumption].
    + right. split; [lia | apply List.Exists_cons_hd; exact P].
  - right. cbn [List.filter length].
    split; [destruct (passed r); cbn [length]; lia | apply List.Exists_cons_tl; exact X].
Qed.

Lemma forall_exists_exclusive (l : list VerificationResult) :
  List.Forall (fun r => passed r = true) l ->
  List.Exists (fun r => passed r = false) l -> False.
Proof.
  intros F X. induction X as [r l P|r l X IH]; inversion F; subst.
  - congruence.
  - apply IH. assumption.
Qed.

Lemma verify_models_counts (wh : warehouse) (pid : string)
    (model_fqns : list string) (baseline_fingerprints : list fingerprint_entry)
    (w : world) :
  let s := fst (verify_models wh pid model_fqns baseline_fingerprints w) in
  d_passed_models s = Spec.count_passed (d_results s) /\
  d_total_models s = Z.of_nat (length (d_results s)).
Proof.
  assert (F : forall w',
             d_passed_models (fst (_create_failed_summary wh pid model_fqns w'))
             = Spec.count_passed
                 (d_results (fst (_create_failed_summary wh pid model_fqns w'))) /\
             d_total_models (fst (_create_failed_summary wh pid model_fqns w'))
             = Z.of_nat
                 (length (d_results (fst (_create_failed_summary wh pid model_fqns w'))))).
  { intro w'. cbn. rewrite failed_results_count, length_map. split; reflexivity. }
  cbv zeta. unfold verify_models, connect, mbind.
  destruct (accepts_connection wh); cbn [negb]; [|apply F].
  destruct (_create_baseline_map baseline_fingerprints) as [baseline_map|e].
  - pose proof (verify_loop_counts wh baseline_map model_fqns [] 0
                  {| connected := true; queries := queries w; ticks := ticks w |}) as L.
    destruct (verify_loop wh model_fqns baseline_map [] 0 _) as [[rs pc] w1].
    cbv zeta in L. cbn [fst snd] in L. destruct L as [Lc Ll].
    unfold Spec.count_passed at 2 in Lc. cbn [List.filter length] in Lc.
    cbn. split; [lia | rewrite Ll; reflexivity].
  - specialize (F {| connected := true; queries := queries w; ticks := ticks w |}).
    destruct (_create_failed_summary wh pid model_fqns _) as [s w1].
    exact F.
Qed.

Lemma results_follow_length (wh : warehouse) (pid : string)
    (model_fqns : list string) (baseline_fingerprints : list fingerprint_entry)
    (w : world) :
  length (d_results (fst (verify_models wh pid model_fqns baseline_fingerprints w)))
  = length model_fqns.
Proof.
  assert (F : forall w',
             length (d_results (fst (_create_failed_summary wh pid model_fqns w')))
             = length model_fqns).
  { intro w'. cbn. apply length_map. }
  unfold verify_models, connect, mbind.
  destruct (accepts_connection wh); cbn [negb]; [|apply F].
  destruct (_create_baseline_map baseline_fingerprints) as [baseline_map|e].
  - pose proof (verify_loop_counts wh baseline_map model_fqns [] 0
                  {| connected := true; queries := queries w; ticks := ticks w |}) as L.
    destruct (verify_loop wh model_fqns baseline_map [] 0 _) as [[rs pc] w1].
    cbv zeta in L. cbn [fst snd] in L. destruct L as [_ Ll]. cbn. exact Ll.
  - specialize (F {| connected := true; queries := queries w; ticks := ticks w |}).
    destruct (_create_failed_summary wh pid model_fqns _) as [s w1].
    exact F.
Qed.

(** X17.  What the run command makes of a verification: it goes on exactly when
    every model passed, and stops with the verification-failure exit code
    exactly when some model did not pass; it never stops with another
    code, and an empty list of models never stops it. *)
Theorem verification_gate_decides (wh : warehouse) (pid : string)
    (model_fqns : list string) (baseline_fingerprints : list fingerprint_entry)
    (w : world) :
  let s := fst (verify_models wh pid model_fqns baseline_fingerprints w) in
  (verification_gate s = None <->
     List.Forall (fun r => passed r = true) (d_results s)) /\
  (verification_gate s = Some EXIT_VERIFICATION_FAILED <->
     List.Exists (fun r => passed r = false) (d_results s)) /\
  (forall code, verification_gate s = Some code -> code = EXIT_VERIFICATION_FAILED) /\
  (model_fqns = [] -> verification_gate s = None).
Proof.
  intro s.
  destruct (verify_models_counts wh pid model_fqns baseline_fingerprints w) as [P T].
  pose proof (results_follow_length wh pid model_fqns baseline_fingerprints w) as Len.
  fold s in P, T, Len.
  unfold verification_gate. rewrite P, T.
  destruct (count_passed_cases (d_results s)) as [[E F]|[L X]].
  - rewrite E, Z.eqb_refl. repeat split; auto; try discriminate.
    intro X. exfalso. exact (forall_exists_exclusive _ F X).
  - assert (Ne : Z.eqb (Spec.count_passed (d_results s))
                       (Z.of_nat (length (d_results s))) = false)
      by (apply Z.eqb_neq; lia).
    assert (Lt : Z.ltb (Spec.count_passed (d_results s))
                       (Z.of_nat (length (d_results s))) = true)
      by (apply Z.ltb_lt; lia).
    rewrite Ne, Lt. split; [|split; [|split]].
    + split; [discriminate|]. intro F. exfalso. exact (forall_exists_exclusive _ F X).
    + split; auto.
    + intros code H. inversion H. reflexivity.
    + intro Em. exfalso. rewrite Len, Em in L. cbn in L.
      unfold Spec.count_passed in L. lia.
Qed.

End VerificationGate.

Section UnreadableTable.
Import Py Verify.

(** X18.  A model that has a baseline (under its FQN or its short name) but
    whose row count cannot be obtained, because there is no open connection
    or the count statement yields nothing, fails with a message naming the
    model; no hash statement is sent for it. *)
Theorem unreadable_table_fails (wh : warehouse) (fqn0 : string)
    (baseline_map : gmap string BaselineFingerprint) (w : world)
    (b : BaselineFingerprint) :
  (baseline_map !! fqn0 = Some b \/
   (baseline_map !! fqn0 = None /\ baseline_map !! last_segment "." fqn0 = Some b)) ->
  (connected w = false \/
   first_cell (answer wh (Spec.count_statement fqn0)) = None) ->
  let out := _verify_single_model wh fqn0 baseline_map w in
  passed (fst out) = false /\
  error_message (fst out)
    = "Failed to retrieve fingerprint for model " +:+ last_segment "." fqn0 /\
  (queries (snd out) = queries w \/
   queries (snd out) = queries w ++ [Spec.count_statement fqn0]).
Proof.
  intros Hb Hc out. subst out. unfold _verify_single_model.
  assert (B : match baseline_map !! fqn0 with
              | Some b0 => Some b0
              | None => baseline_map !! last_segment "." fqn0
              end = Some b)
    by (destruct Hb as [-> | [-> ->]]; reflexivity).
  rewrite B.
  unfold _get_current_fingerprint, _get_row_count, mbind, execute_query, ret.
  unfold Spec.count_statement in *.
  destruct (connected w) eqn:C.
  - destruct Hc as [Hc|Hc]; [discriminate Hc|]. rewrite Hc. cbn.
    repeat split. right. reflexivity.
  - cbn. repeat split. left. reflexivity.
Qed.

Lemma unreadable_table_fails_witness :
  let baseline_map : gmap string BaselineFingerprint :=
    {[ "GONE" := Samples.baseline_100 ]} in
  (baseline_map !! "DB.S.GONE" = Some Samples.baseline_100 \/
   (baseline_map !! "DB.S.GONE" = None /\
    baseline_map !! last_segment "." "DB.S.GONE" = Some Samples.baseline_100)) /\
  (connected (snd (connect Samples.warehouse initial_world)) = false \/
   first_cell (answer Samples.warehouse (Spec.count_statement "DB.S.GONE")) = None) /\
  passed (fst (_verify_single_model Samples.warehouse "DB.S.GONE" baseline_map
                 (snd (connect Samples.warehouse initial_world)))) = false.
Proof.
  intro baseline_map.
  assert (A : baseline_map !! "DB.S.GONE" = Some Samples.baseline_100 \/
              (baseline_map !! "DB.S.GONE" = None /\
               baseline_map !! last_segment "." "DB.S.GONE" = Some Samples.baseline_100)).
  { right. split; [apply lookup_singleton_ne; discriminate | apply lookup_singleton_eq]. }
  assert (B : connected (snd (connect Samples.warehouse initial_world)) = false \/
              first_cell (answer Samples.warehouse (Spec.count_statement "DB.S.GONE"))
              = None)
    by (right; reflexivity).
  split; [exact A|]. split; [exact B|].
  exact (proj1 (unreadable_table_fails Samples.warehouse "DB.S.GONE" baseline_map
                  (snd (connect Samples.warehouse initial_world))
                  Samples.baseline_100 A B)).
Defined.

End UnreadableTable.

(** ** baseline.py, continued *)

Section BaselineMore.
Import Py Baseline.

(** X19.  A save touches one file only.  When it returns [True] the file
    system differs from the old one at most at the pipeline's baseline
    file, which then exists.  When it returns [False] every other file is
    as it was, and the pipeline's file is either as it was, or, when the
    encoder raised after the file had been opened for writing, left
    unparseable, so that the baseline that was there before can no longer
    be loaded.  It raises, before touching anything, exactly for an empty
    pipeline name or metrics that are not dictionaries. *)
Theorem save_changes_one_file (env : environment) (fs : filesystem)
    (pipeline_name : string) (bm qm fps : pyval) (snowflake_dir : option path) :
  let file_path := _get_baseline_file_path env pipeline_name snowflake_dir in
  (forall fs', save_baseline env fs pipeline_name bm qm fps snowflake_dir
               = Return (true, fs') ->
     (forall p, p <> file_path -> files fs' !! p = files fs !! p) /\
     is_Some (files fs' !! file_path)) /\
  (forall fs', save_baseline env fs pipeline_name bm qm fps snowflake_dir
               = Return (false, fs') ->
     (forall p, p <> file_path -> files fs' !! p = files fs !! p) /\
     (fs' = fs \/
      (files fs' !! file_path = Some Malformed /\
       load_baseline env fs' pipeline_name snowflake_dir = Return None))) /\
  ((exists e, save_baseline env fs pipeline_name bm qm fps snowflake_dir = Raise e) <->
   pipeline_name = "" \/ is_dict bm = false \/ is_dict qm = false).
Proof.
  intro file_path. subst file_path. unfold save_baseline.
  destruct (String.eqb_spec pipeline_name "") as [E|N].
  { split; [intros fs' H; discriminate H|].
    split; [intros fs' H; discriminate H|].
    split; [intros _; left; exact E | intros _; eexists; reflexivity]. }
  destruct (is_dict bm) eqn:Db; cbn [negb].
  2: { split; [intros fs' H; discriminate H|].
       split; [intros fs' H; discriminate H|].
       split; [intros _; right; left; reflexivity | intros _; eexists; reflexivity]. }
  destruct (is_dict qm) eqn:Dq; cbn [negb].
  2: { split; [intros fs' H; discriminate H|].
       split; [intros fs' H; discriminate H|].
       split; [intros _; right; right; reflexivity | intros _; eexists; reflexivity]. }
  assert (NoRaise : forall X : outcome (bool * filesystem),
             (exists r, X = Return r) ->
             ((exists e, X = Raise e) <->
              pipeline_name = "" \/ true = false \/ true = false)).
  { intros X [r ->]. split.
    - intros [e H]. discriminate H.
    - intros [H|[H|H]]; [contradiction | discriminate H | discriminate H]. }
  destruct (write_denied fs (_get_baselines_dir env snowflake_dir)).
  { split; [intros fs' H; discriminate H|].
    split; [intros fs' H; inversion H; split; [reflexivity | left; reflexivity]|].
    apply NoRaise. eexists. reflexivity. }
  destruct (write_denied fs (_get_baseline_file_path env pipeline_name snowflake_dir)).
  { split; [intros fs' H; discriminate H|].
    split; [intros fs' H; inversion H; split; [reflexivity | left; reflexivity]|].
    apply NoRaise. eexists. reflexivity. }
  destruct (encoder_raises env _).
  { split; [intros fs' H; discriminate H|].
    split; [|apply NoRaise; eexists; reflexivity].
    intros fs' H. inversion H as [E]. clear H E. cbn [files]. split.
    - intros p Np. apply lookup_insert_ne. congruence.
    - right. split; [apply lookup_insert_eq|].
      unfold load_baseline. cbn [files]. rewrite lookup_insert_eq. reflexivity. }
  split; [|split; [intros fs' H; discriminate H | apply NoRaise; eexists; reflexivity]].
  intros fs' H. inversion H as [E]. clear H E. cbn [files]. split.
  - intros p Np. apply lookup_insert_ne. congruence.
  - rewrite lookup_insert_eq. eexists. reflexivity.
Qed.

End BaselineMore.

Section BaselineValidation.
Import Py Baseline.

Lemma has_key_get {A : Type} (d : list (string * A)) (k : string) :
  has_key d k = true <-> exists v, get d k = Some v.
Proof.
  unfold has_key. destruct (get d k) as [v|]; split.
  - intros _. exists v. reflexivity.
  - reflexivity.
  - discriminate.
  - intros [v H]. discriminate H.
Qed.

(** X20.  What [validate_baseline] accepts: exactly a dictionary that has a
    pipeline name, build and query metrics that are dictionaries,
    fingerprints that are a list, and a metadata dictionary with a
    timestamp.  In particular an old-format document is never valid. *)
Theorem validate_accepts_iff (data : pyval) :
  fst (validate_baseline data) = true <->
  exists d b q l metadata,
    data = PyDict d /\
    has_key d "pipeline_name" = true /\
    get d "build_metrics" = Some (PyDict b) /\
    get d "query_metrics" = Some (PyDict q) /\
    get d "fingerprints" = Some (PyList l) /\
    get d "metadata" = Some (PyDict metadata) /\
    has_key metadata "timestamp" = true.
Proof.
  split.
  - destruct data as [ | | | | | | | d | ]; try discriminate.
    unfold validate_baseline, required_fields, get_default, has_key.
    cbn [List.filter].
    destruct (get d "pipeline_name") as [pn|] eqn:Gp;
      destruct (get d "build_metrics") as [bm|] eqn:Gb;
      destruct (get d "query_metrics") as [qm|] eqn:Gq;
      destruct (get d "fingerprints") as [fp|] eqn:Gf;
      destruct (get d "metadata") as [md|] eqn:Gm;
      destruct (get d "metrics") as [mt|];
      cbn [andb negb List.filter fst]; try (intro H; discriminate H).
    all: destruct md as [ | | | | | | | metadata | ]; try discriminate;
      destruct (get metadata "timestamp") as [ts|] eqn:Gt;
      cbn [negb fst]; try discriminate;
      destruct fp as [ | | | | | l | | | ]; try discriminate;
      destruct bm as [ | | | | | | | b | ]; try discriminate;
      destruct qm as [ | | | | | | | q | ]; try discriminate;
      intros _; exists d, b, q, l, metadata; rewrite Gt, Gp;
      repeat split; assumption.
  - intros (d & b & q & l & metadata & -> & Hp & Gb & Gq & Gf & Gm & Ht).
    unfold validate_baseline, required_fields, get_default.
    unfold has_key in *. cbn [List.filter].
    rewrite Gb, Gq, Gf, Gm.
    destruct (get d "pipeline_name"); [|discriminate Hp].
    destruct (get d "metrics"); cbn [andb negb List.filter fst];
      destruct (get metadata "timestamp"); try discriminate Ht; reflexivity.
Qed.

(** X21.  A baseline that was just saved validates exactly when the fingerprints
    that were passed are a list or a tuple (a tuple is read back as a
    list); otherwise validation reports that the fingerprints are not a
    list. *)
Theorem saved_baseline_validates (env : environment) (fs fs' : filesystem)
    (pipeline_name : string) (bm qm fps : pyval) (snowflake_dir : option path) :
  save_baseline env fs pipeline_name bm qm fps snowflake_dir = Return (true, fs') ->
  exists data,
    load_baseline env fs' pipeline_name snowflake_dir = Return (Some data) /\
    ((exists l, fps = PyList l \/ fps = PyTuple l) ->
       validate_baseline data = (true, "Baseline data is valid")) /\
    ((forall l, fps <> PyList l /\ fps <> PyTuple l) ->
       validate_baseline data = (false, "Fingerprints is not a list")).
Proof.
  intro S. eexists. split; [apply (load_after_save _ _ _ _ _ _ _ _ S)|].
  unfold save_baseline in S.
  destruct (String.eqb pipeline_name ""); [discriminate S|].
  destruct bm as [ | | | | | | | b | ]; try discriminate S.
  destruct qm as [ | | | | | | | q | ]; try discriminate S.
  clear S. split.
  - intros [l [-> | ->]]; reflexivity.
  - intro N. destruct fps as [ | | | | | l | l | | ]; try reflexivity;
      destruct (N l) as [A B]; congruence.
Qed.

Lemma saved_baseline_validates_witness :
  save_baseline Samples.environment Samples.empty_fs "Pipeline A"
    Samples.plain_metrics Samples.plain_metrics (PyList []) None
    = Return (true, Samples.after_save Samples.empty_fs Samples.plain_metrics) /\
  validate_baseline
    (loaded
       match load_baseline Samples.environment
               (Samples.after_save Samples.empty_fs Samples.plain_metrics)
               "Pipeline A" None with
       | Return r => r
       | Raise _ => None
       end)
  = (true, "Baseline data is valid").
Proof.
  assert (S : save_baseline Samples.environment Samples.empty_fs "Pipeline A"
                Samples.plain_metrics Samples.plain_metrics (PyList []) None
              = Return (true, Samples.after_save Samples.empty_fs Samples.plain_metrics))
    by reflexivity.
  split; [exact S|].
  destruct (saved_baseline_validates _ _ _ _ _ _ _ _ S) as (data & L & V & _).
  rewrite L. cbn [loaded]. apply V. exists []. left. reflexivity.
Defined.

End BaselineValidation.

Section BaselineFiles.
Import Py Baseline.

Lemma clear_removes_its_baseline (env : environment) (fs : filesystem)
    (pipeline_name : string) (snowflake_dir : option path) :
  fst (clear_baseline env fs pipeline_name snowflake_dir) = true ->
  load_baseline env (snd (clear_baseline env fs pipeline_name snowflake_dir))
    pipeline_name snowflake_dir = Return None.
Proof.
  unfold clear_baseline.
  destruct (files fs !! _get_baseline_file_path env pipeline_name snowflake_dir)
    as [f|] eqn:F.
  - destruct (write_denied fs _); cbn [fst snd]; [discriminate|].
    intros _. unfold load_baseline. cbn [files].
    rewrite lookup_delete_eq. reflexivity.
  - cbn [fst snd]. intros _. unfold load_baseline. rewrite F. reflexivity.
Qed.

(** X22.  Clearing a baseline.  After a successful clear the pipeline has no
    baseline to load; a pipeline without baseline file clears successfully
    and changes nothing; a failed clear changes nothing; and no other file
    is ever touched. *)
Theorem clear_removes_only_its_baseline (env : environment) (fs : filesystem)
    (pipeline_name : string) (snowflake_dir : option path) :
  let out := clear_baseline env fs pipeline_name snowflake_dir in
  let file_path := _get_baseline_file_path env pipeline_name snowflake_dir in
  (fst out = true ->
   load_baseline env (snd out) pipeline_name snowflake_dir = Return None) /\
  (files fs !! file_path = None -> out = (true, fs)) /\
  (fst out = false -> snd out = fs) /\
  (forall p, p <> file_path -> files (snd out) !! p = files fs !! p).
Proof.
  intros out file_path. subst out file_path. unfold clear_baseline.
  destruct (files fs !! _get_baseline_file_path env pipeline_name snowflake_dir)
    as [f|] eqn:F.
  - destruct (write_denied fs _).
    + cbn [fst snd]. repeat split; try discriminate.
    + cbn [fst snd files]. split; [|split; [|split]]; try discriminate.
      * intros _. unfold load_baseline. cbn [files].
        rewrite lookup_delete_eq. reflexivity.
      * intros p Np. apply lookup_delete_ne. congruence.
  - cbn [fst snd]. split; [|split; [|split]]; try reflexivity; try discriminate.
    intros _. unfold load_baseline. rewrite F. reflexivity.
Qed.

(** X23.  Pipeline names that agree after lower-casing and replacing
    spaces by underscores share one baseline file.  A baseline saved under
    one of them is what loading under the other returns, still carrying the
    first name; and clearing the baseline of one clears that of the
    other. *)
Theorem baseline_file_shared_by_normalised_names (env : environment)
    (n1 n2 : string) (snowflake_dir : option path) :
  replace_char " " "_" (lower n1) = replace_char " " "_" (lower n2) ->
  _get_baseline_file_path env n1 snowflake_dir
  = _get_baseline_file_path env n2 snowflake_dir /\
  (forall fs fs' bm qm fps,
     save_baseline env fs n1 bm qm fps snowflake_dir = Return (true, fs') ->
     exists data,
       load_baseline env fs' n2 snowflake_dir = Return (Some data) /\
       field data "pipeline_name" = Some (PyStr n1)) /\
  (forall fs,
     fst (clear_baseline env fs n1 snowflake_dir) = true ->
     load_baseline env (snd (clear_baseline env fs n1 snowflake_dir)) n2 snowflake_dir
     = Return None).
Proof.
  intro E.
  assert (P : _get_baseline_file_path env n1 snowflake_dir
              = _get_baseline_file_path env n2 snowflake_dir).
  { unfold _get_baseline_file_path. rewrite E. reflexivity. }
  split; [exact P|]. split.
  - intros fs fs' bm qm fps S.
    pose proof (load_after_save _ _ _ _ _ _ _ _ S) as L.
    unfold load_baseline in L |- *. rewrite <- P.
    eexists. split; [exact L | reflexivity].
  - intros fs C.
    pose proof (clear_removes_its_baseline env fs n1 snowflake_dir C) as L.
    unfold load_baseline in L |- *. rewrite <- P. exact L.
Qed.

Lemma baseline_file_shared_witness :
  replace_char " " "_" (lower "Pipeline A") = replace_char " " "_" (lower "pipeline_a") /\
  _get_baseline_file_path Samples.environment "Pipeline A" None
  = _get_baseline_file_path Samples.environment "pipeline_a" None.
Proof.
  split; [reflexivity|].
  apply (proj1 (baseline_file_shared_by_normalised_names Samples.environment
                  "Pipeline A" "pipeline_a" None eq_refl)).
Defined.

Lemma py_in_raises (key : string) (data : pyval) (e : exn) :
  py_in key data = Raise e -> e = TypeError.
Proof.
  destruct data; cbn [py_in]; intro H; try discriminate H; inversion H; reflexivity.
Qed.

(** X24.  [load_baseline] raises [ValueError] only, and in two cases only:
    the format error, for a readable, parseable file whose document
    contains ["metrics"] and not ["build_metrics"]; and the error of the
    reader, passed on unchanged, for a file whose reading raises a
    [ValueError] that is not a syntax error (undecodable bytes, an
    over-long integer literal).  A missing or unreadable file and a syntax
    error give [None]; and a dictionary that is returned is never in the
    old format. *)
Theorem load_raises_only_value_errors (env : environment) (fs : filesystem)
    (pipeline_name : string) (snowflake_dir : option path) :
  let stored := files fs !! _get_baseline_file_path env pipeline_name snowflake_dir in
  (forall e, load_baseline env fs pipeline_name snowflake_dir = Raise e ->
     (e = ValueError old_format_message /\
      exists data, stored = Some (Parsed data) /\
                   py_in "metrics" data = Return true /\
                   py_in "build_metrics" data = Return false) \/
     (exists msg, e = ValueError msg /\ stored = Some (Undecodable msg))) /\
  (forall msg, stored = Some (Undecodable msg) ->
     load_baseline env fs pipeline_name snowflake_dir = Raise (ValueError msg)) /\
  (stored = None \/ stored = Some Unreadable \/ stored = Some Malformed ->
   load_baseline env fs pipeline_name snowflake_dir = Return None) /\
  (forall d, load_baseline env fs pipeline_name snowflake_dir = Return (Some (PyDict d)) ->
     has_key d "metrics" = true -> has_key d "build_metrics" = true).
Proof.
  intro stored. subst stored. unfold load_baseline.
  destruct (files fs !! _get_baseline_file_path env pipeline_name snowflake_dir)
    as [[| |msg|data]|].
  1,2,5: split; [intros e H; discriminate H|];
         split; [intros msg H; discriminate H|];
         split; [intros _; reflexivity|]; intros d H; discriminate H.
  { split; [|split; [|split]].
    - intros e H. inversion H. right. exists msg. split; reflexivity.
    - intros msg' H. inversion H. reflexivity.
    - intros [H|[H|H]]; discriminate H.
    - intros d H. discriminate H. }
  split; [|split; [|split]].
  - intros e H. left.
    destruct (py_in "metrics" data) as [[|]|e1] eqn:M; cbn [bind] in H.
    + destruct (py_in "build_metrics" data) as [[|]|e2] eqn:B; cbn [bind negb] in H.
      * discriminate H.
      * inversion H. split; [reflexivity|]. exists data. auto.
      * rewrite (py_in_raises _ _ _ B) in H. discriminate H.
    + discriminate H.
    + rewrite (py_in_raises _ _ _ M) in H. discriminate H.
  - intros msg H. discriminate H.
  - intros [H|[H|H]]; discriminate H.
  - intros d H Hm.
    destruct data as [ | | | | | l1 | l2 | d0 | ].
    8: { cbn [py_in bind] in H.
         destruct (has_key d0 "metrics") eqn:M0; cbn [bind] in H.
         - destruct (has_key d0 "build_metrics") eqn:B0; cbn [bind negb] in H;
             [|discriminate H].
           inversion H. subst d0. exact B0.
         - inversion H. subst d0. congruence. }
    all: cbn [py_in bind] in H;
      repeat match type of H with
             | context [existsb ?f ?l] =>
                 destruct (existsb f l); cbn [bind negb] in H
             | context [contains ?a ?b] =>
                 destruct (contains a b); cbn [bind negb] in H
             end;
      discriminate H.
Qed.

End BaselineFiles.

(** ** metrics_collector.py, continued *)

Section Aggregation.
Import Py Collector.

Lemma model_totals_sums (queries : list query) :
  forall time bytes rows : Z,
    model_totals queries time bytes rows
    = (time + Report.sum_Z (map (fun q => or_zero (TOTAL_ELAPSED_TIME q)) queries),
       bytes + Report.sum_Z (map (fun q => or_zero (BYTES_SCANNED q)) queries),
       rows + Report.sum_Z (map (fun q => or_zero (ROWS_PRODUCED q)) queries)).
Proof.
  induction queries as [|q rest IH]; intros time bytes rows.
  - cbn. rewrite !Z.add_0_r. reflexivity.
  - cbn [model_totals map Report.sum_Z]. rewrite IH.
    repeat apply (f_equal2 pair); lia.
Qed.

Lemma aggregate_loop_sums (fqn_models : list string)
    (model_query_map : gmap string (list query)) (executed_models : list string) :
  forall (time bytes rows : Z) (details : list model_detail),
    aggregate_loop executed_models fqn_models model_query_map time bytes rows details
    = (time + Report.sum_Z
                (map (fun m => md_total_execution_time_ms
                                 (Spec.model_detail_of fqn_models model_query_map m))
                     executed_models),
       bytes + Report.sum_Z
                 (map (fun m => md_total_bytes_scanned
                                  (Spec.model_detail_of fqn_models model_query_map m))
                      executed_models),
       rows + Report.sum_Z
                (map (fun m => md_total_rows_produced
                                 (Spec.model_detail_of fqn_models model_query_map m))
                     executed_models),
       details ++ map (Spec.model_detail_of fqn_models model_query_map) executed_models).
Proof.
  induction executed_models as [|model rest IH]; intros time bytes rows details.
  - cbn. rewrite !Z.add_0_r, app_nil_r. reflexivity.
  - cbn [aggregate_loop]. rewrite model_totals_sums. rewrite IH.
    cbn [map Report.sum_Z Spec.model_detail_of md_total_execution_time_ms
         md_total_bytes_scanned md_total_rows_produced].
    rewrite <- app_assoc. cbn [app].
    rewrite !Z.add_0_l.
    repeat apply (f_equal2 pair); try reflexivity; lia.
Qed.

(** X25.  Aggregation.  The result has one detail per executed model, in order;
    every pipeline total is the sum of the corresponding model totals; a
    model total is the sum over the queries attributed to the model, with
    [NULL] counted as zero; and a model without attributed queries has
    zero totals and a query count of zero. *)
Theorem aggregate_totals_are_sums (now pid start_timestamp : string)
    (executed_models fqn_models : list string)
    (model_query_map : gmap string (list query)) (version_info : pydict) :
  let r := _aggregate_metrics now pid start_timestamp executed_models fqn_models
             model_query_map version_info in
  pm_model_details r
    = map (Spec.model_detail_of fqn_models model_query_map) executed_models /\
  map md_model_name (pm_model_details r) = executed_models /\
  pm_total_execution_time_ms r
    = Report.sum_Z (map md_total_execution_time_ms (pm_model_details r)) /\
  pm_total_bytes_scanned r
    = Report.sum_Z (map md_total_bytes_scanned (pm_model_details r)) /\
  pm_total_rows_produced r
    = Report.sum_Z (map md_total_rows_produced (pm_model_details r)) /\
  (forall d, In d (pm_model_details r) ->
     model_query_map !! md_model_name d = None \/
     model_query_map !! md_model_name d = Some [] ->
     md_total_execution_time_ms d = 0 /\ md_total_bytes_scanned d = 0 /\
     md_total_rows_produced d = 0 /\ md_query_count d = 0).
Proof.
  intro r. subst r. unfold _aggregate_metrics.
  rewrite aggregate_loop_sums.
  cbn [pm_model_details pm_total_execution_time_ms pm_total_bytes_scanned
       pm_total_rows_produced app].
  rewrite !map_map. rewrite !Z.add_0_l.
  split; [reflexivity|]. split; [apply map_id|].
  split; [reflexivity|]. split; [reflexivity|]. split; [reflexivity|].
  intros d Hd Hq. apply in_map_iff in Hd as (m & <- & _).
  cbn [Spec.model_detail_of md_model_name md_total_execution_time_ms
       md_total_bytes_scanned md_total_rows_produced md_query_count] in *.
  destruct Hq as [-> | ->]; repeat split.
Qed.

Lemma endswith_decompose (s suffix : string) :
  endswith s suffix = true <-> exists pre, s = pre +:+ suffix.
Proof.
  split.
  - induction s as [|c s IH]; intro H; cbn [endswith] in H.
    + rewrite orb_false_r in H. apply String.eqb_eq in H. exists "". subst.
      reflexivity.
    + apply orb_true_iff in H as [H|H].
      * apply String.eqb_eq in H. exists "". rewrite H. reflexivity.
      * destruct (IH H) as [pre ->]. exists (String c pre). reflexivity.
  - intros [pre ->]. induction pre as [|c pre IH].
    + change ("" +:+ suffix) with suffix.
      destruct suffix; cbn [endswith]; rewrite String.eqb_refl; reflexivity.
    + change (endswith (String c (pre +:+ suffix)) suffix = true).
      cbn [endswith]. rewrite IH. apply orb_true_r.
Qed.

(** X26.  The FQN recorded for a model is one of the given FQNs and ends in a
    dot followed by the model's name in upper case; it is the first such
    FQN; and none is recorded exactly when no FQN ends that way. *)
Theorem detail_fqn_matches_model (fqn_models : list string) (model : string) :
  (forall f, find_fqn fqn_models model = Some f ->
     In f fqn_models /\
     (exists pre, f = pre +:+ "." +:+ upper model) /\
     (exists before after,
        fqn_models = before ++ f :: after /\
        Forall (fun g => endswith g ("." +:+ upper model) = false) before)) /\
  (find_fqn fqn_models model = None <->
   Forall (fun g => ~ exists pre, g = pre +:+ "." +:+ upper model) fqn_models).
Proof.
  unfold find_fqn. induction fqn_models as [|g rest [IH1 IH2]].
  - split; [intros f H; discriminate H|]. split; constructor.
  - cbn [List.find].
    destruct (endswith g ("." +:+ upper model)) eqn:E.
    + split.
      * intros f H. inversion H. subst f. split; [left; reflexivity|].
        split; [apply endswith_decompose; exact E|].
        exists [], rest. split; [reflexivity | constructor].
      * split; [discriminate|]. intro F. inversion F as [|? ? N _]. exfalso.
        apply N. apply endswith_decompose. exact E.
    + split.
      * intros f H. destruct (IH1 f H) as (I & P & before & after & -> & Fb).
        split; [right; exact I|]. split; [exact P|].
        exists (g :: before), after. split; [reflexivity|].
        constructor; assumption.
      * rewrite IH2. split.
        -- intro F. constructor; [|exact F].
           intro P. apply endswith_decompose in P. congruence.
        -- intro F. inversion F. assumption.
Qed.

End Aggregation.

Section Matching.
Import Py Collector.

Variable ddl_target : string -> option string.

Lemma attribute_find (executed_models : list string) (target : string) (q : query)
    (m : gmap string (list query)) :
  attribute executed_models target q m
  = match List.find (fun model => String.eqb (upper model) target) executed_models with
    | Some model => <[model := default [] (m !! model) ++ [q]]> m
    | None => m
    end.
Proof.
  induction executed_models as [|model rest IH]; [reflexivity|].
  cbn [attribute List.find]. destruct (String.eqb (upper model) target);
    [reflexivity | exact IH].
Qed.

Lemma empty_query_map_lookup (executed_models : list string) (k : string) :
  (In k executed_models -> empty_query_map executed_models !! k = Some []) /\
  (~ In k executed_models -> empty_query_map executed_models !! k = None).
Proof.
  induction executed_models as [|model rest [IH1 IH2]].
  - split; [intros [] | intros _; apply lookup_empty].
  - cbn [empty_query_map]. destruct (decide (model = k)) as [->|N].
    + split; [intros _; apply lookup_insert_eq|].
      intro C. exfalso. apply C. left. reflexivity.
    + rewrite lookup_insert_ne by exact N. split.
      * intros [C|C]; [contradiction | exact (IH1 C)].
      * intro C. apply IH2. intro D. apply C. right. exact D.
Qed.

Lemma match_loop_lookup (executed_models : list string) (queries : list query) :
  forall m0 m' : gmap string (list query),
    (forall model, In model executed_models -> is_Some (m0 !! model)) ->
    match_loop ddl_target queries executed_models m0 = Return m' ->
    forall k,
      m' !! k
      = match m0 !! k with
        | Some l =>
            Some (l ++ List.filter (Spec.attributed_to ddl_target executed_models k)
                                   queries)
        | None => None
        end.
Proof.
  induction queries as [|q rest IH]; intros m0 m' Dom H k.
  - cbn in H. inversion H. subst m'. cbn [List.filter].
    destruct (m0 !! k); [rewrite app_nil_r|]; reflexivity.
  - cbn [match_loop] in H.
    destruct (QUERY_TEXT q) as [text|] eqn:T; [|discriminate H].
    cbn [List.filter].
    assert (A : Spec.attributed_to ddl_target executed_models k q
                = match ddl_target (upper text) with
                  | Some target =>
                      match List.find (fun model => String.eqb (upper model) target)
                                      executed_models with
                      | Some model => String.eqb model k
                      | None => false
                      end
                  | None => false
                  end).
    { unfold Spec.attributed_to, Spec.first_match. rewrite T.
      destruct (ddl_target (upper text)); reflexivity. }
    rewrite A. clear A.
    destruct (ddl_target (upper text)) as [target|].
    + rewrite attribute_find in H.
      destruct (List.find (fun model => String.eqb (upper model) target)
                          executed_models) as [model|] eqn:F.
      * apply List.find_some in F as [Fin _].
        destruct (Dom model Fin) as [lm Hlm]. rewrite Hlm in H. cbn [default] in H.
        assert (Dom' : forall model0, In model0 executed_models ->
                         is_Some (<[model := lm ++ [q]]> m0 !! model0)).
        { intros model0 I0. destruct (decide (model = model0)) as [->|N].
          - rewrite lookup_insert_eq. eexists. reflexivity.
          - rewrite lookup_insert_ne by exact N. exact (Dom model0 I0). }
        rewrite (IH _ _ Dom' H k).
        destruct (String.eqb_spec model k) as [->|N].
        -- rewrite lookup_insert_eq, Hlm, <- app_assoc. reflexivity.
        -- rewrite lookup_insert_ne by exact N. reflexivity.
      * exact (IH _ _ Dom H k).
    + exact (IH _ _ Dom H k).
Qed.

(** X27.  Attribution of history records.  When matching succeeds, every
    executed model has an entry holding, in history order, exactly the
    records whose DDL target (in the upper-cased text) is the model's
    upper-case name and for which it is the first such model in the list;
    nothing else has an entry; and no record is attributed to two
    models. *)
Theorem queries_go_to_first_matching_model (queries : list query)
    (executed_models : list string) (m : gmap string (list query)) :
  _match_queries_to_models ddl_target queries executed_models = Return m ->
  (forall k, In k executed_models ->
     m !! k = Some (List.filter (Spec.attributed_to ddl_target executed_models k)
                                queries)) /\
  (forall k, ~ In k executed_models -> m !! k = None) /\
  (forall q k1 k2,
     Spec.attributed_to ddl_target executed_models k1 q = true ->
     Spec.attributed_to ddl_target executed_models k2 q = true -> k1 = k2).
Proof.
  intro H. unfold _match_queries_to_models in H.
  assert (Dom : forall model, In model executed_models ->
                  is_Some (empty_query_map executed_models !! model)).
  { intros model I. rewrite (proj1 (empty_query_map_lookup executed_models model) I).
    eexists. reflexivity. }
  pose proof (match_loop_lookup executed_models queries _ m Dom H) as L.
  split; [|split].
  - intros k I. rewrite L, (proj1 (empty_query_map_lookup executed_models k) I).
    reflexivity.
  - intros k I. rewrite L, (proj2 (empty_query_map_lookup executed_models k) I).
    reflexivity.
  - intros q k1 k2. unfold Spec.attributed_to.
    destruct (Spec.first_match ddl_target executed_models q) as [model|];
      [|discriminate].
    intros A B. apply String.eqb_eq in A, B. congruence.
Qed.

(** X28.  A history record without query text ([NULL]) makes matching raise
    [AttributeError], whatever the other records are; and matching raises
    for no other reason. *)
Theorem null_query_text_aborts_matching (queries : list query)
    (executed_models : list string) :
  (Exists (fun q => QUERY_TEXT q = None) queries <->
   _match_queries_to_models ddl_target queries executed_models = Raise AttributeError) /\
  (forall e, _match_queries_to_models ddl_target queries executed_models = Raise e ->
     e = AttributeError).
Proof.
  unfold _match_queries_to_models.
  generalize (empty_query_map executed_models).
  induction queries as [|q rest IH]; intro m0.
  - cbn. split; [split|]; intro H; try discriminate H.
    + inversion H.
    + intro C. discriminate C.
  - cbn [match_loop]. destruct (QUERY_TEXT q) as [text|] eqn:T.
    + assert (Step : forall m1,
                (Exists (fun q0 => QUERY_TEXT q0 = None) (q :: rest) <->
                 match_loop ddl_target rest executed_models m1 = Raise AttributeError) /\
                (forall e, match_loop ddl_target rest executed_models m1 = Raise e ->
                   e = AttributeError)).
      { intro m1. destruct (IH m1) as [A B]. split; [|exact B].
        rewrite <- A. split.
        - intro X. inversion X as [? ? C|? ? C]; subst; [congruence | exact C].
        - intro X. apply List.Exists_cons_tl. exact X. }
      destruct (ddl_target (upper text)); apply Step.
    + split; [split|].
      * reflexivity.
      * intros _. apply List.Exists_cons_hd. exact T.
      * intros e H. inversion H. reflexivity.
Qed.

End Matching.

Section MatchingExample.
Import Py Collector.

Lemma queries_go_to_first_matching_model_witness :
  let ddl_target := fun text : string =>
    if String.eqb text "CREATE OR REPLACE TABLE DB.S.ORDERS AS SELECT 1"
    then Some "ORDERS" else None in
  let q1 := {| QUERY_ID := "01";
               QUERY_TEXT := Some "create or replace table db.s.orders as select 1";
               TOTAL_ELAPSED_TIME := Some 1200; BYTES_SCANNED := None;
               ROWS_PRODUCED := Some 10 |} in
  let q2 := {| QUERY_ID := "02"; QUERY_TEXT := Some "select 1";
               TOTAL_ELAPSED_TIME := Some 3; BYTES_SCANNED := Some 0;
               ROWS_PRODUCED := Some 1 |} in
  let m : gmap string (list query) :=
    match _match_queries_to_models ddl_target [q1; q2] ["orders"; "ORDERS"] with
    | Return m => m
    | Raise _ => ∅
    end in
  _match_queries_to_models ddl_target [q1; q2] ["orders"; "ORDERS"] = Return m /\
  m !! "orders" = Some [q1] /\
  m !! "ORDERS" = Some [].
Proof.
  intros ddl_target q1 q2 m.
  assert (H : _match_queries_to_models ddl_target [q1; q2] ["orders"; "ORDERS"]
              = Return m) by reflexivity.
  split; [exact H|].
  destruct (queries_go_to_first_matching_model ddl_target [q1; q2]
              ["orders"; "ORDERS"] m H) as (A & _ & _).
  split.
  - rewrite (A "orders" ltac:(left; reflexivity)). reflexivity.
  - rewrite (A "ORDERS" ltac:(right; left; reflexivity)). reflexivity.
Defined.

End MatchingExample.

Section FinalModels.
Import Py Orchestrator.

Lemma find_app {A : Type} (p : A -> bool) (l1 l2 : list A) :
  List.find p (l1 ++ l2)
  = match List.find p l1 with
    | Some x => Some x
    | None => List.find p l2
    end.
Proof.
  induction l1 as [|x l1 IH]; [reflexivity|].
  cbn [app List.find]. destruct (p x); [reflexivity | exact IH].
Qed.

Lemma fqn_lower_map_lookup (fqn_models : list string) :
  forall (acc : gmap string string) (k : string),
    fqn_lower_map_from fqn_models acc !! k
    = match List.find (Spec.names_model k) (rev fqn_models) with
      | Some fqn => Some fqn
      | None => acc !! k
      end.
Proof.
  induction fqn_models as [|fqn rest IH]; intros acc k; [reflexivity|].
  cbn [fqn_lower_map_from rev]. rewrite IH, find_app.
  destruct (List.find (Spec.names_model k) (rev rest)); [reflexivity|].
  cbn [List.find]. unfold Spec.names_model at 1.
  destruct (String.eqb_spec (lower (last_segment "." fqn)) k) as [->|N].
  - apply lookup_insert_eq.
  - apply lookup_insert_ne. exact N.
Qed.

Lemma existsb_find_rev (p : string -> bool) (l : list string) :
  existsb p l = match List.find p (rev l) with Some _ => true | None => false end.
Proof.
  induction l as [|x l IH]; [reflexivity|].
  cbn [existsb rev]. rewrite find_app, IH.
  destruct (List.find p (rev l)); [apply orb_true_r|].
  cbn [List.find]. destruct (p x); reflexivity.
Qed.

(** X29.  The probe targets of a pipeline.  Their model names are the final
    models of the configuration, lower-cased and in configuration order,
    that some fully qualified name of the run names; a final model absent
    from the run is dropped silently.  Each target carries the LAST fully
    qualified name of the run with that model name, so of two schemas
    holding the same model only the later one is probed. *)
Theorem final_models_select_probe_targets (fqn_models final_models : list string) :
  let targets := filter_fqn_models_by_final_models fqn_models final_models in
  map pt_model_name targets
  = List.filter (fun m => existsb (Spec.names_model m) fqn_models)
                (map lower final_models) /\
  (forall t, In t targets ->
     List.find (Spec.names_model (pt_model_name t)) (rev fqn_models) = Some (pt_fqn t) /\
     In (pt_fqn t) fqn_models /\
     lower (last_segment "." (pt_fqn t)) = pt_model_name t).
Proof.
  cbv zeta. unfold filter_fqn_models_by_final_models.
  induction (map lower final_models) as [|m rest [IH1 IH2]].
  - split; [reflexivity | intros t []].
  - cbn [select_final List.filter].
    rewrite fqn_lower_map_lookup, lookup_empty, existsb_find_rev.
    destruct (List.find (Spec.names_model m) (rev fqn_models)) as [fqn|] eqn:F.
    + split.
      * cbn [map pt_model_name]. rewrite IH1. reflexivity.
      * intros t [<-|I]; [|exact (IH2 t I)].
        cbn [pt_model_name pt_fqn]. split; [exact F|].
        apply List.find_some in F as [Fin Fm]. split.
        -- apply in_rev. exact Fin.
        -- apply String.eqb_eq. exact Fm.
    + split; [exact IH1 | exact IH2].
Qed.

End FinalModels.
